(** * Escrow settlement engine: a shallow embedding of
      [lib/actions/escrow.actions.ts] (second part of
      [src/lib/cron/escrow-auto-release.ts]) and its properties.

    Conventions of the embedding.
    - Instants ([new Date()], ISO strings written by [toISOString]) are
      milliseconds since the epoch, in [Z].  A date read back from a stored
      string is a [JsDate]: the string may fail to parse ([InvalidDate], the
      JavaScript "Invalid Date", every comparison with it is false).
    - The JSON columns of a document (conditions, status history, shipping
      details) are kept as values; they are written by [JSON.stringify] and
      read by [JSON.parse] of the same shape.
    - Amounts are integral numbers of cents, in [Z]; the fee computation is
      done on IEEE-754 binary64 numbers as JavaScript does.
    - Every asynchronous function is an [Action]: a state transformer on the
      [World] (document store, event log, payment-rail call log) that either
      returns or throws. *)

From Stdlib Require Import ZArith Bool List Lia.
From Stdlib Require Import Floats.SpecFloat.
From stdpp Require Import base option list strings pretty gmap.

Local Open Scope string_scope.
Local Open Scope list_scope.
Local Open Scope Z_scope.

(* ===================================================================== *)
(** * JavaScript values used by the engine                                *)
(* ===================================================================== *)

(** [new Date(s)] for a stored string [s]. *)
Inductive JsDate : Type :=
| InvalidDate
| DateAt (ms : Z).

#[global] Instance JsDate_eq_dec : EqDecision JsDate.
Proof. solve_decision. Defined.

(** [now >= d] and [now > d], where [now] is [new Date()]. *)
Definition date_geb (now : Z) (d : JsDate) : bool :=
  match d with
  | InvalidDate => false
  | DateAt ms => ms <=? now
  end.

Definition date_gtb (now : Z) (d : JsDate) : bool :=
  match d with
  | InvalidDate => false
  | DateAt ms => ms <? now
  end.

(** [!!s] for an optional string field. *)
Definition truthy_string (s : option string) : bool :=
  match s with
  | Some x => negb (String.eqb x "")
  | None => false
  end.

(** [b === true] for an optional boolean field. *)
Definition is_true_field (b : option bool) : bool :=
  match b with
  | Some true => true
  | _ => false
  end.

(** [a || b] on strings: [a] unless it is missing or empty. *)
Definition string_or (a : option string) (b : string) : string :=
  match a with
  | Some x => if String.eqb x "" then b else x
  | None => b
  end.

(** [a || b] on numbers: [a] unless it is missing or zero. *)
Definition number_or (a : option Z) (b : Z) : Z :=
  match a with
  | Some x => if x =? 0 then b else x
  | None => b
  end.

(* ===================================================================== *)
(** * JavaScript numbers: IEEE-754 binary64                               *)
(* ===================================================================== *)

Module Js.

Definition prec : Z := 53.
Definition emax : Z := 1024.

Definition number : Type := spec_float.

Definition of_Z (z : Z) : number := binary_normalize prec emax z 0 false.
Definition mul : number -> number -> number := SFmul prec emax.
Definition add : number -> number -> number := SFadd prec emax.
Definition div : number -> number -> number := SFdiv prec emax.

(** A decimal literal [m / 10^k] such as [2.5] or [2.9]: the nearest
    binary64 number, obtained here by one correctly rounded division
    (exact for the literals used below, whose numerator and denominator
    are small integers). *)
Definition decimal (m : Z) (k : nat) : number :=
  div (of_Z m) (of_Z (10 ^ Z.of_nat k)).

(** [Math.round]: the integer nearest to [x], ties towards +infinity;
    [None] stands for the results that are not integers (NaN, +-infinity). *)
Definition Math_round (x : number) : option Z :=
  match x with
  | S754_zero _ => Some 0
  | S754_finite s m e =>
      let sm := if s then Z.neg m else Z.pos m in
      if 0 <=? e then Some (sm * 2 ^ e)
      else Some ((2 * sm + 2 ^ (- e)) / 2 ^ (1 - e))
  | S754_infinity _ => None
  | S754_nan => None
  end.

End Js.


(* ===================================================================== *)
(** * Data model                                                          *)
(* ===================================================================== *)

Inductive EscrowStatus : Type :=
| pending_payment | payment_received | shipped | in_transit | delivered
| confirmed | auto_released | released | disputed | refunded | cancelled.

#[global] Instance EscrowStatus_eq_dec : EqDecision EscrowStatus.
Proof. solve_decision. Defined.

(** [SettlementConditionType]; [other_type] is any string that the
    [switch] of [evaluateCondition] does not list. *)
Inductive SettlementConditionType : Type :=
| tracking_confirmation | time_based | buyer_confirmation
| delivery_confirmation | milestone_based | inspection_period
| dual_signature
| other_type (name : string).

#[global] Instance SettlementConditionType_eq_dec :
  EqDecision SettlementConditionType.
Proof. solve_decision. Defined.

Record Milestone : Type := {
  milestoneId : string;
  milestoneDescription : string;
  percentage : Z;
  completed : bool;
}.

(** The [config] bag of a condition, with the keys the engine reads or
    writes; a missing key is [None]. *)
Record ConditionConfig : Type := {
  requireTracking : option bool;
  trackingNumber : option string;
  carrierName : option string;
  deliveryConfirmed : option bool;
  confirmationRequired : option bool;
  autoReleaseDays : option Z;
  autoReleaseAt : option JsDate;
  milestones : option (list Milestone);
  inspectionDeadline : option JsDate;
  buyerSigned : option bool;
  sellerSigned : option bool;
}.


(** Modelled from the spec: the declaration of [SettlementCondition]
    (types/index.d.ts) is not part of the sources; the fields are the ones
    the code reads and writes, plus the optional [required] flag that the
    specification and ESCROW_SETTLEMENT_EXAMPLES.md describe.  [config] is
    always present: the code reads its keys without a guard. *)
Record SettlementCondition : Type := {
  type : SettlementConditionType;
  description : string;
  priority : Z;
  required : option bool;
  config : ConditionConfig;
  isMet : bool;
  metAt : option Z;
}.

Record StatusEntry : Type := {
  entryStatus : EscrowStatus;
  timestamp : Z;
  triggeredBy : string;
  note : string;
}.

Record ShippingDetails : Type := {
  carrier : string;
  shipTrackingNumber : string;
  trackingUrl : option string;
  estimatedDelivery : option string;
  shippedAt : option Z;
  actualDelivery : option string;
}.

Inductive ItemType : Type :=
| physical_goods | digital_goods | service | subscription.

(** A document of the escrow-transactions collection. *)
Record EscrowTransaction : Type := {
  buyerId : string;
  sellerId : string;
  sellerStripeAccountId : string;
  itemDescription : string;
  itemType : ItemType;
  amount : Z;
  platformFee : Z;
  sellerAmount : Z;
  currency : string;
  stripePaymentIntentId : string;
  stripeChargeId : option string;
  stripeTransferId : option string;
  stripePayoutId : option string;
  status : EscrowStatus;
  statusHistory : list StatusEntry;
  settlementConditions : list SettlementCondition;
  allConditionsMet : bool;
  shippingDetails : option ShippingDetails;
  disputeReason : option string;
  disputedAt : option Z;
  disputePeriodDays : Z;
  disputePeriodEndsAt : option JsDate;
}.

(* ===================================================================== *)
(** * Condition evaluator                                                 *)
(* ===================================================================== *)

(** The [switch] of [evaluateCondition]: the value of [condition.isMet]
    after it.  A branch whose guard fails assigns nothing, so the stored
    value stays. *)
Definition evaluate_isMet (condition : SettlementCondition)
    (escrow : EscrowTransaction) (now : Z) : bool :=
  let cfg := config condition in
  match type condition with
  | tracking_confirmation =>
      let hasTracking := truthy_string (trackingNumber cfg) in
      let isDelivered := is_true_field (deliveryConfirmed cfg) in
      hasTracking && isDelivered
  | time_based =>
      match autoReleaseAt cfg with
      | Some releaseDate => date_geb now releaseDate
      | None => isMet condition
      end
  | buyer_confirmation => bool_decide (status escrow = confirmed)
  | delivery_confirmation =>
      match shippingDetails escrow with
      | Some shipping => truthy_string (actualDelivery shipping)
      | None => isMet condition
      end
  | milestone_based =>
      match milestones cfg with
      | Some ms => forallb completed ms
      | None => isMet condition
      end
  | inspection_period =>
      match inspectionDeadline cfg with
      | Some deadline =>
          date_geb now deadline && negb (bool_decide (status escrow = disputed))
      | None => isMet condition
      end
  | dual_signature =>
      is_true_field (buyerSigned cfg) && is_true_field (sellerSigned cfg)
  | other_type _ => false
  end.

Definition evaluateCondition (condition : SettlementCondition)
    (escrow : EscrowTransaction) (now : Z) : SettlementCondition :=
  let met := evaluate_isMet condition escrow now in
  {| type := type condition;
     description := description condition;
     priority := priority condition;
     required := required condition;
     config := config condition;
     isMet := met;
     metAt := if met && negb (bool_decide (is_Some (metAt condition)))
              then Some now else metAt condition |}.

(* ===================================================================== *)
(** * Documents and their partial updates                                 *)
(* ===================================================================== *)

(** One key of the object passed to [database.updateDocument]. *)
Inductive FieldUpdate : Type :=
| set_status (s : EscrowStatus)
| set_statusHistory (h : list StatusEntry)
| set_shippingDetails (d : ShippingDetails)
| set_settlementConditions (cs : list SettlementCondition)
| set_allConditionsMet (b : bool)
| set_stripeChargeId (i : string)
| set_stripeTransferId (i : string)
| set_stripePayoutId (i : string)
| set_disputeReason (r : string)
| set_disputedAt (t : Z).

Definition apply_update (e : EscrowTransaction) (u : FieldUpdate)
    : EscrowTransaction :=
  match u with
  | set_status s =>
      {| buyerId := buyerId e; sellerId := sellerId e;
         sellerStripeAccountId := sellerStripeAccountId e;
         itemDescription := itemDescription e; itemType := itemType e;
         amount := amount e; platformFee := platformFee e;
         sellerAmount := sellerAmount e; currency := currency e;
         stripePaymentIntentId := stripePaymentIntentId e;
         stripeChargeId := stripeChargeId e;
         stripeTransferId := stripeTransferId e;
         stripePayoutId := stripePayoutId e; status := s;
         statusHistory := statusHistory e;
         settlementConditions := settlementConditions e;
         allConditionsMet := allConditionsMet e;
         shippingDetails := shippingDetails e;
         disputeReason := disputeReason e; disputedAt := disputedAt e;
         disputePeriodDays := disputePeriodDays e;
         disputePeriodEndsAt := disputePeriodEndsAt e |}
  | set_statusHistory h =>
      {| buyerId := buyerId e; sellerId := sellerId e;
         sellerStripeAccountId := sellerStripeAccountId e;
         itemDescription := itemDescription e; itemType := itemType e;
         amount := amount e; platformFee := platformFee e;
         sellerAmount := sellerAmount e; currency := currency e;
         stripePaymentIntentId := stripePaymentIntentId e;
         stripeChargeId := stripeChargeId e;
         stripeTransferId := stripeTransferId e;
         stripePayoutId := stripePayoutId e; status := status e;
         statusHistory := h; settlementConditions := settlementConditions e;
         allConditionsMet := allConditionsMet e;
         shippingDetails := shippingDetails e;
         disputeReason := disputeReason e; disputedAt := disputedAt e;
         disputePeriodDays := disputePeriodDays e;
         disputePeriodEndsAt := disputePeriodEndsAt e |}
  | set_shippingDetails d =>
      {| buyerId := buyerId e; sellerId := sellerId e;
         sellerStripeAccountId := sellerStripeAccountId e;
         itemDescription := itemDescription e; itemType := itemType e;
         amount := amount e; platformFee := platformFee e;
         sellerAmount := sellerAmount e; currency := currency e;
         stripePaymentIntentId := stripePaymentIntentId e;
         stripeChargeId := stripeChargeId e;
         stripeTransferId := stripeTransferId e;
         stripePayoutId := stripePayoutId e; status := status e;
         statusHistory := statusHistory e;
         settlementConditions := settlementConditions e;
         allConditionsMet := allConditionsMet e; shippingDetails := Some d;
         disputeReason := disputeReason e; disputedAt := disputedAt e;
         disputePeriodDays := disputePeriodDays e;
         disputePeriodEndsAt := disputePeriodEndsAt e |}
  | set_settlementConditions cs =>
      {| buyerId := buyerId e; sellerId := sellerId e;
         sellerStripeAccountId := sellerStripeAccountId e;
         itemDescription := itemDescription e; itemType := itemType e;
         amount := amount e; platformFee := platformFee e;
         sellerAmount := sellerAmount e; currency := currency e;
         stripePaymentIntentId := stripePaymentIntentId e;
         stripeChargeId := stripeChargeId e;
         stripeTransferId := stripeTransferId e;
         stripePayoutId := stripePayoutId e; status := status e;
         statusHistory := statusHistory e; settlementConditions := cs;
         allConditionsMet := allConditionsMet e;
         shippingDetails := shippingDetails e;
         disputeReason := disputeReason e; disputedAt := disputedAt e;
         disputePeriodDays := disputePeriodDays e;
         disputePeriodEndsAt := disputePeriodEndsAt e |}
  | set_allConditionsMet b =>
      {| buyerId := buyerId e; sellerId := sellerId e;
         sellerStripeAccountId := sellerStripeAccountId e;
         itemDescription := itemDescription e; itemType := itemType e;
         amount := amount e; platformFee := platformFee e;
         sellerAmount := sellerAmount e; currency := currency e;
         stripePaymentIntentId := stripePaymentIntentId e;
         stripeChargeId := stripeChargeId e;
         stripeTransferId := stripeTransferId e;
         stripePayoutId := stripePayoutId e; status := status e;
         statusHistory := statusHistory e;
         settlementConditions := settlementConditions e;
         allConditionsMet := b; shippingDetails := shippingDetails e;
         disputeReason := disputeReason e; disputedAt := disputedAt e;
         disputePeriodDays := disputePeriodDays e;
         disputePeriodEndsAt := disputePeriodEndsAt e |}
  | set_stripeChargeId i =>
      {| buyerId := buyerId e; sellerId := sellerId e;
         sellerStripeAccountId := sellerStripeAccountId e;
         itemDescription := itemDescription e; itemType := itemType e;
         amount := amount e; platformFee := platformFee e;
         sellerAmount := sellerAmount e; currency := currency e;
         stripePaymentIntentId := stripePaymentIntentId e;
         stripeChargeId := Some i; stripeTransferId := stripeTransferId e;
         stripePayoutId := stripePayoutId e; status := status e;
         statusHistory := statusHistory e;
         settlementConditions := settlementConditions e;
         allConditionsMet := allConditionsMet e;
         shippingDetails := shippingDetails e;
         disputeReason := disputeReason e; disputedAt := disputedAt e;
         disputePeriodDays := disputePeriodDays e;
         disputePeriodEndsAt := disputePeriodEndsAt e |}
  | set_stripeTransferId i =>
      {| buyerId := buyerId e; sellerId := sellerId e;
         sellerStripeAccountId := sellerStripeAccountId e;
         itemDescription := itemDescription e; itemType := itemType e;
         amount := amount e; platformFee := platformFee e;
         sellerAmount := sellerAmount e; currency := currency e;
         stripePaymentIntentId := stripePaymentIntentId e;
         stripeChargeId := stripeChargeId e; stripeTransferId := Some i;
         stripePayoutId := stripePayoutId e; status := status e;
         statusHistory := statusHistory e;
         settlementConditions := settlementConditions e;
         allConditionsMet := allConditionsMet e;
         shippingDetails := shippingDetails e;
         disputeReason := disputeReason e; disputedAt := disputedAt e;
         disputePeriodDays := disputePeriodDays e;
         disputePeriodEndsAt := disputePeriodEndsAt e |}
  | set_stripePayoutId i =>
      {| buyerId := buyerId e; sellerId := sellerId e;
         sellerStripeAccountId := sellerStripeAccountId e;
         itemDescription := itemDescription e; itemType := itemType e;
         amount := amount e; platformFee := platformFee e;
         sellerAmount := sellerAmount e; currency := currency e;
         stripePaymentIntentId := stripePaymentIntentId e;
         stripeChargeId := stripeChargeId e;
         stripeTransferId := stripeTransferId e; stripePayoutId := Some i;
         status := status e; statusHistory := statusHistory e;
         settlementConditions := settlementConditions e;
         allConditionsMet := allConditionsMet e;
         shippingDetails := shippingDetails e;
         disputeReason := disputeReason e; disputedAt := disputedAt e;
         disputePeriodDays := disputePeriodDays e;
         disputePeriodEndsAt := disputePeriodEndsAt e |}
  | set_disputeReason r =>
      {| buyerId := buyerId e; sellerId := sellerId e;
         sellerStripeAccountId := sellerStripeAccountId e;
         itemDescription := itemDescription e; itemType := itemType e;
         amount := amount e; platformFee := platformFee e;
         sellerAmount := sellerAmount e; currency := currency e;
         stripePaymentIntentId := stripePaymentIntentId e;
         stripeChargeId := stripeChargeId e;
         stripeTransferId := stripeTransferId e;
         stripePayoutId := stripePayoutId e; status := status e;
         statusHistory := statusHistory e;
         settlementConditions := settlementConditions e;
         allConditionsMet := allConditionsMet e;
         shippingDetails := shippingDetails e; disputeReason := Some r;
         disputedAt := disputedAt e;
         disputePeriodDays := disputePeriodDays e;
         disputePeriodEndsAt := disputePeriodEndsAt e |}
  | set_disputedAt t =>
      {| buyerId := buyerId e; sellerId := sellerId e;
         sellerStripeAccountId := sellerStripeAccountId e;
         itemDescription := itemDescription e; itemType := itemType e;
         amount := amount e; platformFee := platformFee e;
         sellerAmount := sellerAmount e; currency := currency e;
         stripePaymentIntentId := stripePaymentIntentId e;
         stripeChargeId := stripeChargeId e;
         stripeTransferId := stripeTransferId e;
         stripePayoutId := stripePayoutId e; status := status e;
         statusHistory := statusHistory e;
         settlementConditions := settlementConditions e;
         allConditionsMet := allConditionsMet e;
         shippingDetails := shippingDetails e;
         disputeReason := disputeReason e; disputedAt := Some t;
         disputePeriodDays := disputePeriodDays e;
         disputePeriodEndsAt := disputePeriodEndsAt e |}
  end.

Definition apply_updates (e : EscrowTransaction) (us : list FieldUpdate)
    : EscrowTransaction :=
  fold_left apply_update us e.

(* ===================================================================== *)
(** * The world: document store, audit log, payment rail                  *)
(* ===================================================================== *)

Record StripeAccount : Type := {
  userId : string;
  stripeAccountId : string;
  chargesEnabled : bool;
}.

Record EscrowPlatformConfig : Type := {
  platformFeePercentage : Js.number;
  platformFeeFixed : Z;
  stripeFeePercentage : Js.number;
  stripeFeeFixed : Z;
  defaultDisputePeriodDays : Z;
  defaultAutoReleaseDays : Z;
  defaultInspectionDays : Z;
  minTransactionAmount : Z;
  maxTransactionAmount : Z;
  requiresTrackingAbove : Z;
}.

(** A document of the escrow-events collection (the free-text description
    and the data payload are not kept). *)
Record EscrowEvent : Type := {
  escrowTransactionId : string;
  eventType : string;
  eventTriggeredBy : string;
}.

(** A request sent to the payment rail. *)
Inductive RailCall : Type :=
| paymentIntents_create (amt : Z) (cur : string)
| paymentIntents_confirm (intent payment_method : string)
| paymentIntents_capture (intent : string)
| transfers_create (amt : Z) (cur destination transfer_group : string)
| payouts_create (amt : Z) (cur stripeAccount transferId : string)
| refunds_create (intent : string) (amt : Z).

#[global] Instance RailCall_eq_dec : EqDecision RailCall.
Proof. solve_decision. Defined.

Record World : Type := {
  escrows : gmap string EscrowTransaction;
  sellerAccounts : list StripeAccount;
  platformConfigs : list EscrowPlatformConfig;
  events : list EscrowEvent;
  railCalls : list RailCall;
}.

Definition with_escrows (w : World) (m : gmap string EscrowTransaction)
    : World :=
  {| escrows := m; sellerAccounts := sellerAccounts w;
     platformConfigs := platformConfigs w; events := events w;
     railCalls := railCalls w |}.

Definition with_events (w : World) (evs : list EscrowEvent) : World :=
  {| escrows := escrows w; sellerAccounts := sellerAccounts w;
     platformConfigs := platformConfigs w; events := evs;
     railCalls := railCalls w |}.

Definition with_railCalls (w : World) (cs : list RailCall) : World :=
  {| escrows := escrows w; sellerAccounts := sellerAccounts w;
     platformConfigs := platformConfigs w; events := events w;
     railCalls := cs |}.

(** What the payment rail answers to a request. *)
Inductive Reply : Type :=
| Accepted (ident : string)
| Rejected (message : string).

(** What one call of an exported function finds outside the store: the
    clock, the identifier [ID.unique()] would draw, and the answers the
    payment rail gives to the requests the call may send. *)
Record Env : Type := {
  clock : Z;
  freshId : string;
  intentReply : Reply;
  confirmReply : Reply;
  captureReply : Reply;
  transferReply : Reply;
  payoutReply : Reply;
  refundReply : Reply;
}.

(* ===================================================================== *)
(** * Actions: state and exceptions                                       *)
(* ===================================================================== *)

Inductive Outcome (A : Type) : Type :=
| Returned (a : A)
| Thrown (message : string).
Arguments Returned {A} a.
Arguments Thrown {A} message.

Definition Action (A : Type) : Type := World -> World * Outcome A.

#[global] Instance Action_ret : MRet Action :=
  fun A (a : A) (w : World) => (w, Returned a).

#[global] Instance Action_bind : MBind Action :=
  fun A B (k : A -> Action B) (m : Action A) (w : World) =>
    match m w with
    | (w', Returned a) => k a w'
    | (w', Thrown msg) => (w', Thrown msg)
    end.

Definition throw {A : Type} (msg : string) : Action A :=
  fun w => (w, Thrown msg).

(** [try { body } catch (error) { handler(error.message) }] *)
Definition try_catch {A : Type} (body : Action A)
    (handler : string -> Action A) : Action A :=
  fun w =>
    match body w with
    | (w', Returned a) => (w', Returned a)
    | (w', Thrown msg) => handler msg w'
    end.

(** ** The document store *)

Definition not_found : string :=
  "Document with the requested ID could not be found.".

Definition getDocument (escrowId : string) : Action EscrowTransaction :=
  fun w =>
    match escrows w !! escrowId with
    | Some e => (w, Returned e)
    | None => (w, Thrown not_found)
    end.

Definition updateDocument (escrowId : string) (us : list FieldUpdate)
    : Action unit :=
  fun w =>
    match escrows w !! escrowId with
    | Some e =>
        (with_escrows w (<[escrowId := apply_updates e us]> (escrows w)),
         Returned tt)
    | None => (w, Thrown not_found)
    end.

Definition createDocument (newId : string) (e : EscrowTransaction)
    : Action unit :=
  fun w =>
    match escrows w !! newId with
    | Some _ => (w, Thrown "Document with the requested ID already exists.")
    | None => (with_escrows w (<[newId := e]> (escrows w)), Returned tt)
    end.

(** [logEscrowEvent]: the write is wrapped in a [try] whose [catch] only
    prints, so the caller never sees a failure. *)
Definition logEscrowEvent (escrowId : string) (ty by_ : string)
    : Action unit :=
  fun w =>
    (with_events w (events w ++ [ {| escrowTransactionId := escrowId;
                                      eventType := ty;
                                      eventTriggeredBy := by_ |} ]),
     Returned tt).

(** ** The payment rail *)

Definition rail (call : RailCall) (reply : Reply) : Action string :=
  fun w =>
    let w' := with_railCalls w (railCalls w ++ [call]) in
    match reply with
    | Accepted i => (w', Returned i)
    | Rejected msg => (w', Thrown msg)
    end.

(* ===================================================================== *)
(** * Results of the exported functions                                   *)
(* ===================================================================== *)

Record OpResult : Type := {
  success : bool;
  error : option string;
}.

Definition ok : OpResult := {| success := true; error := None |}.
Definition failure (msg : string) : OpResult :=
  {| success := false; error := Some msg |}.

Record Evaluation : Type := {
  res_allConditionsMet : bool;
  unmetConditions : list string;
  res_released : option bool;
}.

(* ===================================================================== *)
(** * Fund release                                                        *)
(* ===================================================================== *)

Definition releaseFundsToSeller (env : Env) (escrowId : string)
    : Action OpResult :=
  try_catch
    (escrow ← getDocument escrowId;
     if negb (allConditionsMet escrow) then
       mret (failure "Not all conditions are met")
     else if bool_decide (status escrow ∈ [released; refunded]) then
       mret (failure "Funds already released or refunded")
     else
       transfer ← rail (transfers_create (sellerAmount escrow)
                          (currency escrow) (sellerStripeAccountId escrow)
                          escrowId)
                       (transferReply env);
       payout ← rail (payouts_create (sellerAmount escrow) (currency escrow)
                        (sellerStripeAccountId escrow) transfer)
                     (payoutReply env);
       let statusHistory' :=
         statusHistory escrow ++
           [ {| entryStatus := released; timestamp := clock env;
                triggeredBy := "system";
                note := "All conditions met - funds released to seller" |} ]
       in
       updateDocument escrowId
         [ set_status released; set_statusHistory statusHistory';
           set_stripeTransferId transfer; set_stripePayoutId payout ];;
       logEscrowEvent escrowId "released" "system";;
       mret ok)
    (fun msg => mret (failure msg)).

Definition refundToBuyer (env : Env) (escrowId : string)
    (refundAmount : option Z) (reason : option string) : Action OpResult :=
  try_catch
    (escrow ← getDocument escrowId;
     if bool_decide (status escrow ∈ [refunded; released]) then
       mret (failure "Transaction already completed")
     else
       let amountToRefund := number_or refundAmount (amount escrow) in
       refund ← rail (refunds_create (stripePaymentIntentId escrow)
                        amountToRefund)
                     (refundReply env);
       let statusHistory' :=
         statusHistory escrow ++
           [ {| entryStatus := refunded; timestamp := clock env;
                triggeredBy := "platform";
                note := string_or reason "Refund issued" |} ] in
       updateDocument escrowId
         [ set_status refunded; set_statusHistory statusHistory' ];;
       logEscrowEvent escrowId "refunded" "platform";;
       mret ok)
    (fun msg => mret (failure msg)).

(* ===================================================================== *)
(** * Settlement condition engine                                         *)
(* ===================================================================== *)

(** [{ ...config, ...updates }] *)
Definition override {A : Type} (new old : option A) : option A :=
  match new with
  | Some v => Some v
  | None => old
  end.

Definition merge_config (cfg updates : ConditionConfig) : ConditionConfig :=
  {| requireTracking := override (requireTracking updates) (requireTracking cfg);
     trackingNumber := override (trackingNumber updates) (trackingNumber cfg);
     carrierName := override (carrierName updates) (carrierName cfg);
     deliveryConfirmed :=
       override (deliveryConfirmed updates) (deliveryConfirmed cfg);
     confirmationRequired :=
       override (confirmationRequired updates) (confirmationRequired cfg);
     autoReleaseDays := override (autoReleaseDays updates) (autoReleaseDays cfg);
     autoReleaseAt := override (autoReleaseAt updates) (autoReleaseAt cfg);
     milestones := override (milestones updates) (milestones cfg);
     inspectionDeadline :=
       override (inspectionDeadline updates) (inspectionDeadline cfg);
     buyerSigned := override (buyerSigned updates) (buyerSigned cfg);
     sellerSigned := override (sellerSigned updates) (sellerSigned cfg) |}.

Definition with_config (c : SettlementCondition) (cfg : ConditionConfig)
    : SettlementCondition :=
  {| type := type c; description := description c; priority := priority c;
     required := required c; config := cfg; isMet := isMet c;
     metAt := metAt c |}.

Definition updateCondition (escrowId : string)
    (conditionType : SettlementConditionType) (updates : ConditionConfig)
    : Action unit :=
  try_catch
    (escrow ← getDocument escrowId;
     let conditions := settlementConditions escrow in
     match list_find (fun c => type c = conditionType) conditions with
     | Some (conditionIndex, c) =>
         updateDocument escrowId
           [ set_settlementConditions
               (<[conditionIndex := with_config c
                                      (merge_config (config c) updates)]>
                  conditions) ]
     | None => mret tt
     end)
    (fun _ => mret tt).

Definition evaluateSettlementConditions (env : Env) (escrowId : string)
    : Action Evaluation :=
  try_catch
    (escrow ← getDocument escrowId;
     let conditions := settlementConditions escrow in
     let evaluatedConditions :=
       map (fun condition => evaluateCondition condition escrow (clock env))
           conditions in
     let allMet := forallb isMet evaluatedConditions in
     let unmet :=
       map description
           (List.filter (fun c => negb (isMet c)) evaluatedConditions) in
     updateDocument escrowId
       [ set_settlementConditions evaluatedConditions;
         set_allConditionsMet allMet ];;
     released_ ←
       (if allMet &&
           negb (bool_decide (status escrow ∈ [released; refunded; disputed]))
        then result ← releaseFundsToSeller env escrowId;
             mret (success result)
        else mret false);
     mret {| res_allConditionsMet := allMet;
             unmetConditions := unmet;
             res_released := Some released_ |})
    (fun _ => mret {| res_allConditionsMet := false;
                      unmetConditions := [];
                      res_released := None |}).

(* ===================================================================== *)
(** * Transaction lifecycle                                               *)
(* ===================================================================== *)

Definition history_entry (s : EscrowStatus) (t : Z) (by_ note_ : string)
    : StatusEntry :=
  {| entryStatus := s; timestamp := t; triggeredBy := by_; note := note_ |}.

Definition captureEscrowPayment (env : Env) (escrowId paymentMethodId : string)
    : Action OpResult :=
  try_catch
    (escrow ← getDocument escrowId;
     if negb (bool_decide (status escrow = pending_payment)) then
       mret (failure "Invalid escrow status")
     else
       paymentIntent ← rail (paymentIntents_confirm
                               (stripePaymentIntentId escrow) paymentMethodId)
                            (confirmReply env);
       latest_charge ← rail (paymentIntents_capture paymentIntent)
                            (captureReply env);
       let statusHistory' :=
         statusHistory escrow ++
           [ history_entry payment_received (clock env) "buyer"
               "Payment captured successfully" ] in
       updateDocument escrowId
         [ set_status payment_received; set_statusHistory statusHistory';
           set_stripeChargeId latest_charge ];;
       logEscrowEvent escrowId "payment_received" "system";;
       mret ok)
    (fun msg => mret (failure msg)).

Record TrackingData : Type := {
  td_carrier : string;
  td_trackingNumber : string;
  td_trackingUrl : option string;
  td_estimatedDelivery : option string;
}.

Definition markAsShipped (env : Env) (escrowId seller : string)
    (trackingData : TrackingData) : Action OpResult :=
  try_catch
    (escrow ← getDocument escrowId;
     if negb (bool_decide (sellerId escrow = seller)) then
       mret (failure "Unauthorized")
     else if negb (bool_decide (status escrow = payment_received)) then
       mret (failure "Invalid status for shipping")
     else
       let statusHistory' :=
         statusHistory escrow ++
           [ history_entry shipped (clock env) "seller"
               ("Shipped via " +:+ td_carrier trackingData) ] in
       updateDocument escrowId
         [ set_status shipped; set_statusHistory statusHistory';
           set_shippingDetails
             {| carrier := td_carrier trackingData;
                shipTrackingNumber := td_trackingNumber trackingData;
                trackingUrl := td_trackingUrl trackingData;
                estimatedDelivery := td_estimatedDelivery trackingData;
                shippedAt := Some (clock env);
                actualDelivery := None |} ];;
       updateCondition escrowId tracking_confirmation
         {| requireTracking := None;
            trackingNumber := Some (td_trackingNumber trackingData);
            carrierName := Some (td_carrier trackingData);
            deliveryConfirmed := None; confirmationRequired := None;
            autoReleaseDays := None; autoReleaseAt := None;
            milestones := None; inspectionDeadline := None;
            buyerSigned := None; sellerSigned := None |};;
       logEscrowEvent escrowId "shipped" "seller";;
       evaluateSettlementConditions env escrowId;;
       mret ok)
    (fun msg => mret (failure msg)).

Definition confirmReceipt (env : Env) (escrowId buyer : string)
    : Action OpResult :=
  try_catch
    (escrow ← getDocument escrowId;
     if negb (bool_decide (buyerId escrow = buyer)) then
       mret (failure "Unauthorized")
     else if negb (bool_decide
                     (status escrow ∈ [shipped; in_transit; delivered])) then
       mret (failure "Item must be delivered before confirming")
     else
       let statusHistory' :=
         statusHistory escrow ++
           [ history_entry confirmed (clock env) "buyer"
               "Buyer confirmed receipt" ] in
       updateDocument escrowId
         [ set_status confirmed; set_statusHistory statusHistory' ];;
       updateCondition escrowId buyer_confirmation
         {| requireTracking := None; trackingNumber := None;
            carrierName := None; deliveryConfirmed := None;
            confirmationRequired := Some true;
            autoReleaseDays := None; autoReleaseAt := None;
            milestones := None; inspectionDeadline := None;
            buyerSigned := None; sellerSigned := None |};;
       logEscrowEvent escrowId "confirmed" "buyer";;
       evaluateSettlementConditions env escrowId;;
       mret ok)
    (fun msg => mret (failure msg)).

Definition openDispute (env : Env) (escrowId buyer reason : string)
    : Action OpResult :=
  try_catch
    (escrow ← getDocument escrowId;
     if negb (bool_decide (buyerId escrow = buyer)) then
       mret (failure "Unauthorized")
     else if negb (bool_decide
                     (status escrow ∈
                        [shipped; in_transit; delivered; confirmed])) then
       mret (failure "Cannot dispute at this stage")
     else if match disputePeriodEndsAt escrow with
             | Some deadline => date_gtb (clock env) deadline
             | None => false
             end then
       mret (failure "Dispute period has expired")
     else
       let statusHistory' :=
         statusHistory escrow ++
           [ history_entry disputed (clock env) "buyer" reason ] in
       updateDocument escrowId
         [ set_status disputed; set_statusHistory statusHistory';
           set_disputeReason reason; set_disputedAt (clock env) ];;
       logEscrowEvent escrowId "disputed" "buyer";;
       mret ok)
    (fun msg => mret (failure msg)).

(* ===================================================================== *)
(** * Transaction creation                                                *)
(* ===================================================================== *)

Definition default_config : EscrowPlatformConfig :=
  {| platformFeePercentage := Js.decimal 25 1;
     platformFeeFixed := 30;
     stripeFeePercentage := Js.decimal 29 1;
     stripeFeeFixed := 30;
     defaultDisputePeriodDays := 7;
     defaultAutoReleaseDays := 14;
     defaultInspectionDays := 3;
     minTransactionAmount := 100;
     maxTransactionAmount := 1000000;
     requiresTrackingAbove := 5000 |}.

Definition getPlatformConfig : Action EscrowPlatformConfig :=
  fun w =>
    match platformConfigs w with
    | cfg :: _ => (w, Returned cfg)
    | [] => (w, Returned default_config)
    end.

(** [Math.round(amount * (percentage / 100) + fixed)] *)
Definition compute_fee (amount_ : Z) (percentage_ : Js.number) (fixed : Z)
    : option Z :=
  Js.Math_round
    (Js.add (Js.mul (Js.of_Z amount_) (Js.div percentage_ (Js.of_Z 100)))
            (Js.of_Z fixed)).

Definition new_condition (ty : SettlementConditionType) (descr : string)
    (cfg : ConditionConfig) (prio : Z) : SettlementCondition :=
  {| type := ty; description := descr; priority := prio; required := None;
     config := cfg; isMet := false; metAt := None |}.

Definition day_ms : Z := 24 * 60 * 60 * 1000.

Definition confirmation_config : ConditionConfig :=
  {| requireTracking := None; trackingNumber := None; carrierName := None;
     deliveryConfirmed := None; confirmationRequired := Some true;
     autoReleaseDays := None; autoReleaseAt := None; milestones := None;
     inspectionDeadline := None; buyerSigned := None; sellerSigned := None |}.

Definition timer_config (days : Z) (now : Z) : ConditionConfig :=
  {| requireTracking := None; trackingNumber := None; carrierName := None;
     deliveryConfirmed := None; confirmationRequired := None;
     autoReleaseDays := Some days;
     autoReleaseAt := Some (DateAt (now + days * day_ms));
     milestones := None;
     inspectionDeadline := None; buyerSigned := None; sellerSigned := None |}.

Definition getDefaultConditionsForItemType (item : ItemType)
    (cfg : EscrowPlatformConfig) (now : Z) : list SettlementCondition :=
  match item with
  | physical_goods =>
      [ new_condition tracking_confirmation
          "Seller must provide tracking and item must be delivered"
          {| requireTracking := Some true; trackingNumber := None;
             carrierName := None; deliveryConfirmed := None;
             confirmationRequired := None; autoReleaseDays := None;
             autoReleaseAt := None; milestones := None;
             inspectionDeadline := None; buyerSigned := None;
             sellerSigned := None |} 1;
        new_condition buyer_confirmation "Buyer must confirm receipt OR"
          confirmation_config 2;
        new_condition time_based
          ("Auto-release after " +:+ pretty (defaultAutoReleaseDays cfg)
             +:+ " days if no dispute")
          (timer_config (defaultAutoReleaseDays cfg) now) 3 ]
  | digital_goods =>
      [ new_condition buyer_confirmation "Buyer must confirm receipt OR"
          confirmation_config 1;
        new_condition time_based "Auto-release after 48 hours if no dispute"
          (timer_config 2 now) 2 ]
  | service =>
      [ new_condition milestone_based
          "All service milestones must be completed"
          {| requireTracking := None; trackingNumber := None;
             carrierName := None; deliveryConfirmed := None;
             confirmationRequired := None; autoReleaseDays := None;
             autoReleaseAt := None;
             milestones :=
               Some [ {| milestoneId := "1";
                         milestoneDescription := "Service completed";
                         percentage := 100; completed := false |} ];
             inspectionDeadline := None; buyerSigned := None;
             sellerSigned := None |} 1;
        new_condition buyer_confirmation "Buyer must confirm completion"
          confirmation_config 2 ]
  | subscription =>
      [ new_condition time_based
          ("Auto-release after " +:+ pretty (defaultAutoReleaseDays cfg)
             +:+ " days")
          (timer_config (defaultAutoReleaseDays cfg) now) 1 ]
  end.

(** An element of [data.customConditions]: a condition without [isMet]
    and [metAt]. *)
Record CustomCondition : Type := {
  cc_type : SettlementConditionType;
  cc_description : string;
  cc_priority : option Z;
  cc_required : option bool;
  cc_config : ConditionConfig;
}.

Record CreateData : Type := {
  cd_sellerId : string;
  cd_itemDescription : string;
  cd_itemType : ItemType;
  cd_amount : Z;
  cd_currency : string;
  cd_customConditions : option (list CustomCondition);
}.

Definition custom_conditions (cs : list CustomCondition)
    : list SettlementCondition :=
  imap (fun index c =>
          {| type := cc_type c; description := cc_description c;
             priority := number_or (cc_priority c) (Z.of_nat index + 1);
             required := cc_required c; config := cc_config c;
             isMet := false; metAt := None |}) cs.

Definition find_seller_account (seller : string) : Action StripeAccount :=
  fun w =>
    match List.filter (fun a => bool_decide (userId a = seller))
                      (sellerAccounts w) with
    | a :: _ => (w, Returned a)
    | [] => (w, Thrown "Seller has not set up payment account")
    end.

Definition createEscrowTransaction (env : Env) (buyer : string)
    (data : CreateData) : Action (option (string * EscrowTransaction)) :=
  try_catch
    (sellerAccount ← find_seller_account (cd_sellerId data);
     if negb (chargesEnabled sellerAccount) then
       throw "Seller account not verified yet"
     else
       cfg ← getPlatformConfig;
       let platformFee_ :=
         compute_fee (cd_amount data) (platformFeePercentage cfg)
                     (platformFeeFixed cfg) in
       let stripeFee_ :=
         compute_fee (cd_amount data) (stripeFeePercentage cfg)
                     (stripeFeeFixed cfg) in
       let conditions :=
         match cd_customConditions data with
         | Some cs => custom_conditions cs
         | None =>
             getDefaultConditionsForItemType (cd_itemType data) cfg
               (clock env)
         end in
       paymentIntent ← rail (paymentIntents_create (cd_amount data)
                               (cd_currency data))
                            (intentReply env);
       match platformFee_, stripeFee_ with
       | Some platformFee', Some stripeFee' =>
           let sellerAmount' := cd_amount data - platformFee' - stripeFee' in
           let escrow :=
             {| buyerId := buyer;
                sellerId := cd_sellerId data;
                sellerStripeAccountId := stripeAccountId sellerAccount;
                itemDescription := cd_itemDescription data;
                itemType := cd_itemType data;
                amount := cd_amount data;
                platformFee := platformFee';
                sellerAmount := sellerAmount';
                currency := cd_currency data;
                stripePaymentIntentId := paymentIntent;
                stripeChargeId := None;
                stripeTransferId := None;
                stripePayoutId := None;
                status := pending_payment;
                statusHistory :=
                  [ history_entry pending_payment (clock env) "buyer"
                      "Escrow transaction created" ];
                settlementConditions := conditions;
                allConditionsMet := false;
                shippingDetails := None;
                disputeReason := None;
                disputedAt := None;
                disputePeriodDays := defaultDisputePeriodDays cfg;
                disputePeriodEndsAt := None |} in
           createDocument (freshId env) escrow;;
           logEscrowEvent (freshId env) "payment_received" "buyer";;
           mret (Some (freshId env, escrow))
       | _, _ =>
           (* a fee that is not a number cannot be stored in the integer
              attributes of the collection: the store rejects the document *)
           throw "Invalid document structure"
       end)
    (fun _ => mret None).

(* ===================================================================== *)
(** * Vocabulary of the statements                                        *)
(* ===================================================================== *)

(** Earlier evaluations of one condition, each with the snapshot and the
    clock of its own call. *)
Definition evaluate_many (history : list (EscrowTransaction * Z))
    (c : SettlementCondition) : SettlementCondition :=
  fold_left (fun acc snap => evaluateCondition acc (fst snap) (snd snap))
            history c.



(** The aggregation rule in the words of the specification: every
    condition marked [required] is met, and at least one of the conditions
    without [required] is met when there is any. *)
Definition marked_required (c : SettlementCondition) : bool :=
  is_true_field (required c).

Definition spec_settleable (cs : list SettlementCondition) : bool :=
  forallb isMet (List.filter marked_required cs) &&
  match List.filter (fun c => negb (marked_required c)) cs with
  | [] => true
  | unrequired => existsb isMet unrequired
  end.

(** The aggregation of [evaluateSettlementConditions]. *)
Definition code_allMet (cs : list SettlementCondition) : bool :=
  forallb isMet cs.


(** The conditions of [e] as [evaluateSettlementConditions] computes and
    stores them in a call with environment [env], and the descriptions it
    reports as unmet. *)
Definition evaluated_conditions (env : Env) (e : EscrowTransaction)
    : list SettlementCondition :=
  map (fun condition => evaluateCondition condition e (clock env))
      (settlementConditions e).

Definition unmet_descriptions (cs : list SettlementCondition) : list string :=
  map description (List.filter (fun c => negb (isMet c)) cs).

Definition stored_evaluation (env : Env) (e : EscrowTransaction)
    : EscrowTransaction :=
  apply_updates e
    [ set_settlementConditions (evaluated_conditions env e);
      set_allConditionsMet (code_allMet (evaluated_conditions env e)) ].

(** The requests and the history entry of a release. *)
Definition released_entry (env : Env) (e : EscrowTransaction)
    : list StatusEntry :=
  statusHistory e ++
    [ {| entryStatus := released; timestamp := clock env;
         triggeredBy := "system";
         note := "All conditions met - funds released to seller" |} ].

Definition transfer_request (escrowId : string) (e : EscrowTransaction)
    : RailCall :=
  transfers_create (sellerAmount e) (currency e) (sellerStripeAccountId e)
                   escrowId.

Definition payout_request (e : EscrowTransaction) (transfer : string)
    : RailCall :=
  payouts_create (sellerAmount e) (currency e) (sellerStripeAccountId e)
                 transfer.

(** Sequential calls of one function on one transaction, each with the
    environment it finds. *)
Fixpoint evaluate_repeatedly (envs : list Env) (escrowId : string)
    (w : World) : World * list (Outcome Evaluation) :=
  match envs with
  | [] => (w, [])
  | env :: rest =>
      let r := evaluateSettlementConditions env escrowId w in
      let rs := evaluate_repeatedly rest escrowId (fst r) in
      (fst rs, snd r :: snd rs)
  end.

Definition succeeded (o : Outcome OpResult) : bool :=
  match o with
  | Returned r => success r
  | Thrown _ => false
  end.

(** A call that can release: the release itself, or an evaluation (by a
    user action or by the sweep) that finds every condition met. *)
Inductive Trigger : Type :=
| call_release (env : Env)
| call_evaluate (env : Env).

(** One such call, and whether it reports a release. *)
Definition run_trigger (t : Trigger) (escrowId : string) (w : World)
    : World * bool :=
  match t with
  | call_release env =>
      let r := releaseFundsToSeller env escrowId w in
      (fst r, succeeded (snd r))
  | call_evaluate env =>
      let r := evaluateSettlementConditions env escrowId w in
      (fst r,
       match snd r with
       | Returned ev => bool_decide (res_released ev = Some true)
       | Thrown _ => false
       end)
  end.

Fixpoint run_triggers (ts : list Trigger) (escrowId : string) (w : World)
    : World * list bool :=
  match ts with
  | [] => (w, [])
  | t :: rest =>
      let r := run_trigger t escrowId w in
      let rs := run_triggers rest escrowId (fst r) in
      (fst rs, snd r :: snd rs)
  end.

(** The number of calls that report a release. *)
Definition releases (reports : list bool) : nat :=
  length (List.filter (fun b : bool => b) reports).

(** The transfers requested for one transaction. *)
Definition transfers_for (escrowId : string) (w : World) : list RailCall :=
  List.filter
    (fun call =>
       match call with
       | transfers_create _ _ _ group => bool_decide (group = escrowId)
       | _ => false
       end)
    (railCalls w).

(** The history a dispute appends to. *)
Definition disputed_history (env : Env) (reason : string)
    (e : EscrowTransaction) : list StatusEntry :=
  statusHistory e ++ [ history_entry disputed (clock env) "buyer" reason ].

(** Two documents that differ at most in the condition list and in the
    [allConditionsMet] flag. *)
Definition same_but_conditions (e e' : EscrowTransaction) : Prop :=
  e' = apply_updates e [ set_settlementConditions (settlementConditions e');
                         set_allConditionsMet (allConditionsMet e') ].

(** What a call returned, if it returned. *)
Definition returned {A : Type} (o : Outcome A) : option A :=
  match o with
  | Returned a => Some a
  | Thrown _ => None
  end.

(** The type, [isMet] and [metAt] of each condition of a document. *)
Definition condition_summary (e : EscrowTransaction)
    : list (SettlementConditionType * bool * option Z) :=
  map (fun c => (type c, isMet c, metAt c)) (settlementConditions e).

(* ===================================================================== *)
(** * A purchase of digital goods, step by step                           *)
(* ===================================================================== *)

Module Scenario.

Definition escrow_id : string := "escrow_1".

(** A call at time [t] during which the payment rail accepts
    everything. *)
Definition env_at (t : Z) : Env :=
  {| clock := t; freshId := escrow_id;
     intentReply := Accepted "pi_1"; confirmReply := Accepted "pi_1";
     captureReply := Accepted "ch_1"; transferReply := Accepted "tr_1";
     payoutReply := Accepted "po_1"; refundReply := Accepted "re_1" |}.

(** The same, but the payout is refused. *)
Definition env_payout_refused (t : Z) : Env :=
  {| clock := t; freshId := escrow_id;
     intentReply := Accepted "pi_1"; confirmReply := Accepted "pi_1";
     captureReply := Accepted "ch_1"; transferReply := Accepted "tr_1";
     payoutReply := Rejected "Payouts are not enabled for this account";
     refundReply := Accepted "re_1" |}.

Definition world_initial : World :=
  {| escrows := ∅;
     sellerAccounts :=
       [ {| userId := "seller_1"; stripeAccountId := "acct_1";
            chargesEnabled := true |} ];
     platformConfigs := [];
     events := [];
     railCalls := [] |}.

Definition purchase : CreateData :=
  {| cd_sellerId := "seller_1"; cd_itemDescription := "Plugin licence";
     cd_itemType := digital_goods; cd_amount := 45000;
     cd_currency := "nzd"; cd_customConditions := None |}.

Definition tracking : TrackingData :=
  {| td_carrier := "email"; td_trackingNumber := "LIC-1";
     td_trackingUrl := None; td_estimatedDelivery := None |}.

Definition hour : Z := 60 * 60 * 1000.

(** Hour 0: created; the 48 hour timer ends at [48 * hour]. *)
Definition world_created : World :=
  fst (createEscrowTransaction (env_at 0) "buyer_1" purchase world_initial).

Definition world_paid : World :=
  fst (captureEscrowPayment (env_at 1000) escrow_id "pm_1" world_created).

Definition world_shipped : World :=
  fst (markAsShipped (env_at hour) escrow_id "seller_1" tracking world_paid).

(** Hour 2: the buyer confirms. *)
Definition world_confirmed : World :=
  fst (confirmReceipt (env_at (2 * hour)) escrow_id "buyer_1" world_shipped).

(** Hour 3: the buyer opens a dispute. *)
Definition world_disputed : World :=
  fst (openDispute (env_at (3 * hour)) escrow_id "buyer_1" "not as described"
         world_confirmed).

(** Hour 49 without dispute: the sweep finds every condition met and
    releases. *)
Definition world_released : World :=
  fst (evaluateSettlementConditions (env_at (49 * hour)) escrow_id
         world_confirmed).

(** Hour 49 without dispute, but the payout is refused. *)
Definition world_payout_refused : World :=
  fst (evaluateSettlementConditions (env_payout_refused (49 * hour))
         escrow_id world_confirmed).

(** Hour 50: the release is tried again. *)
Definition world_retried : World :=
  fst (releaseFundsToSeller (env_at (50 * hour)) escrow_id
         world_payout_refused).

Definition the_escrow (w : World) : option EscrowTransaction :=
  escrows w !! escrow_id.

(** Hour 4: the disputed transaction is evaluated. *)
Definition world_disputed_evaluated : World :=
  fst (evaluateSettlementConditions (env_at (4 * hour)) escrow_id
         world_disputed).

(** Hour 51: the released transaction is evaluated. *)
Definition evaluation_after_release : World * Outcome Evaluation :=
  evaluateSettlementConditions (env_at (51 * hour)) escrow_id
    world_released.


(** The document as created at hour 0. *)
Definition created_escrow : EscrowTransaction :=
  {| buyerId := "buyer_1";
     sellerId := "seller_1";
     sellerStripeAccountId := "acct_1";
     itemDescription := "Plugin licence";
     itemType := digital_goods;
     amount := 45000;
     platformFee := 1155;
     sellerAmount := 42510;
     currency := "nzd";
     stripePaymentIntentId := "pi_1";
     stripeChargeId := None;
     stripeTransferId := None;
     stripePayoutId := None;
     status := pending_payment;
     statusHistory :=
       [ history_entry pending_payment 0 "buyer"
           "Escrow transaction created" ];
     settlementConditions :=
       getDefaultConditionsForItemType digital_goods default_config 0;
     allConditionsMet := false;
     shippingDetails := None;
     disputeReason := None;
     disputedAt := None;
     disputePeriodDays := 7;
     disputePeriodEndsAt := None |}.

(** A delivered purchase whose dispute period ends on day 10. *)
Definition delivered_escrow : EscrowTransaction :=
  {| buyerId := "buyer_1";
     sellerId := "seller_1";
     sellerStripeAccountId := "acct_1";
     itemDescription := "Vintage camera";
     itemType := physical_goods;
     amount := 45000;
     platformFee := 1155;
     sellerAmount := 42510;
     currency := "nzd";
     stripePaymentIntentId := "pi_1";
     stripeChargeId := Some "ch_1";
     stripeTransferId := None;
     stripePayoutId := None;
     status := delivered;
     statusHistory :=
       [ history_entry pending_payment 0 "buyer"
           "Escrow transaction created";
         history_entry payment_received 1000 "buyer"
           "Payment captured successfully";
         history_entry shipped hour "seller" "Shipped via NZ Post" ];
     settlementConditions :=
       getDefaultConditionsForItemType physical_goods default_config 0;
     allConditionsMet := false;
     shippingDetails :=
       Some {| carrier := "NZ Post"; shipTrackingNumber := "NZP123456789";
               trackingUrl := None; estimatedDelivery := None;
               shippedAt := Some hour; actualDelivery := None |};
     disputeReason := None;
     disputedAt := None;
     disputePeriodDays := 7;
     disputePeriodEndsAt := Some (DateAt (10 * day_ms)) |}.

Definition world_delivered : World :=
  {| escrows := {[ escrow_id := delivered_escrow ]};
     sellerAccounts := sellerAccounts world_initial;
     platformConfigs := [];
     events := [];
     railCalls := [] |}.

End Scenario.


(* ===================================================================== *)
(** * Calls of the exported functions, in sequence                        *)
(* ===================================================================== *)

(** An exported function applied to one transaction, with its arguments
    other than the transaction identifier. *)
Inductive Operation : Type :=
| op_capture (paymentMethodId : string)
| op_ship (seller : string) (trackingData : TrackingData)
| op_confirm (buyer : string)
| op_dispute (buyer reason : string)
| op_evaluate
| op_release
| op_refund (refundAmount : option Z) (reason : option string).

Definition run_operation (op : Operation) (env : Env) (escrowId : string)
    (w : World) : World :=
  match op with
  | op_capture pm => fst (captureEscrowPayment env escrowId pm w)
  | op_ship seller td => fst (markAsShipped env escrowId seller td w)
  | op_confirm buyer => fst (confirmReceipt env escrowId buyer w)
  | op_dispute buyer reason => fst (openDispute env escrowId buyer reason w)
  | op_evaluate => fst (evaluateSettlementConditions env escrowId w)
  | op_release => fst (releaseFundsToSeller env escrowId w)
  | op_refund amt reason => fst (refundToBuyer env escrowId amt reason w)
  end.

(** One call: the transaction it names, the function, and what the call
    finds outside the store. *)
Record Call : Type := {
  call_target : string;
  call_operation : Operation;
  call_env : Env;
}.

Definition run_call (c : Call) (w : World) : World :=
  run_operation (call_operation c) (call_env c) (call_target c) w.

Definition run_calls (cs : list Call) (w : World) : World :=
  fold_left (fun acc c => run_call c acc) cs w.

(** ** What a call may change in a document *)

(** The status changes the code can make in one write. *)
Definition allowed_transition (s s' : EscrowStatus) : bool :=
  match s, s' with
  | pending_payment, payment_received => true
  | payment_received, shipped => true
  | (shipped | in_transit | delivered), confirmed => true
  | (shipped | in_transit | delivered | confirmed), disputed => true
  | (released | refunded), _ => false
  | _, (released | refunded) => true
  | _, _ => false
  end.

Definition status_edge (s s' : EscrowStatus) : Prop :=
  allowed_transition s s' = true.

(** The last entry of the status history names the current status. *)
Definition history_tracks_status (e : EscrowTransaction) : Prop :=
  entryStatus <$> last (statusHistory e) = Some (status e).

(** The part of a condition no function writes: everything but [isMet],
    [metAt] and the [config] keys [trackingNumber], [carrierName] and
    [confirmationRequired]. *)
Record ConditionShape : Type := {
  shape_type : SettlementConditionType;
  shape_description : string;
  shape_priority : Z;
  shape_required : option bool;
  shape_requireTracking : option bool;
  shape_deliveryConfirmed : option bool;
  shape_autoReleaseDays : option Z;
  shape_autoReleaseAt : option JsDate;
  shape_milestones : option (list Milestone);
  shape_inspectionDeadline : option JsDate;
  shape_buyerSigned : option bool;
  shape_sellerSigned : option bool;
}.

Definition condition_shape (c : SettlementCondition) : ConditionShape :=
  {| shape_type := type c;
     shape_description := description c;
     shape_priority := priority c;
     shape_required := required c;
     shape_requireTracking := requireTracking (config c);
     shape_deliveryConfirmed := deliveryConfirmed (config c);
     shape_autoReleaseDays := autoReleaseDays (config c);
     shape_autoReleaseAt := autoReleaseAt (config c);
     shape_milestones := milestones (config c);
     shape_inspectionDeadline := inspectionDeadline (config c);
     shape_buyerSigned := buyerSigned (config c);
     shape_sellerSigned := sellerSigned (config c) |}.

(** A condition that no evaluation can find met, because what it asks for
    is a key no function writes: the delivery flag of a
    [tracking_confirmation], an incomplete list of milestones, the two
    signatures, or a type outside the [switch]. *)
Definition stuck_shape (s : ConditionShape) : bool :=
  match shape_type s with
  | tracking_confirmation => negb (is_true_field (shape_deliveryConfirmed s))
  | milestone_based =>
      match shape_milestones s with
      | Some ms => negb (forallb completed ms)
      | None => false
      end
  | dual_signature =>
      negb (is_true_field (shape_buyerSigned s) &&
            is_true_field (shape_sellerSigned s))
  | other_type _ => true
  | _ => false
  end.

Definition stuck (c : SettlementCondition) : bool :=
  stuck_shape (condition_shape c).

(** One condition before and after: same shape, and a [metAt] that was
    set is kept. *)
Definition cond_step (c c' : SettlementCondition) : Prop :=
  condition_shape c' = condition_shape c /\
  (forall t, metAt c = Some t -> metAt c' = Some t).

(** A document that holds a stuck condition and whose stored flag is
    false. *)
Definition blocked (e : EscrowTransaction) : Prop :=
  allConditionsMet e = false /\
  Exists (fun c => stuck c = true) (settlementConditions e).

(** One document before and after any number of calls. *)
Record doc_step (e e' : EscrowTransaction) : Prop := {
  step_parties :
    buyerId e' = buyerId e /\ sellerId e' = sellerId e /\
    sellerStripeAccountId e' = sellerStripeAccountId e;
  step_item :
    itemDescription e' = itemDescription e /\ itemType e' = itemType e;
  step_money :
    amount e' = amount e /\ platformFee e' = platformFee e /\
    sellerAmount e' = sellerAmount e /\ currency e' = currency e /\
    stripePaymentIntentId e' = stripePaymentIntentId e;
  step_dispute_period :
    disputePeriodDays e' = disputePeriodDays e /\
    disputePeriodEndsAt e' = disputePeriodEndsAt e;
  step_history : statusHistory e `prefix_of` statusHistory e';
  step_tracks : history_tracks_status e -> history_tracks_status e';
  step_status : rtc status_edge (status e) (status e');
  step_conditions :
    Forall2 cond_step (settlementConditions e) (settlementConditions e');
  step_flag :
    allConditionsMet e' = true ->
    allConditionsMet e = true \/
    Forall (fun c => stuck c = false) (settlementConditions e');
  step_release :
    status e' = released -> status e = released \/ ~ blocked e;
}.

(** The updates that touch no field [doc_step] looks at. *)
Definition harmless (u : FieldUpdate) : bool :=
  match u with
  | set_shippingDetails _ | set_stripeChargeId _ | set_stripeTransferId _
  | set_stripePayoutId _ | set_disputeReason _ | set_disputedAt _ => true
  | _ => false
  end.

(** The keys [updateCondition] is asked to write are among the three
    that are not part of the shape. *)
Definition free_keys_only (updates : ConditionConfig) : bool :=
  negb (bool_decide (is_Some (requireTracking updates))) &&
  negb (bool_decide (is_Some (deliveryConfirmed updates))) &&
  negb (bool_decide (is_Some (autoReleaseDays updates))) &&
  negb (bool_decide (is_Some (autoReleaseAt updates))) &&
  negb (bool_decide (is_Some (milestones updates))) &&
  negb (bool_decide (is_Some (inspectionDeadline updates))) &&
  negb (bool_decide (is_Some (buyerSigned updates))) &&
  negb (bool_decide (is_Some (sellerSigned updates))).

(** Transfer requests, and the transaction a request is made for. *)
Definition is_transfer (call : RailCall) : bool :=
  match call with
  | transfers_create _ _ _ _ => true
  | _ => false
  end.

Definition transfer_names (escrowId : string) (call : RailCall) : Prop :=
  match call with
  | transfers_create _ _ _ group => group = escrowId
  | _ => True
  end.

(** The effect of a call naming [escrowId] on the world: at most the
    document of that name is rewritten, and the two logs only grow; a
    transfer is requested only in the name of that document, and only
    if it is not blocked. *)
Definition call_effect (escrowId : string) (w w' : World) : Prop :=
  (escrows w' = escrows w \/
   exists e e', escrows w !! escrowId = Some e /\
                escrows w' = <[escrowId := e']> (escrows w) /\
                doc_step e e') /\
  events w `prefix_of` events w' /\
  (exists added,
     railCalls w' = railCalls w ++ added /\
     Forall (transfer_names escrowId) added /\
     (Exists (fun call => is_transfer call = true) added ->
      exists e, escrows w !! escrowId = Some e /\ ~ blocked e)) /\
  sellerAccounts w' = sellerAccounts w /\
  platformConfigs w' = platformConfigs w.

(** The world before and after calls on any transactions. *)
Definition world_step (w w' : World) : Prop :=
  (forall escrowId,
     option_Forall2 doc_step (escrows w !! escrowId)
                    (escrows w' !! escrowId)) /\
  events w `prefix_of` events w' /\
  railCalls w `prefix_of` railCalls w' /\
  sellerAccounts w' = sellerAccounts w /\
  platformConfigs w' = platformConfigs w.

(** ** The documents the lifecycle functions write *)

Definition captured_document (env : Env) (charge : string)
    (e : EscrowTransaction) : EscrowTransaction :=
  apply_updates e
    [ set_status payment_received;
      set_statusHistory
        (statusHistory e ++
           [ history_entry payment_received (clock env) "buyer"
               "Payment captured successfully" ]);
      set_stripeChargeId charge ].

Definition shipping_record (env : Env) (trackingData : TrackingData)
    : ShippingDetails :=
  {| carrier := td_carrier trackingData;
     shipTrackingNumber := td_trackingNumber trackingData;
     trackingUrl := td_trackingUrl trackingData;
     estimatedDelivery := td_estimatedDelivery trackingData;
     shippedAt := Some (clock env);
     actualDelivery := None |}.

Definition shipped_document (env : Env) (trackingData : TrackingData)
    (e : EscrowTransaction) : EscrowTransaction :=
  apply_updates e
    [ set_status shipped;
      set_statusHistory
        (statusHistory e ++
           [ history_entry shipped (clock env) "seller"
               ("Shipped via " +:+ td_carrier trackingData) ]);
      set_shippingDetails (shipping_record env trackingData) ].

Definition tracking_keys (trackingData : TrackingData) : ConditionConfig :=
  {| requireTracking := None;
     trackingNumber := Some (td_trackingNumber trackingData);
     carrierName := Some (td_carrier trackingData);
     deliveryConfirmed := None; confirmationRequired := None;
     autoReleaseDays := None; autoReleaseAt := None;
     milestones := None; inspectionDeadline := None;
     buyerSigned := None; sellerSigned := None |}.

Definition confirmed_document (env : Env) (e : EscrowTransaction)
    : EscrowTransaction :=
  apply_updates e
    [ set_status confirmed;
      set_statusHistory
        (statusHistory e ++
           [ history_entry confirmed (clock env) "buyer"
               "Buyer confirmed receipt" ]) ].

Definition disputed_document (env : Env) (reason : string)
    (e : EscrowTransaction) : EscrowTransaction :=
  apply_updates e
    [ set_status disputed;
      set_statusHistory (disputed_history env reason e);
      set_disputeReason reason;
      set_disputedAt (clock env) ].

Definition released_document (env : Env) (transfer payout : string)
    (e : EscrowTransaction) : EscrowTransaction :=
  apply_updates e
    [ set_status released;
      set_statusHistory (released_entry env e);
      set_stripeTransferId transfer;
      set_stripePayoutId payout ].

Definition refunded_document (env : Env) (reason : option string)
    (e : EscrowTransaction) : EscrowTransaction :=
  apply_updates e
    [ set_status refunded;
      set_statusHistory
        (statusHistory e ++
           [ {| entryStatus := refunded; timestamp := clock env;
                triggeredBy := "platform";
                note := string_or reason "Refund issued" |} ]) ].

(** The world with one document replaced, one event appended and some
    requests added to the rail log. *)
Definition written (w : World) (escrowId : string) (e' : EscrowTransaction)
    (ty by_ : string) (calls : list RailCall) : World :=
  {| escrows := <[escrowId := e']> (escrows w);
     sellerAccounts := sellerAccounts w;
     platformConfigs := platformConfigs w;
     events := events w ++ [ {| escrowTransactionId := escrowId;
                                eventType := ty;
                                eventTriggeredBy := by_ |} ];
     railCalls := railCalls w ++ calls |}.

(** The world with only requests added to the rail log. *)
Definition requested (w : World) (calls : list RailCall) : World :=
  with_railCalls w (railCalls w ++ calls).

(** ** The purchase of the scenario as a sequence of calls *)

Definition call_at (t : Z) (op : Operation) : Call :=
  {| call_target := Scenario.escrow_id; call_operation := op;
     call_env := Scenario.env_at t |}.

(** Capture, shipment, confirmation, and the sweep of hour 49. *)
Definition purchase_calls : list Call :=
  [ call_at 1000 (op_capture "pm_1");
    call_at Scenario.hour (op_ship "seller_1" Scenario.tracking);
    call_at (2 * Scenario.hour) (op_confirm "buyer_1");
    call_at (49 * Scenario.hour) op_evaluate ].

(** Calls on another transaction, which does not exist. *)
Definition stray_calls : list Call :=
  [ {| call_target := "escrow_2"; call_operation := op_release;
       call_env := Scenario.env_at 1000 |};
    {| call_target := "escrow_2"; call_operation := op_refund None None;
       call_env := Scenario.env_at 2000 |} ].

(** ** The document [createEscrowTransaction] writes *)

Definition new_conditions (env : Env) (data : CreateData)
    (cfg : EscrowPlatformConfig) : list SettlementCondition :=
  match cd_customConditions data with
  | Some cs => custom_conditions cs
  | None => getDefaultConditionsForItemType (cd_itemType data) cfg (clock env)
  end.

Definition new_escrow (env : Env) (buyer : string) (data : CreateData)
    (account : StripeAccount) (cfg : EscrowPlatformConfig)
    (intent : string) (platformFee' stripeFee' : Z) : EscrowTransaction :=
  {| buyerId := buyer;
     sellerId := cd_sellerId data;
     sellerStripeAccountId := stripeAccountId account;
     itemDescription := cd_itemDescription data;
     itemType := cd_itemType data;
     amount := cd_amount data;
     platformFee := platformFee';
     sellerAmount := cd_amount data - platformFee' - stripeFee';
     currency := cd_currency data;
     stripePaymentIntentId := intent;
     stripeChargeId := None;
     stripeTransferId := None;
     stripePayoutId := None;
     status := pending_payment;
     statusHistory :=
       [ history_entry pending_payment (clock env) "buyer"
           "Escrow transaction created" ];
     settlementConditions := new_conditions env data cfg;
     allConditionsMet := false;
     shippingDetails := None;
     disputeReason := None;
     disputedAt := None;
     disputePeriodDays := defaultDisputePeriodDays cfg;
     disputePeriodEndsAt := None |}.

(** The seller's payment account as the creation reads it: the first
    account listed for the seller. *)
Definition seller_account (seller : string) (w : World)
    : option StripeAccount :=
  head (List.filter (fun a => bool_decide (userId a = seller))
                    (sellerAccounts w)).

(** ** A service order *)

Definition service_order : CreateData :=
  {| cd_sellerId := "seller_1"; cd_itemDescription := "Website redesign";
     cd_itemType := service; cd_amount := 350000;
     cd_currency := "usd"; cd_customConditions := None |}.

Definition service_world : World :=
  fst (createEscrowTransaction (Scenario.env_at 0) "buyer_1" service_order
         Scenario.world_initial).

Definition service_escrow : EscrowTransaction :=
  new_escrow (Scenario.env_at 0) "buyer_1" service_order
    {| userId := "seller_1"; stripeAccountId := "acct_1";
       chargesEnabled := true |}
    default_config "pi_1" 8780 10180.

(** ** Fields the shipment and the confirmation leave behind *)

(** One more entry at the end of a history, possibly followed by others. *)
Definition history_continues (before : list StatusEntry) (entry : StatusEntry)
    (after : list StatusEntry) : Prop :=
  (before ++ [entry]) `prefix_of` after.

(* ===================================================================== *)
(** * The periodic sweep ([lib/cron/escrow-auto-release.ts])              *)
(* ===================================================================== *)

(** An entry of [results.details]. *)
Inductive SweepDetail : Type :=
| detail_released (escrowId : string) (amount_ : Z)
| detail_conditions_met (escrowId : string)
| detail_evaluated (escrowId : string) (unmet : list string)
| detail_error (escrowId : string) (message : string).

Record SweepResults : Type := {
  processed : nat;
  released_count : nat;
  errors : nat;
  details : list SweepDetail;
}.

Definition empty_results : SweepResults :=
  {| processed := 0; released_count := 0; errors := 0; details := [] |}.

Definition activeStatuses : list EscrowStatus :=
  [payment_received; shipped; in_transit; delivered; confirmed].

(** What the store answers to
    [listDocuments([Query.equal("status", [status]), Query.limit(100)])]:
    the order of the answer is the store's, so the listing is a
    parameter; [answers_status_query] says that it answers the query. *)
Definition Listing : Type :=
  World -> EscrowStatus -> list (string * EscrowTransaction).

Definition answers_status_query (listing : Listing) : Prop :=
  forall (w : World) (s : EscrowStatus),
    (length (listing w s) <= 100)%nat /\
    NoDup (map fst (listing w s)) /\
    forall escrowId e,
      (escrowId, e) ∈ listing w s ->
      escrows w !! escrowId = Some e /\ status e = s.

(** A store that lists its documents in the order of their identifiers. *)
Definition listing_by_identifier : Listing :=
  fun w s =>
    take 100 (filter (fun doc => status (snd doc) = s)
                     (map_to_list (escrows w))).

(** The body of the inner loop, for one listed document; [envs] gives
    what the evaluation of each transaction finds outside the store. *)
Definition sweep_document (envs : string -> Env)
    (acc : World * SweepResults) (doc : string * EscrowTransaction)
    : World * SweepResults :=
  let (w, results) := acc in
  let (escrowId, escrow) := doc in
  let r := evaluateSettlementConditions (envs escrowId) escrowId w in
  match snd r with
  | Returned evaluation =>
      if bool_decide (res_released evaluation = Some true) then
        (fst r,
         {| processed := S (processed results);
            released_count := S (released_count results);
            errors := errors results;
            details := details results ++
                       [detail_released escrowId (sellerAmount escrow)] |})
      else if res_allConditionsMet evaluation then
        (fst r,
         {| processed := S (processed results);
            released_count := released_count results;
            errors := errors results;
            details := details results ++ [detail_conditions_met escrowId] |})
      else
        (fst r,
         {| processed := S (processed results);
            released_count := released_count results;
            errors := errors results;
            details := details results ++
                       [detail_evaluated escrowId
                          (unmetConditions evaluation)] |})
  | Thrown msg =>
      (fst r,
       {| processed := S (processed results);
          released_count := released_count results;
          errors := S (errors results);
          details := details results ++ [detail_error escrowId msg] |})
  end.

Definition sweep_status (listing : Listing) (envs : string -> Env)
    (acc : World * SweepResults) (s : EscrowStatus)
    : World * SweepResults :=
  fold_left (sweep_document envs) (listing (fst acc) s) acc.

Definition runEscrowAutoRelease (listing : Listing) (envs : string -> Env)
    (w : World) : World * SweepResults :=
  fold_left (sweep_status listing envs) activeStatuses (w, empty_results).

(** [updateTrackingStatuses] and [sendEscrowReminders] list documents,
    print, and catch whatever is thrown: they write nothing. *)
Definition updateTrackingStatuses (w : World) : World := w.

Definition sendEscrowReminders (w : World) : World := w.

(** [runAllEscrowCronJobs] returns the results of the sweep. *)
Definition runAllEscrowCronJobs (listing : Listing) (envs : string -> Env)
    (w : World) : World * SweepResults :=
  let r := runEscrowAutoRelease listing envs w in
  (sendEscrowReminders (updateTrackingStatuses (fst r)), snd r).

(** The evaluation the sweep makes for one transaction, as a call. *)
Definition evaluation_call (envs : string -> Env) (escrowId : string)
    : Call :=
  {| call_target := escrowId; call_operation := op_evaluate;
     call_env := envs escrowId |}.

Definition evaluation_calls (envs : string -> Env)
    (docs : list (string * EscrowTransaction)) : list Call :=
  map (fun doc => evaluation_call envs (fst doc)) docs.

(** A listed document whose transaction is stored in [w] with the
    seller amount of the listed copy. *)
Definition listed_in (w : World) (doc : string * EscrowTransaction) : Prop :=
  exists e, escrows w !! fst doc = Some e /\
            sellerAmount e = sellerAmount (snd doc).

(** Every release among the details is in the store: the transaction
    is stored [released] with the reported amount. *)
Definition reports_hold (acc : World * SweepResults) : Prop :=
  forall escrowId amt,
    detail_released escrowId amt ∈ details (snd acc) ->
    exists e, escrows (fst acc) !! escrowId = Some e /\
              status e = released /\ sellerAmount e = amt.

Definition is_released_detail (d : SweepDetail) : bool :=
  match d with
  | detail_released _ _ => true
  | _ => false
  end.

(* ===================================================================== *)
(** * The route of the sweep ([app/api/cron/escrow-auto-release/route.ts]) *)
(* ===================================================================== *)

Inductive Response : Type :=
| status_401
| status_200 (results : SweepResults).

(** [POST]: [cronSecret] is [process.env.CRON_SECRET], [authHeader] the
    [authorization] header of the request.  The answer 500 is given when
    a job throws, which the jobs above do not while the store answers. *)
Definition POST (cronSecret authHeader : option string) (listing : Listing)
    (envs : string -> Env) (w : World) : World * Response :=
  if truthy_string cronSecret &&
     (negb (truthy_string authHeader) ||
      negb (bool_decide
              (authHeader = Some ("Bearer " +:+ default "" cronSecret))))
  then (w, status_401)
  else
    let r := runAllEscrowCronJobs listing envs w in
    (fst r, status_200 (snd r)).

Definition GET := POST.

(* ===================================================================== *)
(** * Properties of the condition evaluator                               *)
(* ===================================================================== *)

Section Evaluator.

Implicit Types (c : SettlementCondition) (e : EscrowTransaction).
Implicit Types (now : Z).

(** Evaluation touches [isMet] and [metAt] only. *)
Lemma evaluateCondition_type c e now :
  type (evaluateCondition c e now) = type c.
Proof. reflexivity. Qed.

Lemma evaluateCondition_config c e now :
  config (evaluateCondition c e now) = config c.
Proof. reflexivity. Qed.

Lemma evaluateCondition_isMet c e now :
  isMet (evaluateCondition c e now) = evaluate_isMet c e now.
Proof. reflexivity. Qed.

Lemma evaluate_many_cons e now history c :
  evaluate_many ((e, now) :: history) c =
  evaluate_many history (evaluateCondition c e now).
Proof. reflexivity. Qed.

Lemma evaluate_many_type history c :
  type (evaluate_many history c) = type c.
Proof.
  revert c; induction history as [|[e t] history IH]; intros c.
  - reflexivity.
  - rewrite evaluate_many_cons, IH. apply evaluateCondition_type.
Qed.

Lemma evaluate_many_config history c :
  config (evaluate_many history c) = config c.
Proof.
  revert c; induction history as [|[e t] history IH]; intros c.
  - reflexivity.
  - rewrite evaluate_many_cons, IH. apply evaluateCondition_config.
Qed.

Lemma time_based_isMet c e now d :
  type c = time_based ->
  autoReleaseAt (config c) = Some (DateAt d) ->
  isMet (evaluateCondition c e now) = (d <=? now).
Proof.
  intros Hty Hcfg. rewrite evaluateCondition_isMet.
  unfold evaluate_isMet. now rewrite Hty, Hcfg.
Qed.

(** The default timers hold an instant fixed at creation: the creation
    time plus the configured number of days. *)
Lemma default_timer_deadline item cfg created c :
  c ∈ getDefaultConditionsForItemType item cfg created ->
  type c = time_based ->
  exists days,
    autoReleaseAt (config c) = Some (DateAt (created + days * day_ms)).
Proof.
  destruct item; simpl; rewrite ?elem_of_cons, elem_of_nil;
    intros Hin Hty;
    repeat (destruct Hin as [-> | Hin]; [try discriminate Hty|]);
    try contradiction; simpl; eauto.
Qed.



(** [metAt] is written once. *)
Lemma metAt_kept c e now t :
  metAt c = Some t -> metAt (evaluateCondition c e now) = Some t.
Proof.
  intros H. unfold evaluateCondition; simpl. rewrite H.
  rewrite bool_decide_eq_true_2 by eauto.
  now rewrite andb_false_r.
Qed.

End Evaluator.

(** C7. A [time_based] condition with a stored [autoReleaseAt] instant [d]
    is met by an evaluation at time [now] exactly when [d <= now] and
    unmet exactly when [now < d], whatever evaluations (at whatever times,
    on whatever snapshots) came before; the stored deadline is the same
    instant after every evaluation. *)
Theorem time_based_met_exactly_from_deadline :
  forall (c : SettlementCondition) (d : Z)
         (history : list (EscrowTransaction * Z))
         (e : EscrowTransaction) (now : Z),
    type c = time_based ->
    autoReleaseAt (config c) = Some (DateAt d) ->
    let c' := evaluateCondition (evaluate_many history c) e now in
    (isMet c' = true <-> d <= now) /\
    (isMet c' = false <-> now < d) /\
    autoReleaseAt (config c') = Some (DateAt d).
Proof.
  intros c d history e now Hty Hcfg c'.
  assert (Hmet : isMet c' = (d <=? now)).
  { subst c'. apply time_based_isMet.
    - now rewrite evaluate_many_type.
    - now rewrite evaluate_many_config. }
  split; [|split].
  - rewrite Hmet. apply Z.leb_le.
  - rewrite Hmet. apply Z.leb_gt.
  - subst c'. rewrite evaluateCondition_config, evaluate_many_config.
    exact Hcfg.
Qed.

(** The timer of a digital purchase created at time 0 (deadline after 48
    hours), evaluated at hours 1 and 47 and then at hour 48. *)
Lemma time_based_met_exactly_from_deadline_witness :
  exists e,
    Scenario.the_escrow Scenario.world_created = Some e /\
    let c := new_condition time_based "Auto-release after 48 hours if no dispute"
               (timer_config 2 0) 2 in
    let c' := evaluateCondition
                (evaluate_many [(e, Scenario.hour); (e, 47 * Scenario.hour)] c)
                e (48 * Scenario.hour) in
    (isMet c' = true <-> 2 * day_ms <= 48 * Scenario.hour) /\
    (isMet c' = false <-> 48 * Scenario.hour < 2 * day_ms) /\
    autoReleaseAt (config c') = Some (DateAt (2 * day_ms)).
Proof.
  eexists. split; [vm_compute; reflexivity|].
  apply (time_based_met_exactly_from_deadline _ (2 * day_ms)); reflexivity.
Defined.

(* ===================================================================== *)
(** * Running the actions                                                 *)
(* ===================================================================== *)

Ltac unfold_action :=
  unfold try_catch, mbind, mret, Action_bind, Action_ret, getDocument,
    updateDocument, logEscrowEvent, rail, throw.


Section Release.

Variables (env : Env) (escrowId : string).

(** The run of [releaseFundsToSeller], path by path. *)
Lemma releaseFundsToSeller_run (w : World) :
  releaseFundsToSeller env escrowId w =
  match escrows w !! escrowId with
  | None => (w, Returned (failure not_found))
  | Some e =>
      if negb (allConditionsMet e) then
        (w, Returned (failure "Not all conditions are met"))
      else if bool_decide (status e ∈ [released; refunded]) then
        (w, Returned (failure "Funds already released or refunded"))
      else
        match transferReply env with
        | Rejected msg =>
            (with_railCalls w (railCalls w ++ [transfer_request escrowId e]),
             Returned (failure msg))
        | Accepted tr =>
            let calls :=
              (railCalls w ++ [transfer_request escrowId e]) ++ [payout_request e tr]
            in
            match payoutReply env with
            | Rejected msg =>
                (with_railCalls w calls, Returned (failure msg))
            | Accepted po =>
                ({| escrows :=
                      <[escrowId :=
                          apply_updates e
                            [ set_status released;
                              set_statusHistory (released_entry env e);
                              set_stripeTransferId tr;
                              set_stripePayoutId po ]]> (escrows w);
                    sellerAccounts := sellerAccounts w;
                    platformConfigs := platformConfigs w;
                    events :=
                      events w ++
                        [ {| escrowTransactionId := escrowId;
                             eventType := "released";
                             eventTriggeredBy := "system" |} ];
                    railCalls := calls |},
                 Returned ok)
            end
        end
  end.
Proof.
  unfold releaseFundsToSeller. unfold_action.
  destruct (escrows w !! escrowId) as [e|] eqn:Hdoc; [|reflexivity].
  destruct (allConditionsMet e); simpl; [|reflexivity].
  destruct (bool_decide (status e ∈ [released; refunded])); [reflexivity|].
  destruct (transferReply env); simpl; [|reflexivity].
  destruct (payoutReply env); simpl; [|reflexivity].
  rewrite Hdoc. reflexivity.
Qed.

(** [releaseFundsToSeller] never throws. *)
Lemma releaseFundsToSeller_returns (w : World) :
  exists r, snd (releaseFundsToSeller env escrowId w) = Returned r.
Proof.
  rewrite releaseFundsToSeller_run.
  repeat (match goal with
          | |- context [match ?x with _ => _ end] => destruct x
          end; simpl); eauto.
Qed.

(** A release either succeeds and marks the document [released], or
    fails and leaves the store and the audit log as they were. *)
Lemma releaseFundsToSeller_cases (w : World) :
  let r := releaseFundsToSeller env escrowId w in
  (succeeded (snd r) = false /\
   escrows (fst r) = escrows w /\ events (fst r) = events w) \/
  (succeeded (snd r) = true /\
   exists e e', escrows w !! escrowId = Some e /\
                escrows (fst r) !! escrowId = Some e' /\
                status e' = released /\
                settlementConditions e' = settlementConditions e /\
                allConditionsMet e' = allConditionsMet e /\
                allConditionsMet e = true).
Proof.
  simpl. rewrite releaseFundsToSeller_run.
  destruct (escrows w !! escrowId) as [e|] eqn:Hdoc; simpl; [|now left].
  destruct (allConditionsMet e) eqn:Hflag; simpl; [|now left].
  destruct (bool_decide (status e ∈ [released; refunded])); [now left|].
  destruct (transferReply env); simpl; [|now left].
  destruct (payoutReply env); simpl; [|now left].
  right. split; [reflexivity|]. eexists _, _.
  split; [reflexivity|]. split; [apply lookup_insert_eq|].
  now simpl.
Qed.

End Release.

Section Evaluation.

Variables (env : Env) (escrowId : string).

Lemma evaluateSettlementConditions_run (w : World) :
  evaluateSettlementConditions env escrowId w =
  match escrows w !! escrowId with
  | None =>
      (w, Returned {| res_allConditionsMet := false; unmetConditions := [];
                      res_released := None |})
  | Some e =>
      let evaluated := evaluated_conditions env e in
      let w1 := with_escrows w (<[escrowId := stored_evaluation env e]>
                                  (escrows w)) in
      if code_allMet evaluated &&
         negb (bool_decide (status e ∈ [released; refunded; disputed]))
      then
        let r := releaseFundsToSeller env escrowId w1 in
        (fst r,
         Returned {| res_allConditionsMet := code_allMet evaluated;
                     unmetConditions := unmet_descriptions evaluated;
                     res_released := Some (succeeded (snd r)) |})
      else
        (w1,
         Returned {| res_allConditionsMet := code_allMet evaluated;
                     unmetConditions := unmet_descriptions evaluated;
                     res_released := Some false |})
  end.
Proof.
  unfold evaluateSettlementConditions. unfold_action.
  unfold stored_evaluation, unmet_descriptions, code_allMet,
    evaluated_conditions.
  destruct (escrows w !! escrowId) as [e|] eqn:Hdoc; [|reflexivity].
  cbv beta iota. rewrite Hdoc.
  destruct (forallb isMet _ && negb (bool_decide _)); [|reflexivity].
  cbv beta iota.
  match goal with
  | |- context [releaseFundsToSeller env escrowId ?w1] =>
      destruct (releaseFundsToSeller_returns env escrowId w1) as [r Hr];
      destruct (releaseFundsToSeller env escrowId w1) as [w2 o]
  end.
  simpl in Hr. subst o. reflexivity.
Qed.


End Evaluation.

(* ===================================================================== *)
(** * The scenario, computed                                              *)
(* ===================================================================== *)

Section ScenarioFacts.
Import Scenario.

Lemma world_created_escrow : the_escrow world_created = Some created_escrow.
Proof. vm_compute. reflexivity. Qed.

Lemma world_confirmed_summary :
  (status <$> the_escrow world_confirmed) = Some confirmed /\
  (condition_summary <$> the_escrow world_confirmed) =
    Some [ (buyer_confirmation, true, Some (2 * hour));
           (time_based, false, None) ].
Proof. split; vm_compute; reflexivity. Qed.

Lemma world_disputed_summary :
  (status <$> the_escrow world_disputed) = Some disputed /\
  (condition_summary <$> the_escrow world_disputed) =
    Some [ (buyer_confirmation, true, Some (2 * hour));
           (time_based, false, None) ].
Proof. split; vm_compute; reflexivity. Qed.

Lemma world_released_summary :
  (status <$> the_escrow world_released) = Some released /\
  (allConditionsMet <$> the_escrow world_released) = Some true /\
  (condition_summary <$> the_escrow world_released) =
    Some [ (buyer_confirmation, true, Some (2 * hour));
           (time_based, true, Some (49 * hour)) ].
Proof. repeat split; vm_compute; reflexivity. Qed.

End ScenarioFacts.

(* ===================================================================== *)
(** * Condition evaluation: missing data and flips                        *)
(* ===================================================================== *)




(** C10. The buyer's confirmation flips back: in the purchase above the
    [buyer_confirmation] condition is met at hour 2 (status [confirmed]),
    and the evaluation at hour 4, after the dispute, stores it unmet with
    its [metAt] still at hour 2; the same happens after the release.  In
    general a [buyer_confirmation] condition is unmet after an evaluation
    whenever the status is not [confirmed], whatever it was before, and
    an evaluation never clears or overwrites a [metAt] that is set. *)
Theorem buyer_confirmation_flips_back_metAt_stays :
  ((condition_summary <$> Scenario.the_escrow Scenario.world_disputed) =
     Some [ (buyer_confirmation, true, Some (2 * Scenario.hour));
            (time_based, false, None) ] /\
   (condition_summary <$>
      Scenario.the_escrow Scenario.world_disputed_evaluated) =
     Some [ (buyer_confirmation, false, Some (2 * Scenario.hour));
            (time_based, false, None) ] /\
   (condition_summary <$>
      Scenario.the_escrow (fst Scenario.evaluation_after_release)) =
     Some [ (buyer_confirmation, false, Some (2 * Scenario.hour));
            (time_based, true, Some (49 * Scenario.hour)) ]) /\
  (forall (c : SettlementCondition) (e : EscrowTransaction) (now : Z),
     type c = buyer_confirmation ->
     status e <> confirmed ->
     isMet (evaluateCondition c e now) = false) /\
  (forall (c : SettlementCondition) (e : EscrowTransaction) (now t : Z),
     metAt c = Some t ->
     metAt (evaluateCondition c e now) = Some t).
Proof.
  split; [|split].
  - repeat split; vm_compute; reflexivity.
  - intros c e now Hty Hst. rewrite evaluateCondition_isMet.
    unfold evaluate_isMet. rewrite Hty.
    now apply bool_decide_eq_false_2.
  - intros c e now t. apply metAt_kept.
Qed.

(** A met confirmation with [metAt] at hour 2, evaluated against the
    document as created (status [pending_payment]). *)
Lemma buyer_confirmation_flips_back_metAt_stays_witness :
  let c := {| type := buyer_confirmation;
              description := "Buyer must confirm receipt OR";
              priority := 1; required := None;
              config := confirmation_config; isMet := true;
              metAt := Some (2 * Scenario.hour) |} in
  isMet (evaluateCondition c Scenario.created_escrow (3 * Scenario.hour))
    = false /\
  metAt (evaluateCondition c Scenario.created_escrow (3 * Scenario.hour))
    = Some (2 * Scenario.hour).
Proof.
  intros c. split.
  - apply (proj1 (proj2 buyer_confirmation_flips_back_metAt_stays));
      [reflexivity | discriminate].
  - apply (proj2 (proj2 buyer_confirmation_flips_back_metAt_stays)).
    reflexivity.
Defined.

(* ===================================================================== *)
(** * Aggregation                                                         *)
(* ===================================================================== *)

(** The code's rule is the stricter one. *)
Lemma code_allMet_spec_settleable (cs : list SettlementCondition) :
  code_allMet cs = true -> spec_settleable cs = true.
Proof.
  unfold code_allMet, spec_settleable. intros Hall.
  rewrite forallb_forall in Hall.
  apply andb_true_iff. split.
  - apply forallb_forall. intros c Hc.
    apply filter_In in Hc. apply Hall, Hc.
  - destruct (List.filter _ cs) as [|c rest] eqn:Hf; [reflexivity|].
    assert (Hin : In c (List.filter (fun c => negb (marked_required c)) cs))
      by (rewrite Hf; now left).
    apply filter_In in Hin. simpl.
    now rewrite (Hall c (proj1 Hin)).
Qed.


(* ===================================================================== *)
(** * Evaluation of a released transaction                                *)
(* ===================================================================== *)

Lemma evaluate_released (env : Env) (escrowId : string) (w : World)
    (e : EscrowTransaction) :
  escrows w !! escrowId = Some e ->
  status e = released ->
  evaluateSettlementConditions env escrowId w =
    (with_escrows w (<[escrowId := stored_evaluation env e]> (escrows w)),
     Returned
       {| res_allConditionsMet := code_allMet (evaluated_conditions env e);
          unmetConditions := unmet_descriptions (evaluated_conditions env e);
          res_released := Some false |}).
Proof.
  intros Hdoc Hst. rewrite evaluateSettlementConditions_run, Hdoc. simpl.
  rewrite Hst.
  rewrite (bool_decide_eq_true_2 (released ∈ [released; refunded; disputed]))
    by set_solver.
  now rewrite andb_false_r.
Qed.

Lemma same_but_conditions_stored (env : Env) (e e' : EscrowTransaction) :
  same_but_conditions e e' ->
  same_but_conditions e (stored_evaluation env e').
Proof.
  unfold same_but_conditions, stored_evaluation.
  destruct e, e'; simpl. intros H.
  injection H as -> -> -> -> -> -> -> -> -> -> -> -> -> -> -> -> -> -> -> ->.
  reflexivity.
Qed.

Lemma evaluate_repeatedly_released (envs : list Env) (escrowId : string) :
  forall (w : World) (e0 e : EscrowTransaction),
    escrows w !! escrowId = Some e ->
    status e = released ->
    same_but_conditions e0 e ->
    let r := evaluate_repeatedly envs escrowId w in
    railCalls (fst r) = railCalls w /\
    events (fst r) = events w /\
    Forall (fun o => exists ev, o = Returned ev /\ res_released ev = Some false)
           (snd r) /\
    exists e', escrows (fst r) !! escrowId = Some e' /\
               status e' = released /\
               same_but_conditions e0 e'.
Proof.
  induction envs as [|env envs IH]; intros w e0 e Hdoc Hst Hsame; simpl.
  - repeat split; eauto.
  - rewrite (evaluate_released env escrowId w e Hdoc Hst). simpl.
    match goal with
    | |- context [evaluate_repeatedly envs escrowId ?w1] =>
        destruct (IH w1 e0 (stored_evaluation env e)) as (Hr & He & Hf & Hd)
    end.
    + simpl. apply lookup_insert_eq.
    + exact Hst.
    + now apply same_but_conditions_stored.
    + simpl in *. repeat split; eauto.
Qed.

(** C2, as the claim states it, fails: the released purchase, whose
    stored flag is [true], is evaluated at hour 51; the call reports
    [allConditionsMet = false] and stores the flag [false] and a changed
    condition list (the confirmation is unmet under status [released]). *)
Lemma evaluation_of_released_reports_unmet :
  (status <$> Scenario.the_escrow Scenario.world_released) = Some released /\
  (allConditionsMet <$> Scenario.the_escrow Scenario.world_released)
    = Some true /\
  (res_allConditionsMet <$> returned (snd Scenario.evaluation_after_release))
    = Some false /\
  (allConditionsMet <$>
     Scenario.the_escrow (fst Scenario.evaluation_after_release))
    = Some false /\
  (settlementConditions <$>
     Scenario.the_escrow (fst Scenario.evaluation_after_release))
    <> (settlementConditions <$> Scenario.the_escrow Scenario.world_released).
Proof.
  repeat split; try (vm_compute; reflexivity).
  vm_compute. discriminate.
Qed.

(** C2, amended.  On a transaction whose status is [released],
    [evaluateSettlementConditions] sends nothing to the payment rail,
    logs no event, reports [released = false] and keeps the status, once
    or any number of times; what it does change is the stored condition
    list and [allConditionsMet] flag, which it recomputes and writes at
    every call, reporting the recomputed flag. *)
Theorem evaluation_of_released_never_releases_again :
  forall (envs : list Env) (env : Env) (escrowId : string) (w : World)
         (e : EscrowTransaction),
    escrows w !! escrowId = Some e ->
    status e = released ->
    (evaluateSettlementConditions env escrowId w =
       (with_escrows w (<[escrowId := stored_evaluation env e]> (escrows w)),
        Returned
          {| res_allConditionsMet := code_allMet (evaluated_conditions env e);
             unmetConditions :=
               unmet_descriptions (evaluated_conditions env e);
             res_released := Some false |})) /\
    let r := evaluate_repeatedly envs escrowId w in
    railCalls (fst r) = railCalls w /\
    events (fst r) = events w /\
    Forall (fun o => exists ev, o = Returned ev /\ res_released ev = Some false)
           (snd r) /\
    exists e', escrows (fst r) !! escrowId = Some e' /\
               status e' = released /\
               same_but_conditions e e'.
Proof.
  intros envs env escrowId w e Hdoc Hst. split.
  - now apply evaluate_released.
  - apply (evaluate_repeatedly_released envs escrowId w e e Hdoc Hst).
    unfold same_but_conditions. now destruct e.
Qed.

(** The released purchase, evaluated at hours 51, 52 and 53. *)
Lemma evaluation_of_released_never_releases_again_witness :
  let r := evaluate_repeatedly
             [Scenario.env_at (51 * Scenario.hour);
              Scenario.env_at (52 * Scenario.hour);
              Scenario.env_at (53 * Scenario.hour)]
             Scenario.escrow_id Scenario.world_released in
  railCalls (fst r) = railCalls Scenario.world_released /\
  Forall (fun o => exists ev, o = Returned ev /\ res_released ev = Some false)
         (snd r).
Proof.
  intros r.
  edestruct (evaluation_of_released_never_releases_again
               [Scenario.env_at (51 * Scenario.hour);
                Scenario.env_at (52 * Scenario.hour);
                Scenario.env_at (53 * Scenario.hour)]
               (Scenario.env_at (51 * Scenario.hour))
               Scenario.escrow_id Scenario.world_released)
    as [_ (Hr & _ & Hf & _)].
  - vm_compute. reflexivity.
  - reflexivity.
  - split; [exact Hr | exact Hf].
Defined.

(* ===================================================================== *)
(** * Release: preconditions, partial failure, at most one success        *)
(* ===================================================================== *)

Lemma release_blocked (env : Env) (escrowId : string) (w : World)
    (e : EscrowTransaction) :
  escrows w !! escrowId = Some e ->
  allConditionsMet e = false \/ status e = released \/ status e = refunded ->
  releaseFundsToSeller env escrowId w =
    (w, Returned (failure (if allConditionsMet e
                           then "Funds already released or refunded"
                           else "Not all conditions are met"))).
Proof.
  intros Hdoc Hpre. rewrite releaseFundsToSeller_run, Hdoc.
  destruct (allConditionsMet e); simpl; [|reflexivity].
  rewrite bool_decide_eq_true_2; [reflexivity|].
  destruct Hpre as [Hflag | [-> | ->]]; [discriminate | set_solver..].
Qed.

(** Once the document is [released], no call reports a release, and the
    document stays [released]. *)
Lemma run_trigger_released (t : Trigger) (escrowId : string) (w : World)
    (e : EscrowTransaction) :
  escrows w !! escrowId = Some e ->
  status e = released ->
  snd (run_trigger t escrowId w) = false /\
  exists e', escrows (fst (run_trigger t escrowId w)) !! escrowId = Some e' /\
             status e' = released.
Proof.
  intros Hdoc Hst. destruct t as [env | env]; simpl.
  - rewrite (release_blocked env escrowId w e Hdoc) by auto. simpl. eauto.
  - rewrite (evaluate_released env escrowId w e Hdoc Hst). simpl.
    split; [reflexivity|]. eexists. split; [apply lookup_insert_eq|].
    exact Hst.
Qed.

Lemma run_triggers_released (ts : list Trigger) (escrowId : string) :
  forall (w : World) (e : EscrowTransaction),
    escrows w !! escrowId = Some e ->
    status e = released ->
    releases (snd (run_triggers ts escrowId w)) = 0%nat.
Proof.
  induction ts as [|t ts IH]; intros w e Hdoc Hst; simpl.
  - reflexivity.
  - destruct (run_trigger_released t escrowId w e Hdoc Hst)
      as (Hno & e' & Hdoc' & Hst').
    rewrite Hno. unfold releases in *. simpl. now apply (IH _ e').
Qed.

(** A call that reports a release leaves the document [released]. *)
Lemma run_trigger_reports_release (t : Trigger) (escrowId : string)
    (w : World) :
  snd (run_trigger t escrowId w) = true ->
  exists e', escrows (fst (run_trigger t escrowId w)) !! escrowId = Some e' /\
             status e' = released.
Proof.
  destruct t as [env | env]; simpl.
  - intros Hok.
    destruct (releaseFundsToSeller_cases env escrowId w)
      as [(Hfail & _) | (_ & e & e' & _ & Hdoc' & Hst & _)].
    + rewrite Hfail in Hok. discriminate.
    + eauto.
  - rewrite evaluateSettlementConditions_run.
    destruct (escrows w !! escrowId) as [e|]; simpl; [|discriminate].
    destruct (code_allMet _ && negb (bool_decide _)); simpl;
      [|discriminate].
    intros Hok. apply bool_decide_eq_true_1 in Hok.
    match goal with
    | |- context [releaseFundsToSeller env escrowId ?w1] =>
        destruct (releaseFundsToSeller_cases env escrowId w1)
          as [(Hfail & _) | (_ & e1 & e' & _ & Hdoc' & Hst & _)]
    end.
    + rewrite Hfail in Hok. discriminate.
    + eauto.
Qed.

Lemma run_triggers_at_most_once (ts : list Trigger) (escrowId : string) :
  forall w : World,
    (releases (snd (run_triggers ts escrowId w)) <= 1)%nat.
Proof.
  induction ts as [|t ts IH]; intros w; simpl.
  - unfold releases. simpl. lia.
  - destruct (snd (run_trigger t escrowId w)) eqn:Hrep.
    + destruct (run_trigger_reports_release t escrowId w Hrep)
        as (e' & Hdoc' & Hst').
      pose proof (run_triggers_released ts escrowId _ e' Hdoc' Hst') as Hz.
      unfold releases in *. simpl. rewrite Hz. lia.
    + unfold releases in *. simpl. apply IH.
Qed.

(** C4. When the stored [allConditionsMet] flag is false, or the status
    is [released] or [refunded], [releaseFundsToSeller] returns a failure
    and the world after the call is the world before it: no request to
    the payment rail, no write to the store, no event.  Hence among any
    sequence of calls on one transaction that can release (releases and
    evaluations, with whatever clocks and rail answers), at most one
    reports a release. *)
Theorem release_precondition_and_at_most_once :
  (forall (env : Env) (escrowId : string) (w : World)
          (e : EscrowTransaction),
     escrows w !! escrowId = Some e ->
     allConditionsMet e = false \/ status e = released \/
       status e = refunded ->
     exists msg,
       releaseFundsToSeller env escrowId w = (w, Returned (failure msg))) /\
  (forall (ts : list Trigger) (escrowId : string) (w : World),
     (releases (snd (run_triggers ts escrowId w)) <= 1)%nat).
Proof.
  split.
  - intros env escrowId w e Hdoc Hpre. eexists.
    now apply (release_blocked env escrowId w e).
  - intros ts escrowId w. apply run_triggers_at_most_once.
Qed.

(** A release asked at hour 50 for the purchase released at hour 49. *)
Lemma release_precondition_and_at_most_once_witness :
  exists msg,
    releaseFundsToSeller (Scenario.env_at (50 * Scenario.hour))
      Scenario.escrow_id Scenario.world_released
    = (Scenario.world_released, Returned (failure msg)).
Proof.
  eapply (proj1 release_precondition_and_at_most_once).
  - vm_compute. reflexivity.
  - right. left. reflexivity.
Defined.

(** C3, as the claim states it, fails: at hour 49 the transfer of the
    purchase is accepted and its payout refused; the status is still
    [confirmed], but no transfer identifier is stored, and the release
    tried again at hour 50 sends a second transfer. *)
Lemma payout_failure_forgets_transfer :
  railCalls Scenario.world_payout_refused =
    railCalls Scenario.world_confirmed ++
      [ transfers_create 42510 "nzd" "acct_1" Scenario.escrow_id;
        payouts_create 42510 "nzd" "acct_1" "tr_1" ] /\
  (status <$> Scenario.the_escrow Scenario.world_payout_refused)
    = Some confirmed /\
  (stripeTransferId <$> Scenario.the_escrow Scenario.world_payout_refused)
    = Some None /\
  transfers_for Scenario.escrow_id Scenario.world_retried =
    [ transfers_create 42510 "nzd" "acct_1" Scenario.escrow_id;
      transfers_create 42510 "nzd" "acct_1" Scenario.escrow_id ].
Proof. repeat split; vm_compute; reflexivity. Qed.

(** C3, amended.  When the transfer is accepted and the payout refused,
    [releaseFundsToSeller] returns the failure of the payout and writes
    nothing: the document (status, identifiers, history) and the event
    log are as before, so the transaction is not marked [released] and
    the transfer identifier is not stored; a retry starts over and sends
    the transfer request again before any payout. *)
Theorem payout_failure_leaves_document_untouched :
  forall (env retry : Env) (escrowId : string) (w : World)
         (e : EscrowTransaction) (transfer msg : string),
    escrows w !! escrowId = Some e ->
    allConditionsMet e = true ->
    status e <> released ->
    status e <> refunded ->
    transferReply env = Accepted transfer ->
    payoutReply env = Rejected msg ->
    let r := releaseFundsToSeller env escrowId w in
    snd r = Returned (failure msg) /\
    escrows (fst r) = escrows w /\
    events (fst r) = events w /\
    railCalls (fst r) =
      railCalls w ++ [transfer_request escrowId e; payout_request e transfer]
    /\
    exists rest,
      railCalls (fst (releaseFundsToSeller retry escrowId (fst r))) =
        railCalls (fst r) ++ transfer_request escrowId e :: rest.
Proof.
  intros env retry escrowId w e transfer msg Hdoc Hflag Hrel Href Htr Hpo.
  assert (Hopen : bool_decide (status e ∈ [released; refunded]) = false).
  { apply bool_decide_eq_false_2.
    rewrite !elem_of_cons, elem_of_nil. tauto. }
  simpl. rewrite releaseFundsToSeller_run, Hdoc, Hflag. simpl.
  rewrite Hopen, Htr, Hpo. simpl.
  repeat split.
  - now rewrite <- app_assoc.
  - rewrite releaseFundsToSeller_run. simpl. rewrite Hdoc, Hflag. simpl.
    rewrite Hopen.
    destruct (transferReply retry) as [transfer'|];
      [destruct (payoutReply retry)|]; simpl.
    + exists [payout_request e transfer'].
      symmetry. apply (app_assoc _ [_] [_]).
    + exists [payout_request e transfer'].
      symmetry. apply (app_assoc _ [_] [_]).
    + exists []. reflexivity.
Qed.

(** The purchase at hour 49 with the payout refused, retried at hour 50. *)
Lemma payout_failure_leaves_document_untouched_witness :
  let r := releaseFundsToSeller
             (Scenario.env_payout_refused (49 * Scenario.hour))
             Scenario.escrow_id Scenario.world_payout_refused in
  snd r = Returned (failure "Payouts are not enabled for this account") /\
  escrows (fst r) = escrows Scenario.world_payout_refused.
Proof.
  intros r.
  edestruct (payout_failure_leaves_document_untouched
               (Scenario.env_payout_refused (49 * Scenario.hour))
               (Scenario.env_at (50 * Scenario.hour))
               Scenario.escrow_id Scenario.world_payout_refused)
    as (Hres & Hdocs & _).
  - vm_compute. reflexivity.
  - reflexivity.
  - discriminate.
  - discriminate.
  - reflexivity.
  - reflexivity.
  - split; [exact Hres | exact Hdocs].
Defined.

(* ===================================================================== *)
(** * Guards of the buyer and seller actions                              *)
(* ===================================================================== *)

Lemma markAsShipped_guard (env : Env) (escrowId seller : string)
    (trackingData : TrackingData) (w : World) (e : EscrowTransaction) :
  escrows w !! escrowId = Some e ->
  sellerId e <> seller \/ status e <> payment_received ->
  markAsShipped env escrowId seller trackingData w =
    (w, Returned (failure (if bool_decide (sellerId e = seller)
                           then "Invalid status for shipping"
                           else "Unauthorized"))).
Proof.
  intros Hdoc Hguard. unfold markAsShipped. unfold_action.
  rewrite Hdoc. cbv beta iota.
  destruct (bool_decide (sellerId e = seller)) eqn:Hseller; simpl;
    [|reflexivity].
  apply bool_decide_eq_true_1 in Hseller.
  destruct Hguard as [Hne | Hst]; [contradiction|].
  now rewrite bool_decide_eq_false_2.
Qed.

Lemma confirmReceipt_guard (env : Env) (escrowId buyer : string)
    (w : World) (e : EscrowTransaction) :
  escrows w !! escrowId = Some e ->
  buyerId e <> buyer \/ status e ∉ [shipped; in_transit; delivered] ->
  confirmReceipt env escrowId buyer w =
    (w, Returned (failure (if bool_decide (buyerId e = buyer)
                           then "Item must be delivered before confirming"
                           else "Unauthorized"))).
Proof.
  intros Hdoc Hguard. unfold confirmReceipt. unfold_action.
  rewrite Hdoc. cbv beta iota.
  destruct (bool_decide (buyerId e = buyer)) eqn:Hbuyer; simpl;
    [|reflexivity].
  apply bool_decide_eq_true_1 in Hbuyer.
  destruct Hguard as [Hne | Hst]; [contradiction|].
  now rewrite bool_decide_eq_false_2.
Qed.

(** C8. [markAsShipped] by a caller who is not the seller of the
    transaction fails with "Unauthorized", and by the seller in a status
    other than [payment_received] fails with "Invalid status for
    shipping"; [confirmReceipt] by a caller who is not the buyer fails
    with "Unauthorized", and by the buyer in a status outside [shipped],
    [in_transit], [delivered] fails with "Item must be delivered before
    confirming".  In each case the world after the call is the world
    before it. *)
Theorem actor_and_state_guards :
  forall (env : Env) (escrowId caller : string) (w : World)
         (e : EscrowTransaction),
    escrows w !! escrowId = Some e ->
    (forall trackingData,
       sellerId e <> caller ->
       markAsShipped env escrowId caller trackingData w =
         (w, Returned (failure "Unauthorized"))) /\
    (forall trackingData,
       sellerId e = caller ->
       status e <> payment_received ->
       markAsShipped env escrowId caller trackingData w =
         (w, Returned (failure "Invalid status for shipping"))) /\
    (buyerId e <> caller ->
     confirmReceipt env escrowId caller w =
       (w, Returned (failure "Unauthorized"))) /\
    (buyerId e = caller ->
     status e ∉ [shipped; in_transit; delivered] ->
     confirmReceipt env escrowId caller w =
       (w, Returned (failure "Item must be delivered before confirming"))).
Proof.
  intros env escrowId caller w e Hdoc. repeat split.
  - intros td Hne.
    rewrite (markAsShipped_guard env escrowId caller td w e Hdoc) by auto.
    now rewrite bool_decide_eq_false_2.
  - intros td Heq Hst.
    rewrite (markAsShipped_guard env escrowId caller td w e Hdoc) by auto.
    now rewrite bool_decide_eq_true_2.
  - intros Hne.
    rewrite (confirmReceipt_guard env escrowId caller w e Hdoc) by auto.
    now rewrite bool_decide_eq_false_2.
  - intros Heq Hst.
    rewrite (confirmReceipt_guard env escrowId caller w e Hdoc) by auto.
    now rewrite bool_decide_eq_true_2.
Qed.

(** On the paid, not yet shipped purchase: a stranger tries to ship, and
    the buyer tries to confirm. *)
Lemma actor_and_state_guards_witness :
  markAsShipped (Scenario.env_at Scenario.hour) Scenario.escrow_id
    "buyer_1" Scenario.tracking Scenario.world_paid =
    (Scenario.world_paid, Returned (failure "Unauthorized")) /\
  confirmReceipt (Scenario.env_at Scenario.hour) Scenario.escrow_id
    "buyer_1" Scenario.world_paid =
    (Scenario.world_paid,
     Returned (failure "Item must be delivered before confirming")).
Proof.
  edestruct (actor_and_state_guards (Scenario.env_at Scenario.hour)
               Scenario.escrow_id "buyer_1" Scenario.world_paid)
    as (Hship & _ & _ & Hconfirm).
  - vm_compute. reflexivity.
  - split.
    + apply Hship. discriminate.
    + apply Hconfirm; [reflexivity|].
      rewrite !elem_of_cons, elem_of_nil. simpl.
      intros [H | [H | [H | []]]]; discriminate H.
Defined.

(* ===================================================================== *)
(** * Dispute window                                                      *)
(* ===================================================================== *)

(** C5. For a transaction with a stored dispute deadline and a status
    among [shipped], [in_transit], [delivered], [confirmed], a dispute
    opened by its buyer before the deadline succeeds and stores the
    status [disputed] (with the history entry, the reason and the
    opening time, and one audit event); opened after the deadline it
    fails with "Dispute period has expired" and the world after the call
    is the world before it. *)
Theorem dispute_only_within_period :
  forall (env : Env) (escrowId buyer reason : string) (w : World)
         (e : EscrowTransaction) (deadline : Z),
    escrows w !! escrowId = Some e ->
    buyerId e = buyer ->
    status e ∈ [shipped; in_transit; delivered; confirmed] ->
    disputePeriodEndsAt e = Some (DateAt deadline) ->
    (clock env < deadline ->
     let r := openDispute env escrowId buyer reason w in
     snd r = Returned ok /\
     escrows (fst r) =
       <[escrowId :=
           apply_updates e
             [ set_status disputed;
               set_statusHistory (disputed_history env reason e);
               set_disputeReason reason;
               set_disputedAt (clock env) ]]> (escrows w) /\
     (status <$> escrows (fst r) !! escrowId) = Some disputed /\
     events (fst r) =
       events w ++ [ {| escrowTransactionId := escrowId;
                        eventType := "disputed";
                        eventTriggeredBy := "buyer" |} ] /\
     railCalls (fst r) = railCalls w) /\
    (deadline < clock env ->
     openDispute env escrowId buyer reason w =
       (w, Returned (failure "Dispute period has expired"))).
Proof.
  intros env escrowId buyer reason w e deadline Hdoc Hbuyer Hst Hdl.
  split.
  - intros Hbefore. unfold openDispute. unfold_action.
    rewrite Hdoc. cbv beta iota.
    rewrite (bool_decide_eq_true_2 _ Hbuyer).
    rewrite (bool_decide_eq_true_2 _ Hst). cbn [negb].
    rewrite Hdl. cbn [date_gtb].
    replace (deadline <? clock env) with false
      by (symmetry; apply Z.ltb_ge; lia).
    rewrite Hdoc. cbn [fst snd escrows events railCalls with_escrows
                        with_events].
    split; [reflexivity|]. split; [reflexivity|].
    split; [now rewrite lookup_insert_eq|].
    split; reflexivity.
  - intros Hafter. unfold openDispute. unfold_action.
    rewrite Hdoc. cbv beta iota.
    rewrite (bool_decide_eq_true_2 _ Hbuyer).
    rewrite (bool_decide_eq_true_2 _ Hst). simpl.
    rewrite Hdl. simpl.
    replace (deadline <? clock env) with true
      by (symmetry; apply Z.ltb_lt; lia).
    reflexivity.
Qed.

(** The delivered purchase whose dispute period ends on day 10: a dispute
    one second before the deadline, and one second after. *)
Lemma dispute_only_within_period_witness :
  snd (openDispute (Scenario.env_at (10 * day_ms - 1000)) Scenario.escrow_id
         "buyer_1" "damaged" Scenario.world_delivered) = Returned ok /\
  openDispute (Scenario.env_at (10 * day_ms + 1000)) Scenario.escrow_id
    "buyer_1" "damaged" Scenario.world_delivered =
    (Scenario.world_delivered,
     Returned (failure "Dispute period has expired")).
Proof.
  assert (Hst : status Scenario.delivered_escrow ∈
                  [shipped; in_transit; delivered; confirmed]).
  { simpl. rewrite !elem_of_cons. auto. }
  split.
  - apply (proj1 (dispute_only_within_period
                    (Scenario.env_at (10 * day_ms - 1000))
                    Scenario.escrow_id "buyer_1" "damaged"
                    Scenario.world_delivered Scenario.delivered_escrow
                    (10 * day_ms) eq_refl eq_refl Hst eq_refl)).
    simpl. lia.
  - apply (proj2 (dispute_only_within_period
                    (Scenario.env_at (10 * day_ms + 1000))
                    Scenario.escrow_id "buyer_1" "damaged"
                    Scenario.world_delivered Scenario.delivered_escrow
                    (10 * day_ms) eq_refl eq_refl Hst eq_refl)).
    simpl. lia.
Defined.

(* ===================================================================== *)
(** * Fees                                                                *)
(* ===================================================================== *)

(** The configuration [createEscrowTransaction] reads. *)
Lemma getPlatformConfig_run (w : World) :
  getPlatformConfig w = (w, Returned (hd default_config (platformConfigs w))).
Proof. unfold getPlatformConfig. now destruct (platformConfigs w). Qed.




(* ===================================================================== *)
(** * What a call may change: the step relations                          *)
(* ===================================================================== *)

Section Steps.

Implicit Types (c : SettlementCondition) (e : EscrowTransaction).

Lemma cond_step_refl c : cond_step c c.
Proof. split; auto. Qed.

Lemma cond_step_trans c1 c2 c3 :
  cond_step c1 c2 -> cond_step c2 c3 -> cond_step c1 c3.
Proof.
  intros [Hs1 Hm1] [Hs2 Hm2]. split.
  - now rewrite Hs2.
  - auto.
Qed.

Lemma conditions_step_refl (cs : list SettlementCondition) :
  Forall2 cond_step cs cs.
Proof. induction cs; constructor; auto using cond_step_refl. Qed.

Lemma cond_step_stuck c c' : cond_step c c' -> stuck c' = stuck c.
Proof. intros [Hs _]. unfold stuck. now rewrite Hs. Qed.

Lemma conditions_step_no_stuck (cs cs' : list SettlementCondition) :
  Forall2 cond_step cs cs' ->
  Forall (fun c => stuck c = false) cs' ->
  Forall (fun c => stuck c = false) cs.
Proof.
  induction 1 as [|c c' cs cs' Hc Hcs IH]; intros Hall.
  - constructor.
  - inversion Hall as [|? ? Hhead Htail]; subst. constructor.
    + now rewrite <- (cond_step_stuck c c').
    + auto.
Qed.

Lemma conditions_step_some_stuck (cs cs' : list SettlementCondition) :
  Forall2 cond_step cs cs' ->
  Exists (fun c => stuck c = true) cs ->
  Exists (fun c => stuck c = true) cs'.
Proof.
  induction 1 as [|c c' cs cs' Hc Hcs IH]; intros Hex.
  - inversion Hex.
  - inversion Hex as [? ? Hhead | ? ? Htail]; subst.
    + left. now rewrite (cond_step_stuck c c').
    + right. auto.
Qed.

(** A blocked document stays blocked when the conditions keep their
    shapes and the flag turns true only without stuck conditions. *)
Lemma blocked_kept e e' :
  Forall2 cond_step (settlementConditions e) (settlementConditions e') ->
  (allConditionsMet e' = true ->
   allConditionsMet e = true \/
   Forall (fun c => stuck c = false) (settlementConditions e')) ->
  blocked e -> blocked e'.
Proof.
  intros Hconds Hflag [Hoff Hstuck].
  pose proof (conditions_step_some_stuck _ _ Hconds Hstuck) as Hstuck'.
  split; [|exact Hstuck'].
  destruct (allConditionsMet e') eqn:Hon; [|reflexivity].
  destruct (Hflag eq_refl) as [Hon0 | Hnone]; [congruence|].
  exfalso. apply Exists_exists in Hstuck' as (c & Hin & Hc).
  rewrite Forall_forall in Hnone. specialize (Hnone c Hin). congruence.
Qed.

Lemma blocked_step e e' : doc_step e e' -> blocked e -> blocked e'.
Proof.
  intros H.
  apply blocked_kept; [apply (step_conditions _ _ H) | apply (step_flag _ _ H)].
Qed.

Lemma doc_step_refl e : doc_step e e.
Proof.
  split; auto using conditions_step_refl.
  - reflexivity.
Qed.

Lemma doc_step_trans e1 e2 e3 :
  doc_step e1 e2 -> doc_step e2 e3 -> doc_step e1 e3.
Proof.
  intros [P1 I1 M1 D1 H1 T1 S1 C1 F1 R1] [P2 I2 M2 D2 H2 T2 S2 C2 F2 R2].
  split.
  - destruct P1 as (? & ? & ?), P2 as (? & ? & ?).
    repeat split; congruence.
  - destruct I1 as (? & ?), I2 as (? & ?). split; congruence.
  - destruct M1 as (? & ? & ? & ? & ?), M2 as (? & ? & ? & ? & ?).
    repeat split; congruence.
  - destruct D1 as (? & ?), D2 as (? & ?). split; congruence.
  - now transitivity (statusHistory e2).
  - auto.
  - now transitivity (status e2).
  - eapply Forall2_trans; [|exact C1|exact C2].
    intros ? ? ?. apply cond_step_trans.
  - intros Hflag. destruct (F2 Hflag) as [Hflag2 | Hno]; [|now right].
    destruct (F1 Hflag2) as [Hflag1 | Hno]; [now left|].
    right. clear - C2 Hno.
    (* the conditions of [e3] have the shapes of those of [e2] *)
    revert Hno. induction C2 as [|c c' cs cs' Hc Hcs IH]; intros Hno.
    + constructor.
    + inversion Hno as [|? ? Hhead Htail]; subst. constructor.
      * now rewrite (cond_step_stuck c c').
      * auto.
  - intros Hrel. destruct (R2 Hrel) as [Hrel2 | Hfree2].
    + exact (R1 Hrel2).
    + right. intros Hb1. apply Hfree2.
      exact (blocked_kept e1 e2 C1 F1 Hb1).
Qed.

Lemma doc_step_harmless e (u : FieldUpdate) :
  harmless u = true -> doc_step e (apply_update e u).
Proof.
  destruct u; try discriminate; intros _;
    (split; simpl; auto using conditions_step_refl; reflexivity).
Qed.

Lemma doc_step_harmless_list (us : list FieldUpdate) :
  forallb harmless us = true ->
  forall e, doc_step e (apply_updates e us).
Proof.
  induction us as [|u us IH]; simpl; intros Hus e.
  - apply doc_step_refl.
  - apply andb_true_iff in Hus as [Hu Hus].
    eapply doc_step_trans; [apply (doc_step_harmless e u Hu)|].
    apply (IH Hus).
Qed.

(** A status change as every function writes it: the new status, the
    history with one more entry naming that status, then harmless keys. *)
Lemma doc_step_transition e (s' : EscrowStatus) (entry : StatusEntry)
    (us : list FieldUpdate) :
  status_edge (status e) s' ->
  (s' = released -> allConditionsMet e = true) ->
  entryStatus entry = s' ->
  forallb harmless us = true ->
  doc_step e (apply_updates e (set_status s' ::
                               set_statusHistory (statusHistory e ++ [entry])
                               :: us)).
Proof.
  intros Hedge Hflag Hentry Hus.
  change (apply_updates e (set_status s' :: set_statusHistory _ :: us))
    with (apply_updates
            (apply_update (apply_update e (set_status s'))
               (set_statusHistory (statusHistory e ++ [entry]))) us).
  eapply doc_step_trans; [|apply (doc_step_harmless_list us Hus)].
  split; simpl; auto using conditions_step_refl.
  - now apply prefix_app_r.
  - intros _. unfold history_tracks_status. simpl.
    rewrite last_snoc. simpl. now rewrite Hentry.
  - now apply rtc_once.
  - intros Hrel. right. intros [Hoff _]. rewrite (Hflag Hrel) in Hoff.
    discriminate.
Qed.

(** A stuck condition is unmet after every evaluation. *)
Lemma stuck_unmet c e (now : Z) :
  stuck c = true -> evaluate_isMet c e now = false.
Proof.
  unfold stuck, stuck_shape, evaluate_isMet. simpl.
  destruct (type c); try discriminate.
  - intros H. apply negb_true_iff in H. rewrite H. apply andb_false_r.
  - destruct (milestones (config c)); [|discriminate].
    intros H. now apply negb_true_iff in H.
  - intros H. now apply negb_true_iff in H.
  - reflexivity.
Qed.

Lemma cond_step_evaluate c e (now : Z) :
  cond_step c (evaluateCondition c e now).
Proof. split; [reflexivity | apply metAt_kept]. Qed.

Lemma doc_step_evaluation (env : Env) e :
  doc_step e (stored_evaluation env e).
Proof.
  split; simpl;
    [ auto | auto | repeat split; reflexivity | auto | reflexivity | auto
    | reflexivity | | | auto ].
  - unfold evaluated_conditions.
    induction (settlementConditions e); simpl; constructor;
      auto using cond_step_evaluate.
  - intros Hall. right. unfold code_allMet, evaluated_conditions in *.
    rewrite forallb_forall in Hall. apply Forall_forall.
    intros c' Hin. apply list_elem_of_In in Hin.
    pose proof (Hall c' Hin) as Hmet.
    apply in_map_iff in Hin as (c & <- & _).
    destruct (stuck (evaluateCondition c e (clock env))) eqn:Hstuck;
      [|reflexivity].
    change (stuck c = true) in Hstuck.
    rewrite evaluateCondition_isMet, (stuck_unmet c e _ Hstuck) in Hmet.
    discriminate.
Qed.

Lemma cond_step_merge c (updates : ConditionConfig) :
  free_keys_only updates = true ->
  cond_step c (with_config c (merge_config (config c) updates)).
Proof.
  unfold free_keys_only. intros H.
  repeat (apply andb_true_iff in H as [H ?]).
  repeat match goal with
         | Hn : negb (bool_decide (is_Some ?x)) = true |- _ =>
             apply negb_true_iff, bool_decide_eq_false_1 in Hn;
             apply eq_None_not_Some in Hn
         end.
  split; [|auto].
  unfold condition_shape; simpl. f_equal; simpl;
    match goal with
    | Hn : ?f updates = None |- override (?f updates) _ = _ =>
        now rewrite Hn
    | _ => reflexivity
    end.
Qed.

Lemma doc_step_updateCondition e (i : nat) c (updates : ConditionConfig) :
  settlementConditions e !! i = Some c ->
  free_keys_only updates = true ->
  doc_step e
    (apply_updates e
       [ set_settlementConditions
           (<[i := with_config c (merge_config (config c) updates)]>
              (settlementConditions e)) ]).
Proof.
  intros Hi Hfree.
  assert (Hconds :
    Forall2 cond_step (settlementConditions e)
      (<[i := with_config c (merge_config (config c) updates)]>
         (settlementConditions e))).
  { rewrite <- (list_insert_id (settlementConditions e) i c Hi) at 1.
    apply Forall2_insert; [apply conditions_step_refl|].
    now apply cond_step_merge. }
  split; simpl;
    [ auto | auto | repeat split; reflexivity | auto | reflexivity | auto
    | reflexivity | exact Hconds | auto | auto ].
Qed.

End Steps.

Section Effects.

Implicit Types (w : World) (e : EscrowTransaction).

Lemma no_transfer_names (escrowId : string) (calls : list RailCall) :
  forallb (fun call => negb (is_transfer call)) calls = true ->
  Forall (transfer_names escrowId) calls /\
  ~ Exists (fun call => is_transfer call = true) calls.
Proof.
  rewrite forallb_forall. intros Hnone. split.
  - apply Forall_forall. intros call Hin.
    apply list_elem_of_In, Hnone in Hin. now destruct call.
  - rewrite Exists_exists. intros (call & Hin & Htr).
    apply list_elem_of_In, Hnone in Hin. rewrite Htr in Hin. discriminate.
Qed.

Lemma call_effect_refl (escrowId : string) w : call_effect escrowId w w.
Proof.
  repeat split; auto. exists []. rewrite app_nil_r.
  repeat split; auto. intros H. inversion H.
Qed.

(** The document named [escrowId] before a call and after it. *)
Lemma call_effect_document (escrowId : string) w w' e :
  call_effect escrowId w w' ->
  escrows w !! escrowId = Some e ->
  exists e', escrows w' !! escrowId = Some e' /\ doc_step e e'.
Proof.
  intros ([Hsame | (e0 & e' & Hdoc & Hw & Hstep)] & _) He.
  - exists e. rewrite Hsame. auto using doc_step_refl.
  - exists e'. rewrite Hw, lookup_insert_eq.
    rewrite He in Hdoc. injection Hdoc as <-. auto.
Qed.

Lemma call_effect_trans (escrowId : string) w1 w2 w3 :
  call_effect escrowId w1 w2 -> call_effect escrowId w2 w3 ->
  call_effect escrowId w1 w3.
Proof.
  intros H12 H23.
  pose proof H12 as (Hd1 & He1 & (a1 & Hr1 & Hn1 & Ht1) & Ha1 & Hp1).
  pose proof H23 as (Hd2 & He2 & (a2 & Hr2 & Hn2 & Ht2) & Ha2 & Hp2).
  split; [|split; [|split; [|split]]].
  - destruct Hd1 as [Hsame1 | (e1 & e2 & Hdoc1 & Hw1 & Hstep1)],
             Hd2 as [Hsame2 | (e2' & e3 & Hdoc2 & Hw2 & Hstep2)].
    + left. congruence.
    + right. exists e2', e3. rewrite <- Hsame1. auto.
    + right. exists e1, e2. rewrite Hsame2. auto.
    + right. exists e1, e3.
      rewrite Hw1, lookup_insert_eq in Hdoc2. injection Hdoc2 as <-.
      split; [assumption|]. split.
      * rewrite Hw2, Hw1. apply insert_insert_eq.
      * eapply doc_step_trans; eassumption.
  - etransitivity; eassumption.
  - exists (a1 ++ a2). split; [|split].
    + rewrite Hr2, Hr1. now rewrite app_assoc.
    + apply Forall_app. auto.
    + intros Hex. apply Exists_app in Hex as [Hex | Hex]; [auto|].
      destruct (Ht2 Hex) as (e2 & Hdoc2 & Hfree2).
      destruct Hd1 as [Hsame1 | (e1 & e2' & Hdoc1 & Hw1 & Hstep1)].
      * exists e2. rewrite <- Hsame1. auto.
      * exists e1. split; [assumption|].
        rewrite Hw1, lookup_insert_eq in Hdoc2. injection Hdoc2 as <-.
        intros Hb. apply Hfree2. now apply (blocked_step e1 e2').
  - congruence.
  - congruence.
Qed.

Lemma logEscrowEvent_effect (escrowId ty by_ : string) w :
  call_effect escrowId w (fst (logEscrowEvent escrowId ty by_ w)).
Proof.
  unfold logEscrowEvent. simpl. repeat split; auto.
  - now apply prefix_app_r.
  - exists []. simpl. rewrite app_nil_r.
    repeat split; auto. intros H. inversion H.
Qed.

End Effects.

(* ===================================================================== *)
(** * The runs of the lifecycle functions, path by path                   *)
(* ===================================================================== *)

Section Runs.

Variables (env : Env) (escrowId : string).
Implicit Types (w : World) (e : EscrowTransaction).

Lemma captureEscrowPayment_run (paymentMethodId : string) w :
  captureEscrowPayment env escrowId paymentMethodId w =
  match escrows w !! escrowId with
  | None => (w, Returned (failure not_found))
  | Some e =>
      if negb (bool_decide (status e = pending_payment)) then
        (w, Returned (failure "Invalid escrow status"))
      else
        let confirm_ :=
          paymentIntents_confirm (stripePaymentIntentId e) paymentMethodId in
        match confirmReply env with
        | Rejected msg => (requested w [confirm_], Returned (failure msg))
        | Accepted intent =>
            let calls := [confirm_; paymentIntents_capture intent] in
            match captureReply env with
            | Rejected msg => (requested w calls, Returned (failure msg))
            | Accepted charge =>
                (written w escrowId (captured_document env charge e)
                   "payment_received" "system" calls,
                 Returned ok)
            end
        end
  end.
Proof.
  unfold captureEscrowPayment. unfold_action.
  destruct (escrows w !! escrowId) as [e|] eqn:Hdoc; [|reflexivity].
  cbv beta iota.
  destruct (negb (bool_decide (status e = pending_payment))); [reflexivity|].
  unfold requested, written.
  destruct (confirmReply env); cbn [fst snd escrows with_railCalls railCalls];
    [|reflexivity].
  destruct (captureReply env); cbn [fst snd escrows with_railCalls railCalls];
    [|now rewrite <- app_assoc].
  rewrite Hdoc. cbn. now rewrite <- app_assoc.
Qed.

Lemma refundToBuyer_run (refundAmount : option Z) (reason : option string) w :
  refundToBuyer env escrowId refundAmount reason w =
  match escrows w !! escrowId with
  | None => (w, Returned (failure not_found))
  | Some e =>
      if bool_decide (status e ∈ [refunded; released]) then
        (w, Returned (failure "Transaction already completed"))
      else
        let request :=
          refunds_create (stripePaymentIntentId e)
                         (number_or refundAmount (amount e)) in
        match refundReply env with
        | Rejected msg => (requested w [request], Returned (failure msg))
        | Accepted _ =>
            (written w escrowId (refunded_document env reason e)
               "refunded" "platform" [request],
             Returned ok)
        end
  end.
Proof.
  unfold refundToBuyer. unfold_action.
  destruct (escrows w !! escrowId) as [e|] eqn:Hdoc; [|reflexivity].
  cbv beta iota.
  destruct (bool_decide (status e ∈ [refunded; released])); [reflexivity|].
  unfold requested, written.
  destruct (refundReply env); cbn [fst snd escrows with_railCalls railCalls];
    [|reflexivity].
  rewrite Hdoc. reflexivity.
Qed.

Lemma openDispute_run (buyer reason : string) w :
  openDispute env escrowId buyer reason w =
  match escrows w !! escrowId with
  | None => (w, Returned (failure not_found))
  | Some e =>
      if negb (bool_decide (buyerId e = buyer)) then
        (w, Returned (failure "Unauthorized"))
      else if negb (bool_decide
                      (status e ∈
                         [shipped; in_transit; delivered; confirmed])) then
        (w, Returned (failure "Cannot dispute at this stage"))
      else if match disputePeriodEndsAt e with
              | Some deadline => date_gtb (clock env) deadline
              | None => false
              end then
        (w, Returned (failure "Dispute period has expired"))
      else
        (written w escrowId (disputed_document env reason e)
           "disputed" "buyer" [],
         Returned ok)
  end.
Proof.
  unfold openDispute. unfold_action.
  destruct (escrows w !! escrowId) as [e|] eqn:Hdoc; [|reflexivity].
  cbv beta iota.
  destruct (negb (bool_decide (buyerId e = buyer))); [reflexivity|].
  destruct (negb (bool_decide (status e ∈ _))); [reflexivity|].
  destruct (disputePeriodEndsAt e) as [deadline|]; cbv beta iota;
    [destruct (date_gtb (clock env) deadline); [reflexivity|]|];
    cbv beta iota; rewrite Hdoc; unfold written; cbn;
    now rewrite app_nil_r.
Qed.

(** [updateCondition] never throws. *)
Lemma updateCondition_returns (ty : SettlementConditionType)
    (updates : ConditionConfig) w :
  snd (updateCondition escrowId ty updates w) = Returned tt.
Proof.
  unfold updateCondition. unfold_action.
  destruct (escrows w !! escrowId) as [e|] eqn:Hdoc; [|reflexivity].
  cbv beta iota.
  destruct (list_find _ (settlementConditions e)) as [[i c]|];
    [|reflexivity].
  rewrite Hdoc. reflexivity.
Qed.

Lemma updateCondition_run (ty : SettlementConditionType)
    (updates : ConditionConfig) w :
  fst (updateCondition escrowId ty updates w) =
  match escrows w !! escrowId with
  | None => w
  | Some e =>
      match list_find (fun c => type c = ty) (settlementConditions e) with
      | Some (i, c) =>
          with_escrows w
            (<[escrowId :=
                 apply_updates e
                   [ set_settlementConditions
                       (<[i := with_config c
                                 (merge_config (config c) updates)]>
                          (settlementConditions e)) ]]> (escrows w))
      | None => w
      end
  end.
Proof.
  unfold updateCondition. unfold_action.
  destruct (escrows w !! escrowId) as [e|] eqn:Hdoc; [|reflexivity].
  cbv beta iota.
  destruct (list_find _ (settlementConditions e)) as [[i c]|];
    [|reflexivity].
  rewrite Hdoc. reflexivity.
Qed.

(** [evaluateSettlementConditions] never throws. *)
Lemma evaluateSettlementConditions_returns w :
  exists r, snd (evaluateSettlementConditions env escrowId w) = Returned r.
Proof.
  rewrite evaluateSettlementConditions_run.
  destruct (escrows w !! escrowId); simpl; [|eauto].
  destruct (_ && _); simpl; eauto.
Qed.

Lemma markAsShipped_run (seller : string) (trackingData : TrackingData) w :
  markAsShipped env escrowId seller trackingData w =
  match escrows w !! escrowId with
  | None => (w, Returned (failure not_found))
  | Some e =>
      if negb (bool_decide (sellerId e = seller)) then
        (w, Returned (failure "Unauthorized"))
      else if negb (bool_decide (status e = payment_received)) then
        (w, Returned (failure "Invalid status for shipping"))
      else
        let w1 := with_escrows w
                    (<[escrowId := shipped_document env trackingData e]>
                       (escrows w)) in
        let w2 := fst (updateCondition escrowId tracking_confirmation
                         (tracking_keys trackingData) w1) in
        let w3 := fst (logEscrowEvent escrowId "shipped" "seller" w2) in
        (fst (evaluateSettlementConditions env escrowId w3), Returned ok)
  end.
Proof.
  unfold markAsShipped.
  unfold try_catch at 1. unfold mbind at 1. unfold Action_bind at 1.
  unfold getDocument at 1.
  destruct (escrows w !! escrowId) as [e|] eqn:Hdoc; [|reflexivity].
  cbv beta iota.
  destruct (negb (bool_decide (sellerId e = seller))); [reflexivity|].
  destruct (negb (bool_decide (status e = payment_received)));
    [reflexivity|].
  unfold mbind, Action_bind, mret, Action_ret.
  unfold updateDocument at 1. rewrite Hdoc. cbv beta iota.
  unfold shipped_document, shipping_record, tracking_keys.
  cbv zeta. unfold logEscrowEvent.
  match goal with
  | |- context [updateCondition escrowId tracking_confirmation ?k ?w1] =>
      pose proof (updateCondition_returns tracking_confirmation k w1) as Hu;
      destruct (updateCondition escrowId tracking_confirmation k w1)
        as [w2 o2]
  end.
  simpl in Hu. subst o2. cbn [fst snd].
  match goal with
  | |- context [evaluateSettlementConditions env escrowId ?w3] =>
      destruct (evaluateSettlementConditions_returns w3) as [r Hr];
      destruct (evaluateSettlementConditions env escrowId w3) as [w4 o4]
  end.
  simpl in Hr. subst o4. reflexivity.
Qed.

Lemma confirmReceipt_run (buyer : string) w :
  confirmReceipt env escrowId buyer w =
  match escrows w !! escrowId with
  | None => (w, Returned (failure not_found))
  | Some e =>
      if negb (bool_decide (buyerId e = buyer)) then
        (w, Returned (failure "Unauthorized"))
      else if negb (bool_decide
                      (status e ∈ [shipped; in_transit; delivered])) then
        (w, Returned (failure "Item must be delivered before confirming"))
      else
        let w1 := with_escrows w
                    (<[escrowId := confirmed_document env e]> (escrows w)) in
        let w2 := fst (updateCondition escrowId buyer_confirmation
                         confirmation_config w1) in
        let w3 := fst (logEscrowEvent escrowId "confirmed" "buyer" w2) in
        (fst (evaluateSettlementConditions env escrowId w3), Returned ok)
  end.
Proof.
  unfold confirmReceipt.
  unfold try_catch at 1. unfold mbind at 1. unfold Action_bind at 1.
  unfold getDocument at 1.
  destruct (escrows w !! escrowId) as [e|] eqn:Hdoc; [|reflexivity].
  cbv beta iota.
  destruct (negb (bool_decide (buyerId e = buyer))); [reflexivity|].
  destruct (negb (bool_decide (status e ∈ _))); [reflexivity|].
  unfold mbind, Action_bind, mret, Action_ret.
  unfold updateDocument at 1. rewrite Hdoc. cbv beta iota.
  unfold confirmed_document, confirmation_config.
  cbv zeta. unfold logEscrowEvent.
  match goal with
  | |- context [updateCondition escrowId buyer_confirmation ?k ?w1] =>
      pose proof (updateCondition_returns buyer_confirmation k w1) as Hu;
      destruct (updateCondition escrowId buyer_confirmation k w1)
        as [w2 o2]
  end.
  simpl in Hu. subst o2. cbn [fst snd].
  match goal with
  | |- context [evaluateSettlementConditions env escrowId ?w3] =>
      destruct (evaluateSettlementConditions_returns w3) as [r Hr];
      destruct (evaluateSettlementConditions env escrowId w3) as [w4 o4]
  end.
  simpl in Hr. subst o4. reflexivity.
Qed.

End Runs.

(* ===================================================================== *)
(** * The effect of every call                                            *)
(* ===================================================================== *)

Section CallEffects.

Variables (env : Env) (escrowId : string).
Implicit Types (w : World) (e : EscrowTransaction).

Lemma written_effect w e e' (ty by_ : string) (calls : list RailCall) :
  escrows w !! escrowId = Some e ->
  doc_step e e' ->
  Forall (transfer_names escrowId) calls ->
  (Exists (fun call => is_transfer call = true) calls -> ~ blocked e) ->
  call_effect escrowId w (written w escrowId e' ty by_ calls).
Proof.
  intros Hdoc Hstep Hnames Hfree. unfold written.
  split; [|split; [|split; [|split]]]; simpl; auto.
  - right. eauto.
  - now apply prefix_app_r.
  - exists calls. repeat split; eauto.
Qed.

Lemma requested_effect w (calls : list RailCall) :
  Forall (transfer_names escrowId) calls ->
  (Exists (fun call => is_transfer call = true) calls ->
   exists e, escrows w !! escrowId = Some e /\ ~ blocked e) ->
  call_effect escrowId w (requested w calls).
Proof.
  intros Hnames Hfree. unfold requested.
  split; [|split; [|split; [|split]]]; simpl; auto.
  exists calls. auto.
Qed.

Lemma stored_effect w e e' :
  escrows w !! escrowId = Some e ->
  doc_step e e' ->
  call_effect escrowId w
    (with_escrows w (<[escrowId := e']> (escrows w))).
Proof.
  intros Hdoc Hstep.
  split; [|split; [|split; [|split]]]; simpl; auto.
  - right. eauto.
  - exists []. rewrite app_nil_r. repeat split; auto.
    intros H. inversion H.
Qed.

(** Requests other than transfers. *)
Lemma written_effect_plain w e e' (ty by_ : string) (calls : list RailCall) :
  escrows w !! escrowId = Some e ->
  doc_step e e' ->
  forallb (fun call => negb (is_transfer call)) calls = true ->
  call_effect escrowId w (written w escrowId e' ty by_ calls).
Proof.
  intros Hdoc Hstep Hplain.
  destruct (no_transfer_names escrowId calls Hplain) as [Hnames Hnone].
  apply (written_effect w e); auto; intros Hex; contradiction.
Qed.

Lemma requested_effect_plain w (calls : list RailCall) :
  forallb (fun call => negb (is_transfer call)) calls = true ->
  call_effect escrowId w (requested w calls).
Proof.
  intros Hplain.
  destruct (no_transfer_names escrowId calls Hplain) as [Hnames Hnone].
  apply requested_effect; auto; intros Hex; contradiction.
Qed.

Lemma edge_to_terminal (s s' : EscrowStatus) :
  s ∉ [released; refunded] ->
  s' = released \/ s' = refunded ->
  status_edge s s'.
Proof.
  intros Hs [-> | ->]; destruct s; try reflexivity;
    exfalso; apply Hs; rewrite !elem_of_cons; auto.
Qed.

Lemma edge_to_confirmed (s : EscrowStatus) :
  s ∈ [shipped; in_transit; delivered] -> status_edge s confirmed.
Proof.
  rewrite !elem_of_cons, elem_of_nil.
  intros [-> | [-> | [-> | []]]]; reflexivity.
Qed.

Lemma edge_to_disputed (s : EscrowStatus) :
  s ∈ [shipped; in_transit; delivered; confirmed] -> status_edge s disputed.
Proof.
  rewrite !elem_of_cons, elem_of_nil.
  intros [-> | [-> | [-> | [-> | []]]]]; reflexivity.
Qed.

Lemma releaseFundsToSeller_effect w :
  call_effect escrowId w (fst (releaseFundsToSeller env escrowId w)).
Proof.
  rewrite releaseFundsToSeller_run.
  destruct (escrows w !! escrowId) as [e|] eqn:Hdoc;
    [|apply call_effect_refl].
  destruct (allConditionsMet e) eqn:Hflag; simpl; [|apply call_effect_refl].
  destruct (bool_decide (status e ∈ [released; refunded])) eqn:Hterm;
    [apply call_effect_refl|].
  apply bool_decide_eq_false_1 in Hterm.
  assert (Hfree : ~ blocked e) by (intros [Hoff _]; congruence).
  assert (Hnames :
    forall transfer,
      Forall (transfer_names escrowId)
             [transfer_request escrowId e; payout_request e transfer])
    by (intros; repeat constructor).
  destruct (transferReply env) as [transfer|].
  - destruct (payoutReply env) as [payout|]; simpl.
    + rewrite <- app_assoc.
      apply (written_effect w e (released_document env transfer payout e)
               "released" "system"
               [transfer_request escrowId e; payout_request e transfer]);
        auto.
      apply doc_step_transition; auto.
      apply edge_to_terminal; auto.
    + rewrite <- app_assoc.
      apply (requested_effect w
               [transfer_request escrowId e; payout_request e transfer]);
        eauto.
  - apply (requested_effect w [transfer_request escrowId e]); eauto.
    repeat constructor.
Qed.

Lemma evaluateSettlementConditions_effect w :
  call_effect escrowId w (fst (evaluateSettlementConditions env escrowId w)).
Proof.
  rewrite evaluateSettlementConditions_run.
  destruct (escrows w !! escrowId) as [e|] eqn:Hdoc;
    [|apply call_effect_refl].
  assert (Hstore :
    call_effect escrowId w
      (with_escrows w (<[escrowId := stored_evaluation env e]> (escrows w))))
    by (apply (stored_effect w e); auto using doc_step_evaluation).
  simpl. destruct (_ && _); simpl; [|exact Hstore].
  eapply call_effect_trans; [exact Hstore|].
  apply releaseFundsToSeller_effect.
Qed.

Lemma updateCondition_effect (ty : SettlementConditionType)
    (updates : ConditionConfig) w :
  free_keys_only updates = true ->
  call_effect escrowId w (fst (updateCondition escrowId ty updates w)).
Proof.
  intros Hfree. rewrite updateCondition_run.
  destruct (escrows w !! escrowId) as [e|] eqn:Hdoc;
    [|apply call_effect_refl].
  destruct (list_find _ (settlementConditions e)) as [[i c]|] eqn:Hfind;
    [|apply call_effect_refl].
  apply list_find_Some in Hfind as (Hi & _ & _).
  apply (stored_effect w e); auto.
  now apply doc_step_updateCondition.
Qed.

Lemma captureEscrowPayment_effect (paymentMethodId : string) w :
  call_effect escrowId w
    (fst (captureEscrowPayment env escrowId paymentMethodId w)).
Proof.
  rewrite captureEscrowPayment_run.
  destruct (escrows w !! escrowId) as [e|] eqn:Hdoc;
    [|apply call_effect_refl].
  destruct (bool_decide (status e = pending_payment)) eqn:Hst; simpl;
    [|apply call_effect_refl].
  apply bool_decide_eq_true_1 in Hst.
  destruct (confirmReply env); [|now apply requested_effect_plain].
  destruct (captureReply env); simpl; [|now apply requested_effect_plain].
  apply (written_effect_plain w e); auto.
  apply doc_step_transition; auto; [|discriminate].
  unfold status_edge. now rewrite Hst.
Qed.

Lemma refundToBuyer_effect (refundAmount : option Z)
    (reason : option string) w :
  call_effect escrowId w
    (fst (refundToBuyer env escrowId refundAmount reason w)).
Proof.
  rewrite refundToBuyer_run.
  destruct (escrows w !! escrowId) as [e|] eqn:Hdoc;
    [|apply call_effect_refl].
  destruct (bool_decide (status e ∈ [refunded; released])) eqn:Hterm;
    [apply call_effect_refl|].
  apply bool_decide_eq_false_1 in Hterm.
  destruct (refundReply env); simpl; [|now apply requested_effect_plain].
  apply (written_effect_plain w e); auto.
  apply (doc_step_transition e refunded _ []); auto; [|discriminate].
  apply edge_to_terminal; auto.
  rewrite !elem_of_cons, elem_of_nil in *. tauto.
Qed.

Lemma openDispute_effect (buyer reason : string) w :
  call_effect escrowId w (fst (openDispute env escrowId buyer reason w)).
Proof.
  rewrite openDispute_run.
  destruct (escrows w !! escrowId) as [e|] eqn:Hdoc;
    [|apply call_effect_refl].
  destruct (negb (bool_decide (buyerId e = buyer)));
    [apply call_effect_refl|].
  destruct (bool_decide (status e ∈ _)) eqn:Hst; simpl;
    [|apply call_effect_refl].
  apply bool_decide_eq_true_1 in Hst.
  destruct (match disputePeriodEndsAt e with
            | Some deadline => date_gtb (clock env) deadline
            | None => false
            end); [apply call_effect_refl|].
  apply (written_effect_plain w e); auto.
  apply doc_step_transition; auto; [|discriminate].
  now apply edge_to_disputed.
Qed.

Lemma markAsShipped_effect (seller : string) (trackingData : TrackingData) w :
  call_effect escrowId w
    (fst (markAsShipped env escrowId seller trackingData w)).
Proof.
  rewrite markAsShipped_run.
  destruct (escrows w !! escrowId) as [e|] eqn:Hdoc;
    [|apply call_effect_refl].
  destruct (negb (bool_decide (sellerId e = seller)));
    [apply call_effect_refl|].
  destruct (bool_decide (status e = payment_received)) eqn:Hst; simpl;
    [|apply call_effect_refl].
  apply bool_decide_eq_true_1 in Hst.
  eapply call_effect_trans; [|apply evaluateSettlementConditions_effect].
  eapply call_effect_trans; [|apply logEscrowEvent_effect].
  eapply call_effect_trans; [|now apply updateCondition_effect].
  apply (stored_effect w e); auto.
  apply doc_step_transition; auto; [|discriminate].
  unfold status_edge. now rewrite Hst.
Qed.

Lemma confirmReceipt_effect (buyer : string) w :
  call_effect escrowId w (fst (confirmReceipt env escrowId buyer w)).
Proof.
  rewrite confirmReceipt_run.
  destruct (escrows w !! escrowId) as [e|] eqn:Hdoc;
    [|apply call_effect_refl].
  destruct (negb (bool_decide (buyerId e = buyer)));
    [apply call_effect_refl|].
  destruct (bool_decide (status e ∈ _)) eqn:Hst; simpl;
    [|apply call_effect_refl].
  apply bool_decide_eq_true_1 in Hst.
  eapply call_effect_trans; [|apply evaluateSettlementConditions_effect].
  eapply call_effect_trans; [|apply logEscrowEvent_effect].
  eapply call_effect_trans; [|now apply updateCondition_effect].
  apply (stored_effect w e); auto.
  apply (doc_step_transition e confirmed _ []); auto; [|discriminate].
  now apply edge_to_confirmed.
Qed.

Lemma run_operation_effect (op : Operation) w :
  call_effect escrowId w (run_operation op env escrowId w).
Proof.
  destruct op; simpl.
  - apply captureEscrowPayment_effect.
  - apply markAsShipped_effect.
  - apply confirmReceipt_effect.
  - apply openDispute_effect.
  - apply evaluateSettlementConditions_effect.
  - apply releaseFundsToSeller_effect.
  - apply refundToBuyer_effect.
Qed.

End CallEffects.

(* ===================================================================== *)
(** * Sequences of calls                                                  *)
(* ===================================================================== *)

Section Sequences.

Implicit Types (w : World) (e : EscrowTransaction) (cs : list Call).

Lemma run_call_effect (c : Call) w :
  call_effect (call_target c) w (run_call c w).
Proof. apply run_operation_effect. Qed.

Lemma run_calls_cons (c : Call) cs w :
  run_calls (c :: cs) w = run_calls cs (run_call c w).
Proof. reflexivity. Qed.

Lemma call_effect_frame (escrowId other : string) w w' :
  call_effect escrowId w w' ->
  other <> escrowId ->
  escrows w' !! other = escrows w !! other.
Proof.
  intros ([Hsame | (e & e' & _ & Hw & _)] & _) Hne.
  - now rewrite Hsame.
  - rewrite Hw. now apply lookup_insert_ne.
Qed.

Lemma world_step_refl w : world_step w w.
Proof.
  repeat split; auto.
  intros escrowId. destruct (escrows w !! escrowId); constructor.
  apply doc_step_refl.
Qed.

Lemma world_step_trans w1 w2 w3 :
  world_step w1 w2 -> world_step w2 w3 -> world_step w1 w3.
Proof.
  intros (Hd1 & He1 & Hr1 & Ha1 & Hp1) (Hd2 & He2 & Hr2 & Ha2 & Hp2).
  repeat split; try (etransitivity; eassumption); try congruence.
  intros escrowId. specialize (Hd1 escrowId). specialize (Hd2 escrowId).
  destruct Hd1 as [e1 e2 H12|]; inversion Hd2 as [? e3 H23|]; subst;
    constructor.
  eapply doc_step_trans; eassumption.
Qed.

Lemma call_effect_world_step (escrowId : string) w w' :
  call_effect escrowId w w' -> world_step w w'.
Proof.
  intros Heff.
  pose proof Heff as (Hd & He & (added & Hr & _) & Ha & Hp).
  repeat split; auto.
  - intros other. destruct (decide (other = escrowId)) as [-> | Hne].
    + destruct (escrows w !! escrowId) as [e|] eqn:Hdoc.
      * destruct (call_effect_document escrowId w w' e Heff Hdoc)
          as (e' & -> & Hstep).
        now constructor.
      * destruct Hd as [Hsame | (e & _ & Hsome & _)]; [|congruence].
        rewrite Hsame, Hdoc. constructor.
    + rewrite (call_effect_frame escrowId other w w' Heff Hne).
      destruct (escrows w !! other); constructor. apply doc_step_refl.
  - rewrite Hr. now apply prefix_app_r.
Qed.

Lemma run_calls_world_step cs : forall w, world_step w (run_calls cs w).
Proof.
  induction cs as [|c cs IH]; intros w.
  - apply world_step_refl.
  - rewrite run_calls_cons. eapply world_step_trans; [|apply IH].
    eapply call_effect_world_step, run_call_effect.
Qed.

Lemma run_calls_document cs w (escrowId : string) e :
  escrows w !! escrowId = Some e ->
  exists e', escrows (run_calls cs w) !! escrowId = Some e' /\ doc_step e e'.
Proof.
  intros Hdoc.
  destruct (run_calls_world_step cs w) as (Hdocs & _).
  specialize (Hdocs escrowId). rewrite Hdoc in Hdocs.
  inversion Hdocs as [? e' Hstep|]; subst. eauto.
Qed.

Lemma edge_from_terminal (s s' : EscrowStatus) :
  s ∈ [released; refunded] -> rtc status_edge s s' -> s' = s.
Proof.
  intros Hterm Hreach. induction Hreach as [|s s1 s2 Hedge _ _];
    [reflexivity|].
  exfalso. rewrite !elem_of_cons, elem_of_nil in Hterm.
  destruct Hterm as [-> | [-> | []]]; discriminate Hedge.
Qed.

Lemma edge_target (s s' : EscrowStatus) :
  status_edge s s' ->
  s' ∈ [payment_received; shipped; confirmed; disputed; released; refunded].
Proof.
  unfold status_edge. rewrite !elem_of_cons.
  destruct s, s'; simpl; intros H; try discriminate H; auto 10.
Qed.

Lemma edge_never_enters (s s' : EscrowStatus) :
  s' ∈ [pending_payment; in_transit; delivered; auto_released; cancelled] ->
  rtc status_edge s s' -> s' = s.
Proof.
  intros Hin Hreach. apply rtc_inv_r in Hreach as [-> | (s1 & _ & Hedge)];
    [reflexivity|].
  exfalso. apply edge_target in Hedge.
  rewrite !elem_of_cons, elem_of_nil in Hin.
  rewrite !elem_of_cons, elem_of_nil in Hedge.
  destruct Hin as [-> | [-> | [-> | [-> | [-> | []]]]]];
    destruct Hedge as [H | [H | [H | [H | [H | [H | []]]]]]];
    discriminate H.
Qed.

End Sequences.

(* ===================================================================== *)
(** * Invariants of the lifecycle                                         *)
(* ===================================================================== *)

(** X1. Calls that name other transactions leave a document as it is:
    whatever functions are called on other identifiers, with whatever
    arguments, clocks and rail answers, the document stored under
    [escrowId] (or its absence) is the same afterwards. *)
Theorem calls_on_others_leave_document :
  forall (cs : list Call) (w : World) (escrowId : string),
    Forall (fun c => call_target c <> escrowId) cs ->
    escrows (run_calls cs w) !! escrowId = escrows w !! escrowId.
Proof.
  induction cs as [|c cs IH]; intros w escrowId Hall.
  - reflexivity.
  - inversion Hall as [|? ? Hc Hcs]; subst.
    rewrite run_calls_cons, (IH _ _ Hcs).
    apply (call_effect_frame (call_target c)); [apply run_call_effect|].
    congruence.
Qed.

Lemma calls_on_others_leave_document_witness :
  escrows (run_calls stray_calls Scenario.world_confirmed)
    !! Scenario.escrow_id
  = escrows Scenario.world_confirmed !! Scenario.escrow_id.
Proof.
  apply calls_on_others_leave_document.
  repeat constructor; discriminate.
Defined.

(** X2. A stored transaction is never deleted, and its parties, item,
    amounts, currency, payment intent and dispute-period fields are the
    ones it was stored with, after any sequence of calls of the
    lifecycle functions on any transactions. *)
Theorem parties_and_amounts_are_frozen :
  forall (cs : list Call) (w : World) (escrowId : string)
         (e : EscrowTransaction),
    escrows w !! escrowId = Some e ->
    exists e',
      escrows (run_calls cs w) !! escrowId = Some e' /\
      buyerId e' = buyerId e /\ sellerId e' = sellerId e /\
      sellerStripeAccountId e' = sellerStripeAccountId e /\
      itemDescription e' = itemDescription e /\ itemType e' = itemType e /\
      amount e' = amount e /\ platformFee e' = platformFee e /\
      sellerAmount e' = sellerAmount e /\ currency e' = currency e /\
      stripePaymentIntentId e' = stripePaymentIntentId e /\
      disputePeriodDays e' = disputePeriodDays e /\
      disputePeriodEndsAt e' = disputePeriodEndsAt e.
Proof.
  intros cs w escrowId e Hdoc.
  destruct (run_calls_document cs w escrowId e Hdoc) as (e' & Hdoc' & Hstep).
  exists e'. split; [exact Hdoc'|].
  destruct Hstep
    as [(? & ? & ?) (? & ?) (? & ? & ? & ? & ?) (? & ?) _ _ _ _ _ _].
  repeat split; assumption.
Qed.

Lemma parties_and_amounts_are_frozen_witness :
  exists e',
    escrows (run_calls purchase_calls Scenario.world_created)
      !! Scenario.escrow_id = Some e' /\
    sellerAmount e' = 42510 /\ amount e' = 45000.
Proof.
  destruct (parties_and_amounts_are_frozen purchase_calls
              Scenario.world_created Scenario.escrow_id
              Scenario.created_escrow)
    as (e' & Hdoc & _ & _ & _ & _ & _ & Hamount & _ & Hseller & _).
  - vm_compute. reflexivity.
  - exists e'. auto.
Defined.

(** X3. The status history is append-only: after any sequence of calls
    the history a document had is a prefix of the one it has; and when
    the last entry of the history named the status before, it names the
    status after (every function that writes the status appends the entry
    of that status in the same write). *)
Theorem status_history_is_append_only :
  forall (cs : list Call) (w : World) (escrowId : string)
         (e : EscrowTransaction),
    escrows w !! escrowId = Some e ->
    exists e',
      escrows (run_calls cs w) !! escrowId = Some e' /\
      statusHistory e `prefix_of` statusHistory e' /\
      (history_tracks_status e -> history_tracks_status e').
Proof.
  intros cs w escrowId e Hdoc.
  destruct (run_calls_document cs w escrowId e Hdoc) as (e' & Hdoc' & Hstep).
  exists e'. split; [exact Hdoc'|].
  split; [apply (step_history _ _ Hstep) | apply (step_tracks _ _ Hstep)].
Qed.

Lemma status_history_is_append_only_witness :
  exists e',
    escrows (run_calls purchase_calls Scenario.world_created)
      !! Scenario.escrow_id = Some e' /\
    statusHistory Scenario.created_escrow `prefix_of` statusHistory e' /\
    history_tracks_status e'.
Proof.
  destruct (status_history_is_append_only purchase_calls
              Scenario.world_created Scenario.escrow_id
              Scenario.created_escrow)
    as (e' & Hdoc & Hprefix & Htracks).
  - vm_compute. reflexivity.
  - exists e'. repeat split; auto. apply Htracks. reflexivity.
Defined.

(** X4. The condition list is never reordered, shortened or extended,
    and of each condition only [isMet], [metAt] and the [config] keys
    [trackingNumber], [carrierName] and [confirmationRequired] can
    differ after any sequence of calls; a [metAt] that was set is kept. *)
Theorem conditions_keep_their_shape :
  forall (cs : list Call) (w : World) (escrowId : string)
         (e : EscrowTransaction),
    escrows w !! escrowId = Some e ->
    exists e',
      escrows (run_calls cs w) !! escrowId = Some e' /\
      map condition_shape (settlementConditions e') =
        map condition_shape (settlementConditions e) /\
      Forall2 (fun c c' => forall t, metAt c = Some t -> metAt c' = Some t)
              (settlementConditions e) (settlementConditions e').
Proof.
  intros cs w escrowId e Hdoc.
  destruct (run_calls_document cs w escrowId e Hdoc) as (e' & Hdoc' & Hstep).
  exists e'. split; [exact Hdoc'|].
  pose proof (step_conditions _ _ Hstep) as Hconds.
  split.
  - induction Hconds as [|c c' l l' [Hshape _] _ IH]; simpl;
      [reflexivity | now rewrite Hshape, IH].
  - eapply Forall2_impl; [exact Hconds|]. intros c c' [_ Hmet]. exact Hmet.
Qed.

Lemma conditions_keep_their_shape_witness :
  exists e',
    escrows (run_calls purchase_calls Scenario.world_created)
      !! Scenario.escrow_id = Some e' /\
    map condition_shape (settlementConditions e') =
      map condition_shape (settlementConditions Scenario.created_escrow).
Proof.
  destruct (conditions_keep_their_shape purchase_calls
              Scenario.world_created Scenario.escrow_id
              Scenario.created_escrow)
    as (e' & Hdoc & Hshape & _).
  - vm_compute. reflexivity.
  - exists e'. auto.
Defined.

(** X5. The status moves only along the edges the functions write:
    pending_payment to payment_received, payment_received to shipped,
    shipped/in_transit/delivered to confirmed, those and confirmed to
    disputed, and any status but released and refunded to released or
    refunded.  So after any sequence of calls a released or refunded
    transaction has the status it had, and no call ever puts a
    transaction into pending_payment, in_transit, delivered,
    auto_released or cancelled. *)
Theorem status_moves_along_edges :
  forall (cs : list Call) (w : World) (escrowId : string)
         (e : EscrowTransaction),
    escrows w !! escrowId = Some e ->
    exists e',
      escrows (run_calls cs w) !! escrowId = Some e' /\
      rtc status_edge (status e) (status e') /\
      (status e ∈ [released; refunded] -> status e' = status e) /\
      (status e' ∈ [pending_payment; in_transit; delivered; auto_released;
                    cancelled] ->
       status e' = status e).
Proof.
  intros cs w escrowId e Hdoc.
  destruct (run_calls_document cs w escrowId e Hdoc) as (e' & Hdoc' & Hstep).
  exists e'. split; [exact Hdoc'|].
  pose proof (step_status _ _ Hstep) as Hreach.
  repeat split; auto.
  - intros Hterm. now apply edge_from_terminal.
  - intros Hin. now apply edge_never_enters.
Qed.

Lemma status_moves_along_edges_witness :
  exists e',
    escrows (run_calls purchase_calls Scenario.world_created)
      !! Scenario.escrow_id = Some e' /\
    rtc status_edge pending_payment (status e').
Proof.
  destruct (status_moves_along_edges purchase_calls
              Scenario.world_created Scenario.escrow_id
              Scenario.created_escrow)
    as (e' & Hdoc & Hreach & _).
  - vm_compute. reflexivity.
  - exists e'. auto.
Defined.

(** X6. The audit log and the log of requests to the payment rail only
    grow, and the seller accounts and the platform configuration are
    never written, by any sequence of calls. *)
Theorem logs_only_grow :
  forall (cs : list Call) (w : World),
    events w `prefix_of` events (run_calls cs w) /\
    railCalls w `prefix_of` railCalls (run_calls cs w) /\
    sellerAccounts (run_calls cs w) = sellerAccounts w /\
    platformConfigs (run_calls cs w) = platformConfigs w.
Proof.
  intros cs w. destruct (run_calls_world_step cs w) as (_ & H). exact H.
Qed.

(* ===================================================================== *)
(** * Terminal and blocked transactions                                   *)
(* ===================================================================== *)

Section Gates.

Implicit Types (w : World) (e : EscrowTransaction).

(** Behind the status gate an evaluation only rewrites the conditions. *)
Lemma evaluate_gated (env : Env) (escrowId : string) w e :
  escrows w !! escrowId = Some e ->
  status e ∈ [released; refunded; disputed] ->
  evaluateSettlementConditions env escrowId w =
    (with_escrows w (<[escrowId := stored_evaluation env e]> (escrows w)),
     Returned
       {| res_allConditionsMet := code_allMet (evaluated_conditions env e);
          unmetConditions := unmet_descriptions (evaluated_conditions env e);
          res_released := Some false |}).
Proof.
  intros Hdoc Hst. rewrite evaluateSettlementConditions_run, Hdoc. simpl.
  rewrite (bool_decide_eq_true_2 _ Hst). now rewrite andb_false_r.
Qed.

(** On a released or refunded document every call either does nothing
    or, for an evaluation (alone or at the end of another function),
    rewrites the conditions and the flag. *)
Lemma run_operation_terminal (op : Operation) (env : Env)
    (escrowId : string) w e :
  escrows w !! escrowId = Some e ->
  status e ∈ [released; refunded] ->
  run_operation op env escrowId w = w \/
  run_operation op env escrowId w =
    with_escrows w (<[escrowId := stored_evaluation env e]> (escrows w)).
Proof.
  intros Hdoc Hterm.
  assert (Hcases : status e = released \/ status e = refunded)
    by (rewrite !elem_of_cons, elem_of_nil in Hterm; tauto).
  destruct op; simpl.
  - left. rewrite captureEscrowPayment_run, Hdoc.
    rewrite bool_decide_eq_false_2; [reflexivity|].
    destruct Hcases as [-> | ->]; discriminate.
  - left. rewrite markAsShipped_run, Hdoc.
    destruct (negb (bool_decide (sellerId e = seller))); [reflexivity|].
    rewrite bool_decide_eq_false_2; [reflexivity|].
    destruct Hcases as [-> | ->]; discriminate.
  - left. rewrite confirmReceipt_run, Hdoc.
    destruct (negb (bool_decide (buyerId e = buyer))); [reflexivity|].
    rewrite bool_decide_eq_false_2; [reflexivity|].
    rewrite !elem_of_cons, elem_of_nil.
    destruct Hcases as [-> | ->]; intros [H | [H | [H | []]]];
      discriminate H.
  - left. rewrite openDispute_run, Hdoc.
    destruct (negb (bool_decide (buyerId e = buyer))); [reflexivity|].
    rewrite bool_decide_eq_false_2; [reflexivity|].
    rewrite !elem_of_cons, elem_of_nil.
    destruct Hcases as [-> | ->]; intros [H | [H | [H | [H | []]]]];
      discriminate H.
  - right. rewrite (evaluate_gated env escrowId w e Hdoc); [reflexivity|].
    rewrite !elem_of_cons in *. tauto.
  - left. rewrite releaseFundsToSeller_run, Hdoc.
    destruct (negb (allConditionsMet e)); [reflexivity|].
    now rewrite (bool_decide_eq_true_2 _ Hterm).
  - left. rewrite refundToBuyer_run, Hdoc.
    rewrite bool_decide_eq_true_2; [reflexivity|].
    rewrite !elem_of_cons in *. tauto.
Qed.

Lemma transfers_for_app (escrowId : string) w (added : list RailCall) :
  transfers_for escrowId (with_railCalls w (railCalls w ++ added)) =
  transfers_for escrowId w ++
  List.filter
    (fun call =>
       match call with
       | transfers_create _ _ _ group => bool_decide (group = escrowId)
       | _ => false
       end) added.
Proof. unfold transfers_for. simpl. apply List.filter_app. Qed.

(** The transfers in the name of [escrowId] among requests that are
    made in the name of another transaction, or hold no transfer. *)
Lemma no_transfers_among (escrowId : string) (added : list RailCall) :
  Forall (fun call => is_transfer call = true ->
                      ~ transfer_names escrowId call) added ->
  List.filter
    (fun call =>
       match call with
       | transfers_create _ _ _ group => bool_decide (group = escrowId)
       | _ => false
       end) added = [].
Proof.
  induction 1 as [|call added Hcall _ IH]; simpl; [reflexivity|].
  rewrite IH. destruct call; try reflexivity.
  rewrite bool_decide_eq_false_2; [reflexivity|].
  intros Heq. now apply (Hcall eq_refl).
Qed.

End Gates.

(** X7. A released or refunded transaction is inert: after any sequence
    of calls on it (capture, shipment, confirmation, dispute, evaluation,
    release, refund, with whatever arguments, clocks and rail answers)
    nothing more was sent to the payment rail, no event was logged, and
    the document differs at most in its condition list and
    [allConditionsMet] flag, which evaluations rewrite. *)
Theorem terminal_transaction_is_inert :
  forall (cs : list Call) (w : World) (escrowId : string)
         (e : EscrowTransaction),
    escrows w !! escrowId = Some e ->
    status e ∈ [released; refunded] ->
    Forall (fun c => call_target c = escrowId) cs ->
    railCalls (run_calls cs w) = railCalls w /\
    events (run_calls cs w) = events w /\
    exists e',
      escrows (run_calls cs w) !! escrowId = Some e' /\
      status e' = status e /\
      same_but_conditions e e'.
Proof.
  intros cs w escrowId e Hdoc Hterm Hall.
  assert (Hsame0 : same_but_conditions e e)
    by (unfold same_but_conditions; now destruct e).
  assert (Hgen :
    forall e1, escrows w !! escrowId = Some e1 ->
               status e1 = status e -> same_but_conditions e e1 ->
    railCalls (run_calls cs w) = railCalls w /\
    events (run_calls cs w) = events w /\
    exists e', escrows (run_calls cs w) !! escrowId = Some e' /\
               status e' = status e /\ same_but_conditions e e');
    [|now apply (Hgen e)].
  clear Hdoc Hsame0. revert w.
  induction Hall as [|c cs Hc _ IH]; intros w e1 Hdoc1 Hst1 Hsame1.
  - simpl. split; [reflexivity|]. split; [reflexivity|]. eauto.
  - rewrite run_calls_cons. unfold run_call. rewrite Hc.
    assert (Hterm1 : status e1 ∈ [released; refunded]) by now rewrite Hst1.
    destruct (run_operation_terminal (call_operation c) (call_env c)
                escrowId w e1 Hdoc1 Hterm1) as [-> | ->].
    + now apply (IH w e1).
    + destruct (IH (with_escrows w
                      (<[escrowId := stored_evaluation (call_env c) e1]>
                         (escrows w)))
                   (stored_evaluation (call_env c) e1)) as (Hr & He & Hd).
      * simpl. apply lookup_insert_eq.
      * exact Hst1.
      * now apply same_but_conditions_stored.
      * simpl in Hr, He. auto.
Qed.

(** The purchase released at hour 49, then asked to refund, to dispute
    and to evaluate. *)
Lemma terminal_transaction_is_inert_witness :
  let cs := [ call_at (50 * Scenario.hour) (op_refund None None);
              call_at (51 * Scenario.hour) (op_dispute "buyer_1" "late");
              call_at (52 * Scenario.hour) op_evaluate ] in
  railCalls (run_calls cs Scenario.world_released)
    = railCalls Scenario.world_released /\
  events (run_calls cs Scenario.world_released)
    = events Scenario.world_released.
Proof.
  intros cs.
  edestruct (terminal_transaction_is_inert cs Scenario.world_released
               Scenario.escrow_id) as (Hr & He & _).
  - vm_compute. reflexivity.
  - simpl. rewrite !elem_of_cons. auto.
  - repeat constructor.
  - auto.
Defined.

Lemma blocked_stays_blocked :
  forall (cs : list Call) (w : World) (escrowId : string)
         (e : EscrowTransaction),
    escrows w !! escrowId = Some e ->
    blocked e ->
    status e <> released ->
    exists e',
      escrows (run_calls cs w) !! escrowId = Some e' /\
      blocked e' /\
      status e' <> released /\
      transfers_for escrowId (run_calls cs w) = transfers_for escrowId w.
Proof.
  induction cs as [|c cs IH]; intros w escrowId e Hdoc Hblocked Hopen.
  - exists e. auto.
  - rewrite run_calls_cons.
    pose proof (run_call_effect c w) as Heff.
    pose proof Heff as (_ & _ & (added & Hrail & Hnames & Hfree) & _).
    assert (Hdoc1 : exists e1,
               escrows (run_call c w) !! escrowId = Some e1 /\
               blocked e1 /\ status e1 <> released).
    { destruct (decide (call_target c = escrowId)) as [Heq | Hne].
      - rewrite Heq in Heff.
        destruct (call_effect_document escrowId w _ e Heff Hdoc)
          as (e1 & Hdoc1 & Hstep).
        exists e1. split; [exact Hdoc1|]. split.
        + now apply (blocked_step e e1).
        + intros Hrel.
          destruct (step_release _ _ Hstep Hrel); contradiction.
      - exists e. split; [|auto].
        rewrite (call_effect_frame (call_target c) escrowId w _ Heff);
          auto. }
    destruct Hdoc1 as (e1 & Hdoc1 & Hblocked1 & Hopen1).
    destruct (IH (run_call c w) escrowId e1 Hdoc1 Hblocked1 Hopen1)
      as (e' & Hdoc' & Hblocked' & Hopen' & Htransfers).
    exists e'. split; [exact Hdoc'|]. split; [exact Hblocked'|].
    split; [exact Hopen'|].
    rewrite Htransfers. unfold transfers_for. rewrite Hrail, List.filter_app.
    rewrite (no_transfers_among escrowId added); [now rewrite app_nil_r|].
    apply Forall_forall. intros call Hin Htr Hname.
    destruct (decide (call_target c = escrowId)) as [Heq | Hne].
    + destruct Hfree as (e0 & Hdoc0 & Hfree0).
      * apply Exists_exists. eauto.
      * rewrite Heq, Hdoc in Hdoc0. injection Hdoc0 as <-. contradiction.
    + rewrite Forall_forall in Hnames. specialize (Hnames call Hin).
      destruct call; try discriminate Htr. simpl in *. congruence.
Qed.

(** X8. A transaction that holds a stuck condition (a
    [tracking_confirmation] whose [deliveryConfirmed] is not [true], a
    [milestone_based] with an incomplete milestone, a [dual_signature]
    lacking a signature, or an unrecognized type) and whose stored flag
    is false is never released: no function writes those keys, so after
    any sequence of calls on any transactions it is still blocked, its
    status is not [released], and no transfer was requested in its
    name. *)
Theorem blocked_transaction_is_never_released :
  forall (cs : list Call) (w : World) (escrowId : string)
         (e : EscrowTransaction),
    escrows w !! escrowId = Some e ->
    blocked e ->
    status e <> released ->
    exists e',
      escrows (run_calls cs w) !! escrowId = Some e' /\
      blocked e' /\
      status e' <> released /\
      transfers_for escrowId (run_calls cs w) = transfers_for escrowId w.
Proof. exact blocked_stays_blocked. Qed.

(** The service order of the scenario, through capture, shipment,
    confirmation and a sweep. *)
Lemma blocked_transaction_is_never_released_witness :
  exists e',
    escrows (run_calls purchase_calls service_world) !! Scenario.escrow_id
      = Some e' /\
    status e' <> released /\
    transfers_for Scenario.escrow_id (run_calls purchase_calls service_world)
      = transfers_for Scenario.escrow_id service_world.
Proof.
  destruct (blocked_transaction_is_never_released purchase_calls
              service_world Scenario.escrow_id service_escrow)
    as (e' & Hdoc & _ & Hopen & Htr).
  - vm_compute. reflexivity.
  - split; [reflexivity|]. left. reflexivity.
  - discriminate.
  - exists e'. auto.
Defined.

(* ===================================================================== *)
(** * Creation                                                            *)
(* ===================================================================== *)

Section Creation.

Variables (env : Env) (buyer : string) (data : CreateData).
Implicit Types (w : World) (e : EscrowTransaction).

Lemma createEscrowTransaction_run w :
  createEscrowTransaction env buyer data w =
  match seller_account (cd_sellerId data) w with
  | None => (w, Returned None)
  | Some account =>
      if negb (chargesEnabled account) then (w, Returned None)
      else
        let cfg := hd default_config (platformConfigs w) in
        let request :=
          paymentIntents_create (cd_amount data) (cd_currency data) in
        match intentReply env with
        | Rejected _ => (requested w [request], Returned None)
        | Accepted intent =>
            match compute_fee (cd_amount data) (platformFeePercentage cfg)
                              (platformFeeFixed cfg),
                  compute_fee (cd_amount data) (stripeFeePercentage cfg)
                              (stripeFeeFixed cfg) with
            | Some platformFee', Some stripeFee' =>
                let e := new_escrow env buyer data account cfg intent
                           platformFee' stripeFee' in
                match escrows w !! freshId env with
                | Some _ => (requested w [request], Returned None)
                | None =>
                    (written w (freshId env) e "payment_received" "buyer"
                       [request],
                     Returned (Some (freshId env, e)))
                end
            | _, _ => (requested w [request], Returned None)
            end
        end
  end.
Proof.
  unfold createEscrowTransaction, seller_account. unfold_action.
  unfold find_seller_account.
  destruct (List.filter _ (sellerAccounts w)) as [|account others];
    [reflexivity|].
  cbn [head]. cbv beta iota.
  destruct (negb (chargesEnabled account)); [reflexivity|].
  rewrite getPlatformConfig_run. cbv beta iota zeta.
  unfold requested, written, new_escrow, new_conditions.
  destruct (intentReply env) as [intent|]; [|reflexivity].
  cbv beta iota.
  destruct (compute_fee (cd_amount data) (platformFeePercentage _) _)
    as [pf|]; [|reflexivity].
  destruct (compute_fee (cd_amount data) (stripeFeePercentage _) _)
    as [sf|]; [|reflexivity].
  unfold createDocument. cbn [escrows with_railCalls].
  destruct (escrows w !! freshId env); reflexivity.
Qed.

End Creation.

Section CreationFacts.

Implicit Types (w : World) (e : EscrowTransaction).




(** What a successful creation returns. *)
Lemma creation_returns (env : Env) (buyer : string) (data : CreateData)
    w w' (newId : string) e :
  createEscrowTransaction env buyer data w
    = (w', Returned (Some (newId, e))) ->
  exists account intent platformFee' stripeFee',
    seller_account (cd_sellerId data) w = Some account /\
    chargesEnabled account = true /\
    intentReply env = Accepted intent /\
    newId = freshId env /\
    escrows w !! newId = None /\
    e = new_escrow env buyer data account
          (hd default_config (platformConfigs w)) intent
          platformFee' stripeFee' /\
    w' = written w newId e "payment_received" "buyer"
           [paymentIntents_create (cd_amount data) (cd_currency data)].
Proof.
  rewrite createEscrowTransaction_run.
  destruct (seller_account _ w) as [account|]; [|discriminate].
  destruct (chargesEnabled account) eqn:Hcharges; simpl; [|discriminate].
  destruct (intentReply env) as [intent|]; [|discriminate].
  destruct (compute_fee _ (platformFeePercentage _) _) as [pf|];
    [|discriminate].
  destruct (compute_fee _ (stripeFeePercentage _) _) as [sf|];
    [|discriminate].
  destruct (escrows w !! freshId env) eqn:Hfresh; [discriminate|].
  intros H. injection H as <- <- <-.
  exists account, intent, pf, sf. repeat split; auto.
Qed.

End CreationFacts.



(** X10. [createEscrowTransaction] never throws; when it returns no
    transaction it has written no document and logged no event, and when
    the first account listed for the seller is missing or cannot take
    charges it has not called the payment rail either; in every case
    the documents that existed are kept as they were. *)
Theorem creation_failure_writes_nothing :
  forall (env : Env) (buyer : string) (data : CreateData) (w : World),
    exists w' r,
      createEscrowTransaction env buyer data w = (w', Returned r) /\
      (r = None -> escrows w' = escrows w /\ events w' = events w) /\
      (match seller_account (cd_sellerId data) w with
       | Some account => chargesEnabled account = false
       | None => True
       end -> r = None /\ w' = w) /\
      (forall escrowId e,
         escrows w !! escrowId = Some e ->
         escrows w' !! escrowId = Some e).
Proof.
  intros env buyer data w. rewrite createEscrowTransaction_run.
  destruct (seller_account _ w) as [account|];
    [|eexists _, _; repeat split; auto].
  destruct (chargesEnabled account); simpl;
    [|eexists _, _; repeat split; auto].
  destruct (intentReply env) as [intent|];
    [|eexists _, _; repeat split; auto; discriminate].
  destruct (compute_fee _ (platformFeePercentage _) _) as [pf|];
    [|eexists _, _; repeat split; auto; discriminate].
  destruct (compute_fee _ (stripeFeePercentage _) _) as [sf|];
    [|eexists _, _; repeat split; auto; discriminate].
  destruct (escrows w !! freshId env) eqn:Hfresh;
    [eexists _, _; repeat split; auto; discriminate|].
  eexists _, _. split; [reflexivity|].
  split; [discriminate|]. split; [discriminate|].
  intros escrowId e Hdoc. simpl.
  rewrite lookup_insert_ne; [exact Hdoc|]. congruence.
Qed.

(** A creation for a seller who has no payment account. *)
Lemma creation_failure_writes_nothing_witness :
  exists w' r,
    createEscrowTransaction (Scenario.env_at 0) "buyer_1"
      {| cd_sellerId := "seller_9"; cd_itemDescription := "Plugin licence";
         cd_itemType := digital_goods; cd_amount := 45000;
         cd_currency := "nzd"; cd_customConditions := None |}
      Scenario.world_initial = (w', Returned r) /\
    r = None /\ w' = Scenario.world_initial.
Proof.
  destruct (creation_failure_writes_nothing (Scenario.env_at 0) "buyer_1"
              {| cd_sellerId := "seller_9";
                 cd_itemDescription := "Plugin licence";
                 cd_itemType := digital_goods; cd_amount := 45000;
                 cd_currency := "nzd"; cd_customConditions := None |}
              Scenario.world_initial)
    as (w' & r & Hrun & _ & Hnone & _).
  exists w', r. split; [exact Hrun|]. apply Hnone. exact I.
Defined.

(** X11. A transaction created with the default conditions of
    [physical_goods] or [service] is never released by this code: its
    tracking condition asks for [deliveryConfirmed], its milestone
    condition for completed milestones, and no function writes either;
    after any sequence of calls its status is not [released] and no
    transfer was requested in its name. *)
Theorem default_physical_and_service_never_release :
  forall (env : Env) (buyer : string) (data : CreateData) (w w' : World)
         (newId : string) (e : EscrowTransaction) (cs : list Call),
    createEscrowTransaction env buyer data w
      = (w', Returned (Some (newId, e))) ->
    cd_customConditions data = None ->
    cd_itemType data = physical_goods \/ cd_itemType data = service ->
    exists e',
      escrows (run_calls cs w') !! newId = Some e' /\
      status e' <> released /\
      transfers_for newId (run_calls cs w') = transfers_for newId w'.
Proof.
  intros env buyer data w w' newId e cs Hrun Hcustom Hitem.
  destruct (creation_returns env buyer data w w' newId e Hrun)
    as (account & intent & pf & sf & _ & _ & _ & Hid & Hfree & He & Hw).
  assert (Hdoc : escrows w' !! newId = Some e)
    by (rewrite Hw; simpl; apply lookup_insert_eq).
  assert (Hblocked : blocked e).
  { rewrite He. split; [reflexivity|]. simpl.
    unfold new_conditions. rewrite Hcustom.
    destruct Hitem as [-> | ->]; simpl; left; reflexivity. }
  assert (Hopen : status e <> released) by (rewrite He; discriminate).
  destruct (blocked_stays_blocked cs w' newId e
              Hdoc Hblocked Hopen) as (e' & Hdoc' & _ & Hopen' & Htr).
  eauto.
Qed.

Lemma default_physical_and_service_never_release_witness :
  exists e',
    escrows (run_calls purchase_calls service_world) !! Scenario.escrow_id
      = Some e' /\
    status e' <> released.
Proof.
  destruct (default_physical_and_service_never_release (Scenario.env_at 0)
              "buyer_1" service_order Scenario.world_initial service_world
              Scenario.escrow_id service_escrow purchase_calls)
    as (e' & Hdoc & Hopen & _).
  - vm_compute. reflexivity.
  - reflexivity.
  - right. reflexivity.
  - exists e'. auto.
Defined.

(** X12. The dispute period is never enforced on a transaction created
    by this code: the creation stores no deadline and no function writes
    one, so after any sequence of calls a dispute opened by the buyer in
    a disputable status succeeds whatever the clock says. *)
Theorem dispute_period_is_never_enforced :
  forall (env : Env) (buyer : string) (data : CreateData) (w w' : World)
         (newId : string) (e : EscrowTransaction) (cs : list Call)
         (later : Env) (reason : string) (e' : EscrowTransaction),
    createEscrowTransaction env buyer data w
      = (w', Returned (Some (newId, e))) ->
    escrows (run_calls cs w') !! newId = Some e' ->
    status e' ∈ [shipped; in_transit; delivered; confirmed] ->
    snd (openDispute later newId buyer reason (run_calls cs w'))
      = Returned ok.
Proof.
  intros env buyer data w w' newId e cs later reason e' Hrun Hdoc' Hst.
  destruct (creation_returns env buyer data w w' newId e Hrun)
    as (account & intent & pf & sf & _ & _ & _ & Hid & Hfree & He & Hw).
  assert (Hdoc : escrows w' !! newId = Some e)
    by (rewrite Hw; simpl; apply lookup_insert_eq).
  destruct (run_calls_document cs w' newId e Hdoc) as (e1 & Hdoc1 & Hstep).
  rewrite Hdoc' in Hdoc1. injection Hdoc1 as <-.
  destruct (step_parties _ _ Hstep) as (Hbuyer & _).
  destruct (step_dispute_period _ _ Hstep) as (_ & Hdeadline).
  rewrite openDispute_run, Hdoc'.
  rewrite Hbuyer, Hdeadline, He. simpl.
  rewrite bool_decide_eq_true_2 by reflexivity. simpl.
  now rewrite (bool_decide_eq_true_2 _ Hst).
Qed.

(** The purchase of the scenario, disputed a year after its creation. *)
Lemma dispute_period_is_never_enforced_witness :
  snd (openDispute (Scenario.env_at (365 * day_ms)) Scenario.escrow_id
         "buyer_1" "changed my mind"
         (run_calls (firstn 3 purchase_calls) Scenario.world_created))
    = Returned ok.
Proof.
  eapply (dispute_period_is_never_enforced (Scenario.env_at 0) "buyer_1"
            Scenario.purchase Scenario.world_initial Scenario.world_created
            Scenario.escrow_id Scenario.created_escrow).
  - vm_compute. reflexivity.
  - vm_compute. reflexivity.
  - simpl. rewrite !elem_of_cons. auto.
Defined.

(* ===================================================================== *)
(** * Release, evaluation, refund and capture: when and what              *)
(* ===================================================================== *)

(** X13. [releaseFundsToSeller] succeeds exactly when the stored flag is
    true, the status is neither [released] nor [refunded], and the rail
    accepts the transfer and the payout; no other status stops it, so a
    disputed, cancelled or unpaid transaction whose flag is true is
    released.  On success the document is marked [released] with both
    identifiers; on failure the store and the audit log are unchanged. *)
Theorem release_succeeds_exactly_when :
  forall (env : Env) (escrowId : string) (w : World)
         (e : EscrowTransaction),
    escrows w !! escrowId = Some e ->
    let r := releaseFundsToSeller env escrowId w in
    (succeeded (snd r) = true <->
     allConditionsMet e = true /\
     (status e ∉ [released; refunded]) /\
     exists transfer payout,
       transferReply env = Accepted transfer /\
       payoutReply env = Accepted payout /\
       escrows (fst r) !! escrowId
         = Some (released_document env transfer payout e)) /\
    (succeeded (snd r) = false ->
     escrows (fst r) = escrows w /\ events (fst r) = events w).
Proof.
  intros env escrowId w e Hdoc. simpl.
  rewrite releaseFundsToSeller_run, Hdoc.
  destruct (allConditionsMet e); simpl.
  2: { split; [|auto]. split; [discriminate|]. intros (H & _).
       discriminate. }
  destruct (bool_decide (status e ∈ [released; refunded])) eqn:Hterm.
  { apply bool_decide_eq_true_1 in Hterm. simpl. split; [|auto].
    split; [discriminate|]. intros (_ & Hopen & _). contradiction. }
  apply bool_decide_eq_false_1 in Hterm.
  destruct (transferReply env) as [transfer|msg]; simpl.
  2: { split; [|auto]. split; [discriminate|].
       intros (_ & _ & t & p & Ht & _). discriminate. }
  destruct (payoutReply env) as [payout|msg]; simpl.
  2: { split; [|auto]. split; [discriminate|].
       intros (_ & _ & t & p & _ & Hp & _). discriminate. }
  split; [|discriminate]. split; [|reflexivity].
  intros _. repeat split; auto. exists transfer, payout.
  repeat split. apply lookup_insert_eq.
Qed.

(** The disputed purchase of the scenario with its flag set: a direct
    release goes through. *)
Lemma release_succeeds_exactly_when_witness :
  let w := with_escrows Scenario.world_disputed
             {[ Scenario.escrow_id :=
                  apply_updates Scenario.delivered_escrow
                    [set_status disputed; set_allConditionsMet true] ]} in
  succeeded (snd (releaseFundsToSeller (Scenario.env_at (5 * Scenario.hour))
                    Scenario.escrow_id w)) = true.
Proof.
  intros w.
  apply (proj1 (release_succeeds_exactly_when
                  (Scenario.env_at (5 * Scenario.hour)) Scenario.escrow_id w
                  (apply_updates Scenario.delivered_escrow
                     [set_status disputed; set_allConditionsMet true])
                  eq_refl)).
  split; [reflexivity|]. split.
  - simpl. rewrite !elem_of_cons, elem_of_nil.
    intros [H | [H | []]]; discriminate H.
  - exists "tr_1", "po_1". repeat split; vm_compute; reflexivity.
Defined.

Section EvaluationCases.

Variables (env : Env) (escrowId : string).
Implicit Types (w : World) (e : EscrowTransaction).

Lemma stored_evaluation_flag e :
  allConditionsMet (stored_evaluation env e)
    = code_allMet (evaluated_conditions env e).
Proof. reflexivity. Qed.

(** The release at the end of an evaluation reads the document the
    evaluation has just stored. *)
Lemma evaluation_release_run w e :
  escrows w !! escrowId = Some e ->
  code_allMet (evaluated_conditions env e) = true ->
  status e ∉ [released; refunded; disputed] ->
  let w1 := with_escrows w (<[escrowId := stored_evaluation env e]>
                              (escrows w)) in
  releaseFundsToSeller env escrowId w1 =
    match transferReply env with
    | Rejected msg =>
        (requested w1 [transfer_request escrowId e], Returned (failure msg))
    | Accepted transfer =>
        match payoutReply env with
        | Rejected msg =>
            (requested w1 [transfer_request escrowId e;
                           payout_request e transfer],
             Returned (failure msg))
        | Accepted payout =>
            (written w1 escrowId
               (released_document env transfer payout
                  (stored_evaluation env e))
               "released" "system"
               [transfer_request escrowId e; payout_request e transfer],
             Returned ok)
        end
    end.
Proof.
  intros Hdoc Hall Hopen. cbv zeta.
  rewrite releaseFundsToSeller_run. cbn [escrows with_escrows].
  rewrite lookup_insert_eq, stored_evaluation_flag, Hall.
  cbn [negb].
  rewrite bool_decide_eq_false_2.
  2: { change (status (stored_evaluation env e)) with (status e).
       rewrite !elem_of_cons in *. tauto. }
  unfold requested, written.
  destruct (transferReply env); [destruct (payoutReply env)|]; simpl;
    rewrite ?insert_insert_eq, <- ?app_assoc; reflexivity.
Qed.

End EvaluationCases.

(** X14. An evaluation reports a release exactly when every condition,
    as evaluated at the clock of the call, is met, the status is none of
    [released], [refunded], [disputed], and the rail accepts the transfer
    and the payout; the status [pending_payment] does not stop it, and an
    empty condition list counts as all met.  When it releases, the stored
    document is the evaluated one marked [released]. *)
Theorem evaluation_releases_exactly_when :
  forall (env : Env) (escrowId : string) (w : World)
         (e : EscrowTransaction),
    escrows w !! escrowId = Some e ->
    exists w' r,
      evaluateSettlementConditions env escrowId w = (w', Returned r) /\
      (res_released r = Some true <->
       code_allMet (evaluated_conditions env e) = true /\
       (status e ∉ [released; refunded; disputed]) /\
       exists transfer payout,
         transferReply env = Accepted transfer /\
         payoutReply env = Accepted payout /\
         escrows w' !! escrowId
           = Some (released_document env transfer payout
                     (stored_evaluation env e))) /\
      (settlementConditions e = [] ->
       code_allMet (evaluated_conditions env e) = true).
Proof.
  intros env escrowId w e Hdoc.
  rewrite evaluateSettlementConditions_run, Hdoc. cbv zeta.
  destruct (code_allMet (evaluated_conditions env e)) eqn:Hall.
  2: { eexists _, _. split; [reflexivity|]. simpl. split.
       - split; [discriminate|]. intros (H & _). discriminate.
       - unfold code_allMet, evaluated_conditions in Hall.
         intros Hnil. rewrite Hnil in Hall. discriminate. }
  destruct (bool_decide (status e ∈ [released; refunded; disputed]))
    eqn:Hgate.
  { apply bool_decide_eq_true_1 in Hgate.
    eexists _, _. split; [reflexivity|]. simpl. split; [|auto].
    split; [discriminate|]. intros (_ & Hopen & _). contradiction. }
  apply bool_decide_eq_false_1 in Hgate. cbn [andb negb].
  rewrite (evaluation_release_run env escrowId w e Hdoc Hall Hgate).
  destruct (transferReply env) as [transfer|];
    [destruct (payoutReply env) as [payout|]|];
    (eexists _, _; split; [reflexivity|]; simpl; split; [|auto]).
  - split; [|reflexivity]. intros _. repeat split; auto.
    exists transfer, payout. repeat split. apply lookup_insert_eq.
  - split; [discriminate|]. intros (_ & _ & t & p & _ & Hp & _).
    discriminate.
  - split; [discriminate|]. intros (_ & _ & t & p & Ht & _).
    discriminate.
Qed.

(** The purchase of the scenario at hour 49. *)
Lemma evaluation_releases_exactly_when_witness :
  exists w' r,
    evaluateSettlementConditions (Scenario.env_at (49 * Scenario.hour))
      Scenario.escrow_id Scenario.world_confirmed = (w', Returned r) /\
    res_released r = Some true.
Proof.
  edestruct (evaluation_releases_exactly_when
               (Scenario.env_at (49 * Scenario.hour)) Scenario.escrow_id
               Scenario.world_confirmed) as (w' & r & Hrun & Hiff & _).
  - vm_compute. reflexivity.
  - exists w', r. split; [exact Hrun|].
    apply Hiff. split; [vm_compute; reflexivity|]. split.
    + simpl. rewrite !elem_of_cons, elem_of_nil.
      intros [H | [H | [H | []]]]; discriminate H.
    + exists "tr_1", "po_1". split; [reflexivity|]. split; [reflexivity|].
      assert (Hw : w' = fst (evaluateSettlementConditions
                               (Scenario.env_at (49 * Scenario.hour))
                               Scenario.escrow_id Scenario.world_confirmed))
        by now rewrite Hrun.
      rewrite Hw. vm_compute. reflexivity.
Defined.

(** X15. A refund of a transaction that is neither refunded nor released
    asks the rail for the given amount, or for the whole original amount
    when none or zero is given; when the rail accepts, the transaction
    is marked [refunded] whatever the amount (a partial refund too) and
    a later refund call is refused without a request; when the rail
    refuses, the document and the audit log are unchanged. *)
Theorem refund_is_full_by_default_and_final :
  forall (env later : Env) (escrowId : string) (w : World)
         (e : EscrowTransaction) (refundAmount again : option Z)
         (reason reason' : option string),
    escrows w !! escrowId = Some e ->
    status e ∉ [refunded; released] ->
    let r := refundToBuyer env escrowId refundAmount reason w in
    let request :=
      refunds_create (stripePaymentIntentId e)
        (match refundAmount with
         | Some a => if a =? 0 then amount e else a
         | None => amount e
         end) in
    railCalls (fst r) = railCalls w ++ [request] /\
    (forall refund, refundReply env = Accepted refund ->
       snd r = Returned ok /\
       escrows (fst r) !! escrowId = Some (refunded_document env reason e) /\
       refundToBuyer later escrowId again reason' (fst r) =
         (fst r, Returned (failure "Transaction already completed"))) /\
    (forall msg, refundReply env = Rejected msg ->
       snd r = Returned (failure msg) /\
       escrows (fst r) = escrows w /\ events (fst r) = events w).
Proof.
  intros env later escrowId w e refundAmount again reason reason' Hdoc Hopen.
  cbv zeta. rewrite refundToBuyer_run, Hdoc.
  rewrite (bool_decide_eq_false_2 _ Hopen).
  destruct (refundReply env) as [refund|msg]; simpl.
  - split; [reflexivity|]. split; [|discriminate].
    intros ? _. split; [reflexivity|].
    split; [apply lookup_insert_eq|].
    rewrite refundToBuyer_run. simpl. rewrite lookup_insert_eq.
    rewrite bool_decide_eq_true_2; [reflexivity|].
    simpl. rewrite !elem_of_cons. auto.
  - split; [reflexivity|]. split; [discriminate|].
    intros ? [= <-]. auto.
Qed.

(** The purchase of the scenario refunded without an amount at hour 3. *)
Lemma refund_is_full_by_default_and_final_witness :
  railCalls (fst (refundToBuyer (Scenario.env_at (3 * Scenario.hour))
                    Scenario.escrow_id None None Scenario.world_confirmed))
  = railCalls Scenario.world_confirmed ++ [refunds_create "pi_1" 45000].
Proof.
  edestruct (fun e =>
               refund_is_full_by_default_and_final
                 (Scenario.env_at (3 * Scenario.hour))
                 (Scenario.env_at (4 * Scenario.hour))
                 Scenario.escrow_id Scenario.world_confirmed e
                 None None None None)
    as (Hrail & _).
  - vm_compute. reflexivity.
  - simpl. rewrite !elem_of_cons, elem_of_nil.
    intros [H | [H | []]]; discriminate H.
  - exact Hrail.
Defined.

(** X16. A capture is carried out only in status [pending_payment]
    (otherwise it fails with "Invalid escrow status" and changes
    nothing).  When the rail confirms and captures, the transaction is
    stored [payment_received] with the charge identifier, and a second
    capture is refused without a request; when the rail refuses either
    step, the document is unchanged and still [pending_payment]. *)
Theorem capture_happens_once :
  forall (env later : Env) (escrowId paymentMethodId again : string)
         (w : World) (e : EscrowTransaction),
    escrows w !! escrowId = Some e ->
    let r := captureEscrowPayment env escrowId paymentMethodId w in
    (status e <> pending_payment ->
     r = (w, Returned (failure "Invalid escrow status"))) /\
    (status e = pending_payment ->
     (forall intent charge,
        confirmReply env = Accepted intent ->
        captureReply env = Accepted charge ->
        snd r = Returned ok /\
        escrows (fst r) !! escrowId
          = Some (captured_document env charge e) /\
        captureEscrowPayment later escrowId again (fst r) =
          (fst r, Returned (failure "Invalid escrow status"))) /\
     ((exists msg, confirmReply env = Rejected msg) \/
      (exists msg, captureReply env = Rejected msg) ->
      succeeded (snd r) = false /\
      escrows (fst r) = escrows w /\ events (fst r) = events w)).
Proof.
  intros env later escrowId paymentMethodId again w e Hdoc. cbv zeta.
  rewrite captureEscrowPayment_run, Hdoc. split.
  - intros Hst. now rewrite bool_decide_eq_false_2.
  - intros Hst. rewrite (bool_decide_eq_true_2 _ Hst). cbn [negb]. split.
    + intros intent charge -> ->. simpl. split; [reflexivity|].
      split; [apply lookup_insert_eq|].
      rewrite captureEscrowPayment_run. simpl. rewrite lookup_insert_eq.
      reflexivity.
    + intros Hrefused.
      destruct (confirmReply env) as [intent|]; [|simpl; auto].
      destruct (captureReply env) as [charge|]; [|simpl; auto].
      destruct Hrefused as [(msg & H) | (msg & H)]; discriminate H.
Qed.

(** The capture of the scenario, and a second one. *)
Lemma capture_happens_once_witness :
  captureEscrowPayment (Scenario.env_at 2000) Scenario.escrow_id "pm_2"
    Scenario.world_paid
  = (Scenario.world_paid, Returned (failure "Invalid escrow status")).
Proof.
  edestruct (capture_happens_once (Scenario.env_at 1000)
               (Scenario.env_at 2000) Scenario.escrow_id "pm_1" "pm_2"
               Scenario.world_created) as (_ & Hpending).
  - vm_compute. reflexivity.
  - destruct (Hpending eq_refl) as (Hok & _).
    destruct (Hok "pi_1" "ch_1" eq_refl eq_refl) as (_ & _ & Hagain).
    exact Hagain.
Defined.

(* ===================================================================== *)
(** * Shipment and confirmation, carried through                          *)
(* ===================================================================== *)

Section Carried.

Variables (env : Env) (escrowId : string).
Implicit Types (w : World) (e : EscrowTransaction).

(** The document after an evaluation: the evaluated one, released or
    not. *)
Lemma evaluation_document w e :
  escrows w !! escrowId = Some e ->
  exists e',
    escrows (fst (evaluateSettlementConditions env escrowId w)) !! escrowId
      = Some e' /\
    (e' = stored_evaluation env e \/
     exists transfer payout,
       e' = released_document env transfer payout (stored_evaluation env e)).
Proof.
  intros Hdoc. rewrite evaluateSettlementConditions_run, Hdoc. cbv zeta.
  destruct (_ && _); cbn [fst].
  - rewrite releaseFundsToSeller_run. cbn [escrows with_escrows].
    rewrite lookup_insert_eq.
    destruct (negb _); [|destruct (bool_decide _)];
      try (exists (stored_evaluation env e); split;
           [apply lookup_insert_eq | now left]).
    destruct (transferReply env) as [transfer|];
      [destruct (payoutReply env) as [payout|]|]; simpl;
      try (exists (stored_evaluation env e); split;
           [apply lookup_insert_eq | now left]).
    eexists. split; [apply lookup_insert_eq|]. right. eauto.
  - exists (stored_evaluation env e). split;
      [apply lookup_insert_eq | now left].
Qed.

(** The document after [updateCondition]: the same but for the [config]
    of the first condition of the type. *)
Lemma updateCondition_document (ty : SettlementConditionType)
    (updates : ConditionConfig) w e :
  escrows w !! escrowId = Some e ->
  exists cs',
    escrows (fst (updateCondition escrowId ty updates w)) !! escrowId
      = Some (apply_updates e [set_settlementConditions cs']) /\
    match list_find (fun c => type c = ty) (settlementConditions e) with
    | Some (i, c) =>
        cs' = <[i := with_config c (merge_config (config c) updates)]>
                (settlementConditions e)
    | None => cs' = settlementConditions e
    end.
Proof.
  intros Hdoc. rewrite updateCondition_run, Hdoc.
  destruct (list_find _ (settlementConditions e)) as [[i c]|].
  - eexists. split; [apply lookup_insert_eq | reflexivity].
  - exists (settlementConditions e). split; [|reflexivity].
    rewrite Hdoc. now destruct e.
Qed.

End Carried.

(** X17. A shipment by the seller of a transaction in status
    [payment_received] succeeds; afterwards the document carries the
    shipping record of the call, its history continues with the
    [shipped] entry, its status is [shipped] (or [released], when the
    evaluation at the end of the call found everything met), and the
    first [tracking_confirmation] condition, if there is one, holds the
    tracking number and the carrier. *)
Theorem shipment_is_recorded :
  forall (env : Env) (escrowId seller : string)
         (trackingData : TrackingData) (w : World) (e : EscrowTransaction),
    escrows w !! escrowId = Some e ->
    sellerId e = seller ->
    status e = payment_received ->
    let r := markAsShipped env escrowId seller trackingData w in
    snd r = Returned ok /\
    exists e',
      escrows (fst r) !! escrowId = Some e' /\
      shippingDetails e' = Some (shipping_record env trackingData) /\
      (status e' = shipped \/ status e' = released) /\
      history_continues (statusHistory e)
        (history_entry shipped (clock env) "seller"
           ("Shipped via " +:+ td_carrier trackingData))
        (statusHistory e') /\
      (forall i c,
         list_find (fun c => type c = tracking_confirmation)
                   (settlementConditions e) = Some (i, c) ->
         exists c',
           settlementConditions e' !! i = Some c' /\
           trackingNumber (config c')
             = Some (td_trackingNumber trackingData) /\
           carrierName (config c') = Some (td_carrier trackingData)).
Proof.
  intros env escrowId seller trackingData w e Hdoc Hseller Hst. cbv zeta.
  rewrite markAsShipped_run, Hdoc.
  rewrite (bool_decide_eq_true_2 _ Hseller), (bool_decide_eq_true_2 _ Hst).
  cbn [negb fst snd]. split; [reflexivity|].
  set (e1 := shipped_document env trackingData e).
  set (w1 := with_escrows w (<[escrowId := e1]> (escrows w))).
  assert (Hdoc1 : escrows w1 !! escrowId = Some e1)
    by apply lookup_insert_eq.
  destruct (updateCondition_document escrowId tracking_confirmation
              (tracking_keys trackingData) w1 e1 Hdoc1)
    as (cs2 & Hdoc2 & Hcs2).
  set (w2 := fst (updateCondition escrowId tracking_confirmation
                    (tracking_keys trackingData) w1)) in *.
  set (e2 := apply_updates e1 [set_settlementConditions cs2]) in *.
  set (w3 := fst (logEscrowEvent escrowId "shipped" "seller" w2)).
  assert (Hdoc3 : escrows w3 !! escrowId = Some e2) by exact Hdoc2.
  destruct (evaluation_document env escrowId w3 e2 Hdoc3)
    as (e' & Hdoc' & Hcases).
  exists e'. split; [exact Hdoc'|].
  assert (Hconds :
    settlementConditions e' = evaluated_conditions env e2)
    by (destruct Hcases as [-> | (t & p & ->)]; reflexivity).
  split; [destruct Hcases as [-> | (t & p & ->)]; reflexivity|].
  split; [destruct Hcases as [-> | (t & p & ->)]; simpl; auto|].
  split.
  - unfold history_continues.
    destruct Hcases as [-> | (t & p & ->)]; simpl.
    + reflexivity.
    + now apply prefix_app_r.
  - intros i c Hfind. change (settlementConditions e1)
      with (settlementConditions e) in Hcs2. rewrite Hfind in Hcs2.
    apply list_find_Some in Hfind as (Hi & _ & _).
    rewrite Hconds. unfold evaluated_conditions.
    change (settlementConditions e2) with cs2. rewrite Hcs2.
    rewrite list_lookup_fmap, list_lookup_insert_eq
      by (eapply lookup_lt_Some; eassumption).
    eexists. split; [reflexivity|]. split; reflexivity.
Qed.

(** The shipment of the scenario. *)
Lemma shipment_is_recorded_witness :
  exists e',
    Scenario.the_escrow Scenario.world_shipped = Some e' /\
    shippingDetails e'
      = Some (shipping_record (Scenario.env_at Scenario.hour)
                Scenario.tracking) /\
    (status e' = shipped \/ status e' = released).
Proof.
  edestruct (shipment_is_recorded (Scenario.env_at Scenario.hour)
               Scenario.escrow_id "seller_1" Scenario.tracking
               Scenario.world_paid)
    as (_ & e' & Hdoc & Hship & Hst & _).
  - vm_compute. reflexivity.
  - reflexivity.
  - reflexivity.
  - exists e'. auto.
Defined.

(** X18. A confirmation by the buyer of a transaction in status
    [shipped], [in_transit] or [delivered] succeeds; afterwards every
    [buyer_confirmation] condition is stored met with a [metAt], the
    history continues with the [confirmed] entry, and the status is
    [confirmed] (or [released], when the evaluation at the end of the
    call found everything met). *)
Theorem confirmation_meets_its_condition :
  forall (env : Env) (escrowId buyer : string) (w : World)
         (e : EscrowTransaction),
    escrows w !! escrowId = Some e ->
    buyerId e = buyer ->
    status e ∈ [shipped; in_transit; delivered] ->
    let r := confirmReceipt env escrowId buyer w in
    snd r = Returned ok /\
    exists e',
      escrows (fst r) !! escrowId = Some e' /\
      (status e' = confirmed \/ status e' = released) /\
      history_continues (statusHistory e)
        (history_entry confirmed (clock env) "buyer"
           "Buyer confirmed receipt")
        (statusHistory e') /\
      Forall (fun c' => type c' = buyer_confirmation ->
                        isMet c' = true /\ is_Some (metAt c'))
             (settlementConditions e').
Proof.
  intros env escrowId buyer w e Hdoc Hbuyer Hst. cbv zeta.
  rewrite confirmReceipt_run, Hdoc.
  rewrite (bool_decide_eq_true_2 _ Hbuyer), (bool_decide_eq_true_2 _ Hst).
  cbn [negb fst snd]. split; [reflexivity|].
  set (e1 := confirmed_document env e).
  set (w1 := with_escrows w (<[escrowId := e1]> (escrows w))).
  assert (Hdoc1 : escrows w1 !! escrowId = Some e1)
    by apply lookup_insert_eq.
  destruct (updateCondition_document escrowId buyer_confirmation
              confirmation_config w1 e1 Hdoc1)
    as (cs2 & Hdoc2 & _).
  set (w2 := fst (updateCondition escrowId buyer_confirmation
                    confirmation_config w1)) in *.
  set (e2 := apply_updates e1 [set_settlementConditions cs2]) in *.
  set (w3 := fst (logEscrowEvent escrowId "confirmed" "buyer" w2)).
  assert (Hdoc3 : escrows w3 !! escrowId = Some e2) by exact Hdoc2.
  destruct (evaluation_document env escrowId w3 e2 Hdoc3)
    as (e' & Hdoc' & Hcases).
  exists e'. split; [exact Hdoc'|].
  assert (Hconds :
    settlementConditions e' = evaluated_conditions env e2)
    by (destruct Hcases as [-> | (t & p & ->)]; reflexivity).
  split; [destruct Hcases as [-> | (t & p & ->)]; simpl; auto|].
  split.
  - unfold history_continues.
    destruct Hcases as [-> | (t & p & ->)]; simpl.
    + reflexivity.
    + now apply prefix_app_r.
  - rewrite Hconds. unfold evaluated_conditions.
    apply Forall_forall. intros c' Hin.
    apply list_elem_of_In, in_map_iff in Hin as (c & <- & _).
    intros Hty. change (type c = buyer_confirmation) in Hty.
    assert (Hmet : evaluate_isMet c e2 (clock env) = true)
      by (unfold evaluate_isMet; rewrite Hty; reflexivity).
    split; [exact Hmet|].
    unfold evaluateCondition; simpl. rewrite Hmet.
    destruct (metAt c) as [t|] eqn:Hat.
    + rewrite bool_decide_eq_true_2 by eauto. simpl. eauto.
    + rewrite bool_decide_eq_false_2 by (intros [? ?]; discriminate).
      simpl. eauto.
Qed.

(** The confirmation of the scenario. *)
Lemma confirmation_meets_its_condition_witness :
  exists e',
    Scenario.the_escrow Scenario.world_confirmed = Some e' /\
    (status e' = confirmed \/ status e' = released).
Proof.
  edestruct (confirmation_meets_its_condition
               (Scenario.env_at (2 * Scenario.hour))
               Scenario.escrow_id "buyer_1" Scenario.world_shipped)
    as (_ & e' & Hdoc & Hst & _).
  - vm_compute. reflexivity.
  - reflexivity.
  - simpl. rewrite !elem_of_cons. auto.
  - exists e'. auto.
Defined.

(* ===================================================================== *)
(** * The periodic sweep and its route                                    *)
(* ===================================================================== *)

Section Sweep.

Variables (listing : Listing) (envs : string -> Env).
Implicit Types (w : World) (e : EscrowTransaction)
  (acc : World * SweepResults) (doc : string * EscrowTransaction)
  (docs : list (string * EscrowTransaction)).

Lemma run_calls_app (cs cs' : list Call) w :
  run_calls (cs ++ cs') w = run_calls cs' (run_calls cs w).
Proof. apply fold_left_app. Qed.

Lemma sweep_document_world acc doc :
  fst (sweep_document envs acc doc)
  = run_call (evaluation_call envs (fst doc)) (fst acc).
Proof.
  destruct acc as [w results], doc as [escrowId escrow].
  unfold sweep_document, run_call; simpl.
  destruct (snd (evaluateSettlementConditions _ _ _)) as [r|];
    [destruct (bool_decide _); [|destruct (res_allConditionsMet r)]|];
    reflexivity.
Qed.

Lemma sweep_documents_world docs :
  forall acc,
    fst (fold_left (sweep_document envs) docs acc)
    = run_calls (evaluation_calls envs docs) (fst acc).
Proof.
  induction docs as [|doc docs IH]; intros acc; [reflexivity|].
  simpl. rewrite IH, sweep_document_world. reflexivity.
Qed.

(** The counters after one document. *)
Lemma sweep_document_counts acc doc :
  let acc' := sweep_document envs acc doc in
  processed (snd acc') = S (processed (snd acc)) /\
  errors (snd acc') = errors (snd acc) /\
  length (details (snd acc')) = S (length (details (snd acc))) /\
  (released_count (snd acc') +
     length (List.filter is_released_detail (details (snd acc)))
   = released_count (snd acc) +
     length (List.filter is_released_detail (details (snd acc'))))%nat.
Proof.
  destruct acc as [w results], doc as [escrowId escrow]. cbv zeta.
  unfold sweep_document.
  destruct (evaluateSettlementConditions_returns (envs escrowId) escrowId w)
    as (r & ->).
  destruct (bool_decide _); [|destruct (res_allConditionsMet r)];
    cbn [fst snd processed errors details released_count];
    rewrite List.filter_app, !length_app; simpl; repeat split; lia.
Qed.

Lemma sweep_documents_counts docs :
  forall acc,
    let acc' := fold_left (sweep_document envs) docs acc in
    processed (snd acc') = (processed (snd acc) + length docs)%nat /\
    errors (snd acc') = errors (snd acc) /\
    length (details (snd acc'))
      = (length (details (snd acc)) + length docs)%nat /\
    (released_count (snd acc') +
       length (List.filter is_released_detail (details (snd acc)))
     = released_count (snd acc) +
       length (List.filter is_released_detail (details (snd acc'))))%nat.
Proof.
  induction docs as [|doc docs IH]; intros acc; cbv zeta.
  - simpl. repeat split; lia.
  - simpl fold_left.
    destruct (IH (sweep_document envs acc doc)) as (Hp & He & Hd & Hr).
    destruct (sweep_document_counts acc doc) as (Hp1 & He1 & Hd1 & Hr1).
    simpl length. repeat split; lia.
Qed.

(** An evaluation that reports a release has stored the document
    [released]. *)
Lemma evaluation_reports_release (env : Env) (escrowId : string) w e r :
  escrows w !! escrowId = Some e ->
  snd (evaluateSettlementConditions env escrowId w) = Returned r ->
  res_released r = Some true ->
  exists transfer payout,
    escrows (fst (evaluateSettlementConditions env escrowId w)) !! escrowId
    = Some (released_document env transfer payout
              (stored_evaluation env e)).
Proof.
  intros Hdoc. rewrite evaluateSettlementConditions_run, Hdoc. cbv zeta.
  destruct (code_allMet (evaluated_conditions env e)) eqn:Hall;
    [|simpl; intros [= <-]; discriminate].
  destruct (bool_decide (status e ∈ [released; refunded; disputed]))
    eqn:Hgate;
    [simpl; intros [= <-]; discriminate|].
  apply bool_decide_eq_false_1 in Hgate. cbn [andb negb].
  rewrite (evaluation_release_run env escrowId w e Hdoc Hall Hgate).
  destruct (transferReply env) as [transfer|];
    [destruct (payoutReply env) as [payout|]|]; simpl;
    intros [= <-]; try discriminate.
  intros _. exists transfer, payout. apply lookup_insert_eq.
Qed.

Lemma listed_in_step w w' doc :
  world_step w w' -> listed_in w doc -> listed_in w' doc.
Proof.
  intros (Hdocs & _) (e & Hdoc & Hamt).
  specialize (Hdocs (fst doc)). rewrite Hdoc in Hdocs.
  inversion Hdocs as [? e' Hstep Hw Hw'|].
  exists e'. split; [congruence|].
  destruct (step_money _ _ Hstep) as (_ & _ & Hs & _). congruence.
Qed.

Lemma sweep_document_step acc doc :
  world_step (fst acc) (fst (sweep_document envs acc doc)).
Proof.
  rewrite sweep_document_world.
  eapply call_effect_world_step, run_call_effect.
Qed.

Lemma sweep_document_reports acc doc :
  listed_in (fst acc) doc ->
  reports_hold acc ->
  reports_hold (sweep_document envs acc doc).
Proof.
  intros (e1 & Hdoc1 & Hamt) Hold escrowId amt Hin.
  pose proof (sweep_document_step acc doc) as Hstep.
  assert (Hkept :
    detail_released escrowId amt ∈ details (snd acc) ->
    exists e, escrows (fst (sweep_document envs acc doc)) !! escrowId
              = Some e /\ status e = released /\ sellerAmount e = amt).
  { intros Hold'. destruct (Hold _ _ Hold') as (e & Hdoc & Hst & Ha).
    destruct Hstep as (Hdocs & _). specialize (Hdocs escrowId).
    rewrite Hdoc in Hdocs. inversion Hdocs as [? e' Hs Hw Hw'|].
    exists e'. split; [congruence|]. split.
    - rewrite <- Hst. apply edge_from_terminal; [|apply (step_status _ _ Hs)].
      rewrite Hst, !elem_of_cons. auto.
    - destruct (step_money _ _ Hs) as (_ & _ & Hsame & _). congruence. }
  clear Hstep. revert Hin.
  destruct acc as [w results], doc as [target escrow].
  cbn [fst snd] in *. unfold sweep_document.
  pose proof (evaluation_reports_release (envs target) target w e1) as Hrel.
  destruct (evaluateSettlementConditions (envs target) target w)
    as [w' [r|msg]] eqn:Hrun; cbn [fst snd] in *.
  - unfold sweep_document in Hkept. rewrite Hrun in Hkept.
    cbn [fst snd] in Hkept.
    destruct (bool_decide (res_released r = Some true)) eqn:Hflag.
    + apply bool_decide_eq_true_1 in Hflag.
      cbn [fst snd details] in *. rewrite elem_of_app, list_elem_of_singleton.
      intros [Hin | [= -> ->]]; [auto|].
      destruct (Hrel r Hdoc1 eq_refl Hflag) as (t & p & Hdoc').
      eexists. split; [exact Hdoc'|]. split; [reflexivity|]. exact Hamt.
    + destruct (res_allConditionsMet r); cbn [fst snd details] in *;
        rewrite elem_of_app, list_elem_of_singleton;
        (intros [Hin | Heq]; [auto | discriminate Heq]).
  - unfold sweep_document in Hkept. rewrite Hrun in Hkept.
    cbn [fst snd details] in *.
    rewrite elem_of_app, list_elem_of_singleton.
    intros [Hin | Heq]; [auto | discriminate Heq].
Qed.

Lemma sweep_documents_reports docs :
  forall acc,
    Forall (listed_in (fst acc)) docs ->
    reports_hold acc ->
    reports_hold (fold_left (sweep_document envs) docs acc).
Proof.
  induction docs as [|doc docs IH]; intros acc Hall Hold; [exact Hold|].
  inversion Hall as [|? ? Hdoc Hrest]; subst. simpl. apply IH.
  - eapply Forall_impl; [exact Hrest|]. intros doc'.
    apply listed_in_step, sweep_document_step.
  - now apply sweep_document_reports.
Qed.

Lemma answered_listed_in w (s : EscrowStatus) :
  answers_status_query listing ->
  Forall (listed_in w) (listing w s).
Proof.
  intros Hq. destruct (Hq w s) as (_ & _ & Hin).
  apply Forall_forall. intros [escrowId e] Hdoc.
  apply Hin in Hdoc as (Hdoc & _).
  exists e. split; [exact Hdoc | reflexivity].
Qed.

End Sweep.

(** The listing by identifier answers the status query. *)
Lemma listing_by_identifier_answers :
  answers_status_query listing_by_identifier.
Proof.
  intros w s. unfold listing_by_identifier.
  set (found := filter _ _).
  assert (Hsub : take 100 found `sublist_of` map_to_list (escrows w)).
  { etransitivity; [apply sublist_take | apply sublist_filter]. }
  split; [rewrite length_take; lia|]. split.
  - apply (sublist_NoDup _ ((map_to_list (escrows w)).*1));
      [apply NoDup_fst_map_to_list|].
    now apply fmap_sublist.
  - intros escrowId e Hin.
    assert (Hfound : (escrowId, e) ∈ found)
      by (eapply sublist_subseteq; [apply sublist_take | exact Hin]).
    apply list_elem_of_filter in Hfound as (Hst & Hdoc).
    apply elem_of_map_to_list in Hdoc. auto.
Qed.

Section SweepRuns.

Variables (listing : Listing) (envs : string -> Env).
Implicit Types (w : World) (acc : World * SweepResults)
  (ss : list EscrowStatus).

Lemma evaluation_calls_evaluate (docs : list (string * EscrowTransaction)) :
  Forall (fun c => call_operation c = op_evaluate /\
                   call_env c = envs (call_target c))
         (evaluation_calls envs docs).
Proof.
  apply Forall_forall. intros c Hin.
  apply list_elem_of_In, in_map_iff in Hin as (doc & <- & _). auto.
Qed.

(** The sweep of a list of statuses is a run of evaluations, one for
    each document counted. *)
Lemma sweep_statuses_run ss :
  forall acc,
    let acc' := fold_left (sweep_status listing envs) ss acc in
    exists cs,
      Forall (fun c => call_operation c = op_evaluate /\
                       call_env c = envs (call_target c)) cs /\
      fst acc' = run_calls cs (fst acc) /\
      processed (snd acc') = (processed (snd acc) + length cs)%nat /\
      length (details (snd acc'))
        = (length (details (snd acc)) + length cs)%nat /\
      errors (snd acc') = errors (snd acc) /\
      (released_count (snd acc') +
         length (List.filter is_released_detail (details (snd acc)))
       = released_count (snd acc) +
         length (List.filter is_released_detail (details (snd acc'))))%nat.
Proof.
  induction ss as [|s ss IH]; intros acc; cbv zeta.
  - exists []. simpl. repeat split; auto; lia.
  - simpl fold_left.
    destruct (IH (sweep_status listing envs acc s))
      as (cs & Hall & Hw & Hp & Hd & He & Hr).
    unfold sweep_status in Hw, Hp, Hd, He, Hr |- *.
    set (docs := listing (fst acc) s) in *.
    destruct (sweep_documents_counts envs docs acc)
      as (Hp1 & He1 & Hd1 & Hr1).
    rewrite sweep_documents_world in Hw.
    exists (evaluation_calls envs docs ++ cs).
    split; [apply Forall_app; split;
            [apply evaluation_calls_evaluate | exact Hall]|].
    split; [now rewrite run_calls_app|].
    assert (Hlen : length (evaluation_calls envs docs) = length docs)
      by apply length_map.
    rewrite length_app, Hlen. repeat split; lia.
Qed.

Lemma sweep_statuses_bound ss :
  answers_status_query listing ->
  forall acc,
    (processed (snd (fold_left (sweep_status listing envs) ss acc))
     <= processed (snd acc) + 100 * length ss)%nat.
Proof.
  intros Hq. induction ss as [|s ss IH]; intros acc; simpl fold_left.
  - simpl. lia.
  - etransitivity; [apply IH|]. unfold sweep_status.
    destruct (sweep_documents_counts envs (listing (fst acc) s) acc)
      as (-> & _).
    destruct (Hq (fst acc) s) as (Hlen & _). simpl length. lia.
Qed.

Lemma sweep_statuses_reports ss :
  answers_status_query listing ->
  forall acc,
    reports_hold acc ->
    reports_hold (fold_left (sweep_status listing envs) ss acc).
Proof.
  intros Hq. induction ss as [|s ss IH]; intros acc Hold; [exact Hold|].
  simpl fold_left. apply IH. unfold sweep_status.
  apply sweep_documents_reports; [|exact Hold].
  now apply answered_listed_in.
Qed.

Lemma run_calls_frame (cs : list Call) :
  forall w (escrowId : string),
    Forall (fun c => call_target c <> escrowId) cs ->
    escrows (run_calls cs w) !! escrowId = escrows w !! escrowId.
Proof.
  induction cs as [|c cs IH]; intros w escrowId Hall; [reflexivity|].
  inversion Hall as [|? ? Hc Hcs]; subst.
  rewrite run_calls_cons, (IH _ _ Hcs).
  apply (call_effect_frame (call_target c)); [apply run_call_effect|].
  congruence.
Qed.

Lemma sweep_statuses_skip ss (escrowId : string)
    (kept : option EscrowTransaction) :
  answers_status_query listing ->
  (forall e, kept = Some e -> status e ∉ ss) ->
  forall acc,
    escrows (fst acc) !! escrowId = kept ->
    escrows (fst (fold_left (sweep_status listing envs) ss acc)) !! escrowId
    = kept.
Proof.
  intros Hq. induction ss as [|s ss IH]; intros Hout acc Hacc;
    [exact Hacc|].
  simpl fold_left. apply IH.
  - intros e He Hin. apply (Hout e He). now right.
  - unfold sweep_status. rewrite sweep_documents_world, run_calls_frame;
      [exact Hacc|].
    apply Forall_forall. intros c Hin.
    apply list_elem_of_In, in_map_iff in Hin as ([target e] & <- & Hdoc).
    apply list_elem_of_In in Hdoc.
    destruct (Hq (fst acc) s) as (_ & _ & Hlisted).
    apply Hlisted in Hdoc as (Hdoc & Hst). simpl. intros ->.
    apply (Hout e); [congruence|]. rewrite Hst. now left.
Qed.

End SweepRuns.

(** X19. The sweep changes the store only through evaluations: its
    final world is the world after a sequence of calls of
    [evaluateSettlementConditions], one for each document it counted as
    processed, each with what the sweep found for that transaction.  It
    adds one detail per processed document, counts as released exactly
    the details that report a release, and its error counter is always
    zero, because an evaluation never throws (a failure inside it is
    returned as an unmet result). *)
Theorem sweep_is_a_run_of_evaluations :
  forall (listing : Listing) (envs : string -> Env) (w : World),
    let r := runEscrowAutoRelease listing envs w in
    exists cs,
      Forall (fun c => call_operation c = op_evaluate /\
                       call_env c = envs (call_target c)) cs /\
      fst r = run_calls cs w /\
      processed (snd r) = length cs /\
      length (details (snd r)) = length cs /\
      errors (snd r) = 0%nat /\
      released_count (snd r)
        = length (List.filter is_released_detail (details (snd r))).
Proof.
  intros listing envs w. cbv zeta. unfold runEscrowAutoRelease.
  destruct (sweep_statuses_run listing envs activeStatuses
              (w, empty_results))
    as (cs & Hall & Hw & Hp & Hd & He & Hr).
  exists cs. simpl in *. repeat split; auto; lia.
Qed.

(** X20. When the store answers the status queries (at most 100
    documents per query, each stored with the status asked for), the
    sweep processes at most 500 documents, and every release it reports
    is in the store: the transaction is stored [released] at the end of
    the sweep, and the reported amount is its seller amount. *)
Theorem reported_releases_are_in_the_store :
  forall (listing : Listing) (envs : string -> Env) (w : World),
    answers_status_query listing ->
    let r := runEscrowAutoRelease listing envs w in
    (processed (snd r) <= 500)%nat /\
    forall escrowId amt,
      detail_released escrowId amt ∈ details (snd r) ->
      exists e, escrows (fst r) !! escrowId = Some e /\
                status e = released /\ sellerAmount e = amt.
Proof.
  intros listing envs w Hq. cbv zeta. unfold runEscrowAutoRelease. split.
  - apply (sweep_statuses_bound listing envs activeStatuses Hq
             (w, empty_results)).
  - apply (sweep_statuses_reports listing envs activeStatuses Hq
             (w, empty_results)).
    intros escrowId amt Hin. simpl in Hin. now apply elem_of_nil in Hin.
Qed.

(** The sweep at hour 49 of the store that holds the confirmed purchase
    of the scenario. *)
Lemma reported_releases_are_in_the_store_witness :
  let r := runEscrowAutoRelease listing_by_identifier
             (fun _ => Scenario.env_at (49 * Scenario.hour))
             Scenario.world_confirmed in
  details (snd r) = [detail_released Scenario.escrow_id 42510] /\
  exists e, escrows (fst r) !! Scenario.escrow_id = Some e /\
            status e = released /\ sellerAmount e = 42510.
Proof.
  cbv zeta.
  assert (Hd : details (snd (runEscrowAutoRelease listing_by_identifier
                               (fun _ => Scenario.env_at (49 * Scenario.hour))
                               Scenario.world_confirmed))
               = [detail_released Scenario.escrow_id 42510])
    by (vm_compute; reflexivity).
  split; [exact Hd|].
  apply (reported_releases_are_in_the_store listing_by_identifier
           (fun _ => Scenario.env_at (49 * Scenario.hour))
           Scenario.world_confirmed listing_by_identifier_answers).
  rewrite Hd. apply list_elem_of_singleton. reflexivity.
Defined.

(** X21. The sweep leaves alone every transaction that is not in one of
    the five active statuses when it starts (a [pending_payment],
    [disputed], [released], [refunded], [cancelled] or [auto_released]
    one, or an identifier with no document): the document under that
    identifier is the same after the sweep. *)
Theorem sweep_skips_inactive_transactions :
  forall (listing : Listing) (envs : string -> Env) (w : World)
         (escrowId : string),
    answers_status_query listing ->
    (forall e, escrows w !! escrowId = Some e ->
               status e ∉ activeStatuses) ->
    escrows (fst (runEscrowAutoRelease listing envs w)) !! escrowId
    = escrows w !! escrowId.
Proof.
  intros listing envs w escrowId Hq Hout. unfold runEscrowAutoRelease.
  now apply (sweep_statuses_skip listing envs activeStatuses escrowId).
Qed.

(** The sweep of the store that holds the disputed purchase of the
    scenario. *)
Lemma sweep_skips_inactive_transactions_witness :
  escrows (fst (runEscrowAutoRelease listing_by_identifier
                  (fun _ => Scenario.env_at (49 * Scenario.hour))
                  Scenario.world_disputed)) !! Scenario.escrow_id
  = escrows Scenario.world_disputed !! Scenario.escrow_id.
Proof.
  apply (sweep_skips_inactive_transactions listing_by_identifier
           (fun _ => Scenario.env_at (49 * Scenario.hour))
           Scenario.world_disputed Scenario.escrow_id
           listing_by_identifier_answers).
  intros e He. vm_compute in He. injection He as <-.
  unfold activeStatuses. simpl. rewrite !elem_of_cons, elem_of_nil.
  intros [H | [H | [H | [H | [H | []]]]]]; discriminate H.
Defined.

(** X22. The route of the sweep answers 401 exactly when a non-empty
    [CRON_SECRET] is configured and the [authorization] header is not
    exactly [Bearer ] followed by the secret; it then leaves the store
    untouched.  In every other case (the secret unset or empty, whatever
    the header, or the exact header) it runs the sweep and answers with
    its results.  [GET] does the same. *)
Theorem route_runs_the_sweep_unless_secret_mismatch :
  forall (cronSecret authHeader : option string) (listing : Listing)
         (envs : string -> Env) (w : World),
    let r := POST cronSecret authHeader listing envs w in
    let sweep := runEscrowAutoRelease listing envs w in
    let refused :=
      exists secret, cronSecret = Some secret /\ secret <> "" /\
                     authHeader <> Some ("Bearer " +:+ secret) in
    (refused -> r = (w, status_401)) /\
    (~ refused -> r = (fst sweep, status_200 (snd sweep))) /\
    GET cronSecret authHeader listing envs w = r.
Proof.
  intros cronSecret authHeader listing envs w. cbv zeta.
  unfold GET, POST, runAllEscrowCronJobs.
  split; [|split; [|reflexivity]].
  - intros (secret & -> & Hne & Hhdr). simpl.
    destruct (String.eqb_spec secret ""); [contradiction|]. simpl.
    rewrite (bool_decide_eq_false_2 _ Hhdr). simpl.
    now rewrite orb_true_r.
  - intros Hopen.
    destruct cronSecret as [secret|]; [|reflexivity]. simpl.
    destruct (String.eqb_spec secret "") as [-> | Hne]; [reflexivity|].
    simpl.
    destruct (decide (authHeader = Some ("Bearer " +:+ secret)))
      as [-> | Hhdr].
    + rewrite bool_decide_eq_true_2 by reflexivity. reflexivity.
    + exfalso. apply Hopen. eauto.
Qed.

(** A request with the wrong secret, on the store of the confirmed
    purchase. *)
Lemma route_runs_the_sweep_unless_secret_mismatch_witness :
  POST (Some "s3cret") (Some "Bearer guess") listing_by_identifier
       (fun _ => Scenario.env_at (49 * Scenario.hour))
       Scenario.world_confirmed
  = (Scenario.world_confirmed, status_401).
Proof.
  destruct (route_runs_the_sweep_unless_secret_mismatch
              (Some "s3cret") (Some "Bearer guess") listing_by_identifier
              (fun _ => Scenario.env_at (49 * Scenario.hour))
              Scenario.world_confirmed) as (Hrefused & _).
  apply Hrefused. exists "s3cret". repeat split; discriminate.
Defined.
